(** * Policy analysis service: orchestration core

    A shallow embedding of
      - [services/claude_analyzer.py]  (the analyzer and its response parser),
      - [src/services/orchestrator.py] (the job pipeline, the status store,
        the duration computation and the callback delivery),
      - [src/services/supabase_client.py] (the result store client),
      - [webhook.py] (the webhook handler that queues the jobs),
    followed by the properties of the orchestration core.

    Python values are modelled by [pyval]; the status store is a finite map
    from job id to entry, and an entry is a finite map from field name to
    value, as in the source ([Dict[str, Dict[str, Any]]]).  Effects are
    threaded through a state-and-exception monad [M]. *)

From Stdlib Require Import ZArith NArith List Bool Ascii String Lia.
From Stdlib Require Import Floats DecimalString DecimalN DecimalZ.
From stdpp Require Import base option gmap strings list fin_maps.

Set Warnings "-register-all,-inexact-float".
Local Open Scope string_scope.
Local Open Scope Z_scope.
Local Open Scope list_scope.

(** ** Python values *)

(** The values that flow through the pipeline: what [json.loads] produces,
    what the payload carries, and what the orchestrator builds.  A [PDict]
    keeps its items in insertion order, as Python dicts do. *)
Inductive pyval : Type :=
| PNone
| PBool (b : bool)
| PInt (z : Z)
| PFloat (f : float)
| PStr (s : string)
| PList (l : list pyval)
| PDict (d : list (string * pyval)).

(** [bool(v)]: the truth value Python gives to [v] in [if v:]. *)
Definition truthy (v : pyval) : bool :=
  match v with
  | PNone => false
  | PBool b => b
  | PInt z => negb (Z.eqb z 0)
  | PFloat f => negb (PrimFloat.eqb f 0%float)
  | PStr s => negb (String.eqb s "")
  | PList l => match l with [] => false | _ => true end
  | PDict d => match d with [] => false | _ => true end
  end.

(** [type(v).__name__], used in the messages of [TypeError] and
    [AttributeError]. *)
Definition type_name (v : pyval) : string :=
  match v with
  | PNone => "NoneType"
  | PBool _ => "bool"
  | PInt _ => "int"
  | PFloat _ => "float"
  | PStr _ => "str"
  | PList _ => "list"
  | PDict _ => "dict"
  end.

(** Lists and dicts are unhashable; every other value can be a dict key. *)
Definition hashable (v : pyval) : bool :=
  match v with
  | PList _ | PDict _ => false
  | _ => true
  end.

(** *** Dict items *)

Fixpoint dict_lookup (d : list (string * pyval)) (k : string) : option pyval :=
  match d with
  | [] => None
  | (k', v) :: d' => if String.eqb k' k then Some v else dict_lookup d' k
  end.

(** [d[k] = v]: an existing key keeps its position, a new key goes last. *)
Fixpoint dict_set (d : list (string * pyval)) (k : string) (v : pyval)
  : list (string * pyval) :=
  match d with
  | [] => [(k, v)]
  | (k', v') :: d' =>
      if String.eqb k' k then (k', v) :: d' else (k', v') :: dict_set d' k v
  end.

(** ** Exceptions *)

(** The exception classes the modelled code raises or catches.  All of them
    derive from [Exception]; [JSONDecodeError] is the one class that
    [_parse_analysis_json] catches, [APIError] the one [analyze_policy]
    treats apart. *)
Inductive exn : Type :=
| ValueError (msg : string)
| TypeError (msg : string)
| AttributeError (msg : string)
| KeyError (key : string)
| JSONDecodeError (msg : string)
| APIError (msg : string)
| Exception_ (msg : string).

(** [str(e)].  A [KeyError] prints the repr of its key. *)
Definition exn_str (e : exn) : string :=
  match e with
  | ValueError m | TypeError m | AttributeError m
  | JSONDecodeError m | APIError m | Exception_ m => m
  | KeyError k => "'" +:+ k +:+ "'"
  end.

Definition is_JSONDecodeError (e : exn) : bool :=
  match e with JSONDecodeError _ => true | _ => false end.

Definition is_APIError (e : exn) : bool :=
  match e with APIError _ => true | _ => false end.

(** The outcome of evaluating a Python expression or statement. *)
Inductive res (A : Type) : Type :=
| Ok (a : A)
| Raise (e : exn).
Arguments Ok {A} a.
Arguments Raise {A} e.

(** [v.get(k, default)]: defined on dicts only. *)
Definition py_get (v : pyval) (k : string) (default : pyval) : res pyval :=
  match v with
  | PDict d => Ok (match dict_lookup d k with Some x => x | None => default end)
  | _ => Raise (AttributeError
                  ("'" +:+ type_name v +:+ "' object has no attribute 'get'"))
  end.

(** [v[k]] with a string key [k]. *)
Definition py_getitem (v : pyval) (k : string) : res pyval :=
  match v with
  | PDict d =>
      match dict_lookup d k with
      | Some x => Ok x
      | None => Raise (KeyError k)
      end
  | PStr _ => Raise (TypeError "string indices must be integers, not 'str'")
  | PList _ =>
      Raise (TypeError "list indices must be integers or slices, not str")
  | _ => Raise (TypeError ("'" +:+ type_name v +:+ "' object is not subscriptable"))
  end.

(** [v[k] = x] with a string key [k]. *)
Definition py_setitem (v : pyval) (k : string) (x : pyval) : res pyval :=
  match v with
  | PDict d => Ok (PDict (dict_set d k x))
  | PList _ =>
      Raise (TypeError "list indices must be integers or slices, not str")
  | _ => Raise (TypeError
                  ("'" +:+ type_name v +:+ "' object does not support item assignment"))
  end.

(** [try: return attempt / except json.JSONDecodeError: pass], followed by
    [rest].  Any other exception propagates. *)
Definition return_unless_decode_error (attempt rest : res pyval) : res pyval :=
  match attempt with
  | Ok v => Ok v
  | Raise e => if is_JSONDecodeError e then rest else Raise e
  end.

(** ** Regular expressions

    The two patterns of [_parse_analysis_json] use literals, an optional
    non-capturing group, greedy and lazy stars over a character class and
    one capture group.  [re_match] is the backtracking matcher of Python's
    [re] for that fragment: alternatives are tried in priority order (greedy
    takes more first, lazy takes less first) and the first complete match
    wins. *)
Module Re.

Inductive re : Type :=
| Lit (s : string)
| Opt (r : re)
| Star (greedy : bool) (cls : ascii -> bool)
| Cat (r1 r2 : re)
| Group (r : re).

(** [strip_prefix p s = Some rest] when [s = p ++ rest]. *)
Fixpoint strip_prefix (p s : string) : option string :=
  match p, s with
  | EmptyString, _ => Some s
  | String a p', String b s' =>
      if Ascii.eqb a b then strip_prefix p' s' else None
  | String _ _, EmptyString => None
  end.

Fixpoint take (n : nat) (s : string) : string :=
  match n, s with
  | S n', String c s' => String c (take n' s')
  | _, _ => EmptyString
  end.

(** The part of [s] consumed when [rest] is what remains of it. *)
Definition consumed (s rest : string) : string :=
  take (String.length s - String.length rest) s.

Section Star.
Context {R : Type} (cls : ascii -> bool) (k : string -> option R).

Fixpoint star_greedy (s : string) : option R :=
  match s with
  | String c s' =>
      if cls c then
        match star_greedy s' with
        | Some r => Some r
        | None => k s
        end
      else k s
  | EmptyString => k s
  end.

Fixpoint star_lazy (s : string) : option R :=
  match k s with
  | Some r => Some r
  | None =>
      match s with
      | String c s' => if cls c then star_lazy s' else None
      | EmptyString => None
      end
  end.
End Star.

(** [re_match r s cap k]: match [r] at the start of [s]; [k] receives what
    remains and the text of the capture group. *)
Fixpoint re_match {R : Type} (r : re) (s : string) (cap : option string)
    (k : string -> option string -> option R) : option R :=
  match r with
  | Lit l =>
      match strip_prefix l s with
      | Some rest => k rest cap
      | None => None
      end
  | Opt r' =>
      match re_match r' s cap k with
      | Some x => Some x
      | None => k s cap
      end
  | Star true cls => star_greedy cls (fun rest => k rest cap) s
  | Star false cls => star_lazy cls (fun rest => k rest cap) s
  | Cat r1 r2 => re_match r1 s cap (fun s' cap' => re_match r2 s' cap' k)
  | Group r' => re_match r' s cap (fun s' _ => k s' (Some (consumed s s')))
  end.

(** A match object: [group(0)] and [group(1)]. *)
Record match_obj := { group0 : string; group1 : option string }.

Definition match_at (r : re) (s : string) : option match_obj :=
  re_match r s None
    (fun rest cap => Some {| group0 := consumed s rest; group1 := cap |}).

(** [re.search(r, s)]: the match at the leftmost position that has one. *)
Fixpoint search (r : re) (s : string) : option match_obj :=
  match match_at r s with
  | Some m => Some m
  | None =>
      match s with
      | String _ s' => search r s'
      | EmptyString => None
      end
  end.

(** [\s] on [str] patterns: the characters for which [str.isspace] holds
    (code points below 256). *)
Definition is_space (c : ascii) : bool :=
  let n := nat_of_ascii c in
  ((9 <=? n) && (n <=? 13) || (28 <=? n) && (n <=? 32)
   || (n =? 133) || (n =? 160))%nat.

(** [[\s\S]]: any character. *)
Definition any_char (_ : ascii) : bool := true.

End Re.

(** ** The response parser ([ClaudeAnalyzer._parse_analysis_json]) *)

(** [r'```(?:json)?\s*([\s\S]*?)\s*```'] *)
Definition fence_re : Re.re :=
  Re.Cat (Re.Lit "```")
   (Re.Cat (Re.Opt (Re.Lit "json"))
    (Re.Cat (Re.Star true Re.is_space)
     (Re.Cat (Re.Group (Re.Star false Re.any_char))
      (Re.Cat (Re.Star true Re.is_space) (Re.Lit "```"))))).

(** [r'\{[\s\S]*\}'] *)
Definition brace_re : Re.re :=
  Re.Cat (Re.Lit "{") (Re.Cat (Re.Star true Re.any_char) (Re.Lit "}")).

(** [match.group(1)]; an unset group is [None], which [json.loads] rejects
    with a [TypeError]. *)
Definition group1_text (m : Re.match_obj) : res string :=
  match Re.group1 m with
  | Some s => Ok s
  | None => Raise (TypeError "the JSON object must be str, bytes or bytearray, not NoneType")
  end.

Section ResponseParser.
(** [json.loads] on a [str]: the decoded value, or [None] for a
    [json.JSONDecodeError]. *)
Variable json_loads : string -> option pyval.

Definition loads (text : string) : res pyval :=
  match json_loads text with
  | Some v => Ok v
  | None => Raise (JSONDecodeError "Expecting value")
  end.

(** [json_match = re.search(...)], then
    [if json_match: try: return attempt(json_match) / except
    json.JSONDecodeError: pass], followed by [rest]. *)
Definition if_match (json_match : option Re.match_obj)
    (attempt : Re.match_obj -> res pyval) (rest : res pyval) : res pyval :=
  match json_match with
  | Some m => return_unless_decode_error (attempt m) rest
  | None => rest
  end.

Definition _parse_analysis_json (text : string) : res pyval :=
  (* Try direct parse first *)
  return_unless_decode_error (loads text)
    ((* Try ```json ... ``` blocks *)
     if_match (Re.search fence_re text)
       (fun json_match =>
          match group1_text json_match with
          | Ok inner => loads inner
          | Raise e => Raise e
          end)
       ((* Try to find JSON object pattern *)
        if_match (Re.search brace_re text)
          (fun json_match => loads (Re.group0 json_match))
          (Ok PNone))).
End ResponseParser.

(** ** The parser as the specification words it

    "An ordered list of pure functions text -> optional(object), tried in
    sequence": decode the whole text; decode the inner content of a fenced
    block; decode the span from the first opening brace to the last closing
    brace. *)
Module ParserSpec.

(** [split_first marker s = Some (before, after)] at the first occurrence
    of [marker] in [s]. *)
Fixpoint split_first (marker s : string) : option (string * string) :=
  match Re.strip_prefix marker s with
  | Some after => Some (EmptyString, after)
  | None =>
      match s with
      | String c s' =>
          match split_first marker s' with
          | Some (before, after) => Some (String c before, after)
          | None => None
          end
      | EmptyString => None
      end
  end.

Fixpoint lstrip (s : string) : string :=
  match s with
  | String c s' => if Re.is_space c then lstrip s' else s
  | EmptyString => EmptyString
  end.

Fixpoint rstrip (s : string) : string :=
  match s with
  | String c s' =>
      match rstrip s' with
      | EmptyString => if Re.is_space c then EmptyString else String c EmptyString
      | r => String c r
      end
  | EmptyString => EmptyString
  end.

Definition trim (s : string) : string := rstrip (lstrip s).

Definition skip_tag (tag s : string) : string :=
  match Re.strip_prefix tag s with
  | Some s' => s'
  | None => s
  end.

(** The inner content of the first block opened by three backticks,
    optionally tagged [json], and closed by the next three backticks,
    without the white space around it. *)
Definition fenced_inner (text : string) : option string :=
  match split_first "```" text with
  | Some (_, body) =>
      match split_first "```" (skip_tag "json" body) with
      | Some (inner, _) => Some (trim inner)
      | None => None
      end
  | None => None
  end.

(** The prefix of [s] that ends with the last occurrence of [c]. *)
Fixpoint upto_last (c : ascii) (s : string) : option string :=
  match s with
  | String a s' =>
      match upto_last c s' with
      | Some p => Some (String a p)
      | None => if Ascii.eqb a c then Some (String a EmptyString) else None
      end
  | EmptyString => None
  end.

(** The span from the first ["{"] to the last ["}"] after it. *)
Fixpoint outer_brace_span (text : string) : option string :=
  match text with
  | String a s' =>
      if Ascii.eqb a "{" then
        match upto_last "}" s' with
        | Some p => Some (String a p)
        | None => None
        end
      else outer_brace_span s'
  | EmptyString => None
  end.

(** First success wins. *)
Fixpoint first_success {A B : Type} (strategies : list (A -> option B)) (x : A)
  : option B :=
  match strategies with
  | [] => None
  | f :: rest =>
      match f x with
      | Some y => Some y
      | None => first_success rest x
      end
  end.

Section Strategies.
Variable json_loads : string -> option pyval.

Definition decode_whole (text : string) : option pyval := json_loads text.

Definition decode_fenced (text : string) : option pyval :=
  match fenced_inner text with
  | Some inner => json_loads inner
  | None => None
  end.

Definition decode_braces (text : string) : option pyval :=
  match outer_brace_span text with
  | Some span => json_loads span
  | None => None
  end.

Definition strategies : list (string -> option pyval) :=
  [decode_whole; decode_fenced; decode_braces].

(** The parser's result: the first success, or "no result". *)
Definition parse (text : string) : pyval :=
  match first_success strategies text with
  | Some v => v
  | None => PNone
  end.
End Strategies.

End ParserSpec.

(** ** Floating point: durations

    [float] is Rocq's primitive binary64, the format of Python's [float]. *)

(** An integer as an (unnormalised) floating-point datum. *)
Definition int_sf (z : Z) : spec_float :=
  match z with
  | Z0 => S754_zero false
  | Zpos p => S754_finite false p 0
  | Zneg p => S754_finite true p 0
  end.

(** [a / b] on Python ints: the binary64 nearest to the exact quotient. *)
Definition int_true_div (a b : Z) : float :=
  SF2Prim (SFdiv prec emax (int_sf a) (int_sf b)).

(** [timedelta.total_seconds()] of a difference of [us] microseconds. *)
Definition total_seconds (us : Z) : float := int_true_div us 1000000.

(** The integer nearest to [n / d] for [d > 0], ties to even. *)
Definition round_half_even (n d : Z) : Z :=
  let q := n / d in
  match 2 * (n mod d) ?= d with
  | Lt => q
  | Gt => q + 1
  | Eq => if Z.even q then q else q + 1
  end.

(** The number of hundredths nearest to the magnitude [m * 2^e]. *)
Definition hundredths (m : positive) (e : Z) : Z :=
  if 0 <=? e then 100 * Zpos m * 2 ^ e
  else round_half_even (100 * Zpos m) (2 ^ (- e)).

(** [round(x, 2)]: the exact value of [x] is rounded to two decimals (ties
    to even) and the decimal is converted back to the nearest binary64;
    zeros, infinities and NaN round to themselves. *)
Definition py_round2 (x : float) : float :=
  match Prim2SF x with
  | S754_finite s m e =>
      let h := match hundredths m e with
               | Zpos p => S754_finite s p 0
               | _ => S754_zero s
               end in
      SF2Prim (SFdiv prec emax h (int_sf 100))
  | _ => x
  end.

(** ** The environment

    Everything the orchestration core does not define itself: the settings,
    the library functions and the collaborators, each with the interface the
    core uses. *)

(** [config.settings] *)
Record Settings := {
  ANTHROPIC_API_KEY : string;
  CALLBACK_TIMEOUT : Z;
  REPORTS_DIR : string;
  CLAUDE_MODEL : string;
  CLAUDE_MAX_TOKENS : Z;
}.

(** The text constants of [prompts/system_prompt.py]; their wording plays no
    part in the control flow. *)
Record PromptText := {
  COVERAGE_CATEGORIES : string;
  SCORING_SCALE : string;
  INDUSTRY_CRITERIA : list (string * string);
  INDUSTRY_DEFAULT : string;       (* INDUSTRY_CRITERIA["Other/General"] *)
  RED_FLAGS : string;
  OUTPUT_FORMAT : string;
  ROLE_TEXT : string;              (* "You are an expert ..." up to the tables *)
  APPROACH_TEXT : string;          (* "## ANALYSIS APPROACH" ... criteria *)
  RENEWAL_NOTE : string;
}.

(** What [extractor.extract_from_file] and [extract_from_url] return: the
    attributes the orchestrator reads. *)
Module ExtractionResult.
Record t := { success : bool; text : string; page_count : Z; error : pyval }.
End ExtractionResult.

(** What [generator.generate_report] returns: the attributes the
    orchestrator reads. *)
Module ReportResult.
Record t := { success : bool; report_path : pyval; error : pyval }.
End ReportResult.

(** [AnalysisResult] of [claude_analyzer.py]. *)
Module AnalysisResult.
Record t := {
  success : bool;
  analysis_data : pyval;
  raw_response : pyval;
  tokens_used : pyval;
  error : pyval;
}.
End AnalysisResult.

(** [client.messages.create(...)] followed by the reading of
    [response.content[0].text] and [response.usage]: the text and the token
    counts, or the exception raised. *)
Inductive api_outcome : Type :=
| ApiResponse (raw_text : string) (input_tokens output_tokens : Z)
| ApiRaises (e : exn).

(** The POST of [aiohttp]: a response with a status code, or an I/O fault
    (connection error, timeout, ...). *)
Inductive http_outcome : Type :=
| HttpResponse (status : Z)
| HttpFault (msg : string).

(** [datetime]: instants are microseconds since the epoch;
    [fromisoformat] inverts [isoformat], which never yields an empty
    string. *)
Class DateTime := {
  isoformat : N -> string;
  fromisoformat : string -> option N;
  fromisoformat_isoformat : forall t, fromisoformat (isoformat t) = Some t;
  isoformat_nonempty : forall t, isoformat t <> EmptyString;
}.

Record World := {
  settings : Settings;
  prompts : PromptText;
  (** [json.loads]: [None] stands for [json.JSONDecodeError] *)
  json_loads : string -> option pyval;
  (** [str] of a float, list or dict *)
  repr_other : pyval -> string;
  (** the wall clock advances by [tick n] before its [n]-th reading *)
  tick : nat -> N;
  extract_from_file : pyval -> ExtractionResult.t;
  extract_from_url : string -> ExtractionResult.t;
  messages_create : string -> Z -> string -> string -> api_outcome;
  generate_report : pyval -> string -> ReportResult.t;
  (** whether the Supabase client was initialised, and the outcome of the
      table update: [Some msg] when it raises *)
  supabase_client : bool;
  supabase_execute : pyval -> string -> pyval -> string -> option string;
  http_post : pyval -> pyval -> list (string * string) -> Z -> http_outcome;
}.

(** ** State, events and the monad *)

Inductive level : Type := INFO | WARNING | ERROR.

(** One status-store entry and the store ([analysis_status_store]). *)
Abbreviation entry := (gmap string pyval).
Abbreviation status_store := (gmap string (gmap string pyval)).

(** What a run does that can be observed from outside: log records, calls
    to collaborators, and every write to the status store (with the store
    as it is after the write). *)
Inductive event : Type :=
| EvLog (lvl : level) (msg : string)
| EvExtractFile (path : pyval)
| EvExtractUrl (url : string)
| EvAnalyze (policy_text : string)
    (client_name client_industry policy_type is_renewal : pyval)
| EvClaude (model : string) (max_tokens : Z) (user_message system : string)
    (outcome : api_outcome)
| EvRender (analysis_data : pyval) (output_dir : string) (outcome : ReportResult.t)
| EvPersist (policy_id : pyval) (analysis_id : string) (analysis_data : pyval)
    (status : string)
| EvPost (url : pyval) (json : pyval) (headers : list (string * string))
    (timeout : Z) (outcome : http_outcome)
| EvStore (snapshot : status_store).

Record state := {
  store : status_store;
  now : N;         (* the last clock reading *)
  reads : nat;     (* how many times the clock was read *)
}.

(** A computation: an outcome, the new state and the events emitted. *)
Definition M (A : Type) : Type := state -> res A * state * list event.

Definition ret {A} (a : A) : M A := fun s => (Ok a, s, []).

Definition raise {A} (e : exn) : M A := fun s => (Raise e, s, []).

Definition bind {A B} (m : M A) (f : A -> M B) : M B :=
  fun s =>
    match m s with
    | (Ok a, s1, ev1) =>
        match f a s1 with
        | (r, s2, ev2) => (r, s2, ev1 ++ ev2)
        end
    | (Raise e, s1, ev1) => (Raise e, s1, ev1)
    end.

(** [try: body / except Exception as e: handler(e)] *)
Definition try_except {A} (body : M A) (handler : exn -> M A) : M A :=
  fun s =>
    match body s with
    | (Ok a, s1, ev1) => (Ok a, s1, ev1)
    | (Raise e, s1, ev1) =>
        match handler e s1 with
        | (r, s2, ev2) => (r, s2, ev1 ++ ev2)
        end
    end.

Definition lift {A} (r : res A) : M A := fun s => (r, s, []).

Definition emit (e : event) : M unit := fun s => (Ok tt, s, [e]).

Definition get_store : M status_store := fun s => (Ok (store s), s, []).

Definition put_store (st : status_store) : M unit :=
  fun s => (Ok tt, {| store := st; now := now s; reads := reads s |}, [EvStore st]).

Declare Scope monad_scope.
Delimit Scope monad_scope with M.
Notation "'let*' x ':=' m 'in' k" := (bind m (fun x => k))
  (at level 10, x name, m at level 100, k at level 200) : monad_scope.
Notation "m ;; k" := (bind m (fun _ => k))
  (at level 100, k at level 200, right associativity) : monad_scope.
Local Open Scope monad_scope.

(** [when c: m] *)
Definition when (c : bool) (m : M unit) : M unit := if c then m else ret tt.

(** ** Formatting *)

Definition str_of_Z (z : Z) : string := NilZero.string_of_int (Z.to_int z).

Definition str_of_bool (b : bool) : string := if b then "True" else "False".

Section WithWorld.
Context (W : World) {DT : DateTime}.

(** [str(v)], also what an f-string inserts for [{v}]. *)
Definition py_str (v : pyval) : string :=
  match v with
  | PNone => "None"
  | PBool b => str_of_bool b
  | PInt z => str_of_Z z
  | PStr s => s
  | _ => repr_other W v
  end.

Definition logger (lvl : level) (msg : string) : M unit := emit (EvLog lvl msg).

(** [datetime.utcnow()] *)
Definition utcnow : M N :=
  fun s =>
    let t := (now s + tick W (reads s))%N in
    (Ok t, {| store := store s; now := t; reads := S (reads s) |}, []).

(** [payload.get(k, default)] *)
Definition payload_get (payload : list (string * pyval)) (k : string)
    (default : pyval) : pyval :=
  match dict_lookup payload k with
  | Some v => v
  | None => default
  end.

(** *** [prompts/system_prompt.py] *)

Definition nl : string := String "010" EmptyString.

(** [INDUSTRY_CRITERIA.get(client_industry, INDUSTRY_CRITERIA["Other/General"])]:
    the key is hashed first. *)
Definition industry_criteria (client_industry : pyval) : res string :=
  if hashable client_industry then
    Ok (match client_industry with
        | PStr k =>
            match List.find (fun kv => String.eqb (fst kv) k)
                            (INDUSTRY_CRITERIA (prompts W)) with
            | Some kv => snd kv
            | None => INDUSTRY_DEFAULT (prompts W)
            end
        | _ => INDUSTRY_DEFAULT (prompts W)
        end)
  else Raise (TypeError ("unhashable type: '" +:+ type_name client_industry +:+ "'")).

Definition get_analysis_prompt (client_industry is_renewal : pyval) : res string :=
  match industry_criteria client_industry with
  | Ok criteria =>
      let P := prompts W in
      Ok (ROLE_TEXT P +:+ nl +:+ COVERAGE_CATEGORIES P +:+ nl +:+ nl
          +:+ SCORING_SCALE P +:+ nl +:+ nl +:+ criteria +:+ nl +:+ nl
          +:+ RED_FLAGS P +:+ nl +:+ nl +:+ APPROACH_TEXT P +:+ nl +:+ nl
          +:+ (if truthy is_renewal then RENEWAL_NOTE P else "") +:+ nl +:+ nl
          +:+ OUTPUT_FORMAT P +:+ nl)
  | Raise e => Raise e
  end.

(** *** [ClaudeAnalyzer.analyze_policy] *)

Definition user_message (policy_text : string)
    (client_name client_industry policy_type is_renewal : pyval) : string :=
  "Please analyze the following cyber insurance policy for "
    +:+ py_str client_name +:+ "." +:+ nl +:+ nl
    +:+ "**Client Industry:** " +:+ py_str client_industry +:+ nl
    +:+ "**Policy Type:** " +:+ py_str policy_type +:+ nl
    +:+ "**Renewal:** " +:+ (if truthy is_renewal then "Yes" else "No (New Policy)")
    +:+ nl +:+ nl +:+ "---" +:+ nl +:+ nl
    +:+ "**POLICY DOCUMENT TEXT:**" +:+ nl +:+ nl
    +:+ policy_text +:+ nl +:+ nl +:+ "---" +:+ nl +:+ nl
    +:+ "Please provide your complete analysis following the structured format specified in your instructions. Remember to:" +:+ nl
    +:+ "1. Score each coverage area on the 0-10 scale" +:+ nl
    +:+ "2. Flag any red flags or critical deficiencies" +:+ nl
    +:+ "3. Apply industry-specific analysis criteria for " +:+ py_str client_industry +:+ nl
    +:+ "4. Provide a clear binding recommendation with rationale" +:+ nl
    +:+ "5. Output valid JSON that can be parsed programmatically" +:+ nl.

Definition analysis_failure (msg : string) : AnalysisResult.t :=
  {| AnalysisResult.success := false;
     AnalysisResult.analysis_data := PNone;
     AnalysisResult.raw_response := PNone;
     AnalysisResult.tokens_used := PNone;
     AnalysisResult.error := PStr msg |}.

(** [analysis_data.get('executive_summary', {}).get('key_metrics', {})
      .get('overall_maturity_score', 'N/A')], the value the success log
    line prints. *)
Definition logged_score (analysis_data : pyval) : res pyval :=
  match py_get analysis_data "executive_summary" (PDict []) with
  | Ok exec_summary =>
      match py_get exec_summary "key_metrics" (PDict []) with
      | Ok key_metrics => py_get key_metrics "overall_maturity_score" (PStr "N/A")
      | Raise e => Raise e
      end
  | Raise e => Raise e
  end.

(** Log texts are given without the pictographs that open some of them in
    the source. *)
Definition analyze_policy (policy_text : string)
    (client_name client_industry policy_type is_renewal : pyval)
  : M AnalysisResult.t :=
  emit (EvAnalyze policy_text client_name client_industry policy_type is_renewal);;
  logger INFO ("Starting Claude analysis for " +:+ py_str client_name);;
  logger INFO ("   Industry: " +:+ py_str client_industry);;
  logger INFO ("   Policy text length: "
               +:+ str_of_Z (Z.of_nat (String.length policy_text)) +:+ " chars");;
  if String.eqb (ANTHROPIC_API_KEY (settings W)) "" then
    ret (analysis_failure "Anthropic API key not configured")
  else
    (* Build the analysis prompt *)
    let* system_prompt := lift (get_analysis_prompt client_industry is_renewal) in
    let message :=
      user_message policy_text client_name client_industry policy_type is_renewal in
    try_except
      ((* Call Claude API *)
       let outcome := messages_create W (CLAUDE_MODEL (settings W))
                        (CLAUDE_MAX_TOKENS (settings W)) message system_prompt in
       emit (EvClaude (CLAUDE_MODEL (settings W)) (CLAUDE_MAX_TOKENS (settings W))
               message system_prompt outcome);;
       match outcome with
       | ApiRaises e => raise e
       | ApiResponse raw_text input_tokens output_tokens =>
           let tokens_used := input_tokens + output_tokens in
           logger INFO ("   Claude response: "
                        +:+ str_of_Z (Z.of_nat (String.length raw_text)) +:+ " chars, "
                        +:+ str_of_Z tokens_used +:+ " tokens");;
           (* Parse JSON from response *)
           let* analysis_data := lift (_parse_analysis_json (json_loads W) raw_text) in
           if truthy analysis_data then
             (* Enrich with metadata *)
             let* analysis_data :=
               lift (py_setitem analysis_data "_metadata"
                       (PDict [("client_name", client_name);
                               ("client_industry", client_industry);
                               ("policy_type", policy_type);
                               ("is_renewal", is_renewal);
                               ("model_used", PStr (CLAUDE_MODEL (settings W)));
                               ("tokens_used", PInt tokens_used)])) in
             let* score := lift (logged_score analysis_data) in
             logger INFO ("Analysis complete. Overall score: " +:+ py_str score);;
             ret {| AnalysisResult.success := true;
                    AnalysisResult.analysis_data := analysis_data;
                    AnalysisResult.raw_response := PStr raw_text;
                    AnalysisResult.tokens_used := PInt tokens_used;
                    AnalysisResult.error := PNone |}
           else
             (* Could not parse JSON - return raw text *)
             logger WARNING "Could not parse structured JSON from response";;
             ret {| AnalysisResult.success := true;
                    AnalysisResult.analysis_data := PDict [("raw_analysis", PStr raw_text)];
                    AnalysisResult.raw_response := PStr raw_text;
                    AnalysisResult.tokens_used := PInt tokens_used;
                    AnalysisResult.error := PNone |}
       end)
      (fun e =>
         if is_APIError e then
           logger ERROR ("Anthropic API error: " +:+ exn_str e);;
           ret (analysis_failure ("API error: " +:+ exn_str e))
         else
           logger ERROR ("Analysis failed: " +:+ exn_str e);;
           ret (analysis_failure (exn_str e))).

(** *** [SupabaseService.store_analysis_result] *)

Definition store_analysis_result (policy_id : pyval) (analysis_id : string)
    (analysis_data : pyval) (status : string) : M bool :=
  emit (EvPersist policy_id analysis_id analysis_data status);;
  if negb (supabase_client W) then
    logger WARNING "Supabase client not initialized, skipping storage";;
    ret false
  else
    match supabase_execute W policy_id analysis_id analysis_data status with
    | None =>
        logger INFO ("Stored analysis results for policy " +:+ py_str policy_id);;
        ret true
    | Some msg =>
        logger ERROR ("Failed to store analysis result: " +:+ msg);;
        ret false
    end.

(** *** [orchestrator.py] *)

(** [analysis_status_store[analysis_id] = entry] *)
Definition store_setitem (analysis_id : string) (e : entry) : M unit :=
  let* st := get_store in
  put_store (<[analysis_id := e]> st).

(** [analysis_status_store[analysis_id].update(fields)]: the subscript
    raises [KeyError] when the id is absent. *)
Definition store_update (analysis_id : string) (fields : entry) : M unit :=
  let* st := get_store in
  match st !! analysis_id with
  | Some e => put_store (<[analysis_id := fields ∪ e]> st)
  | None => raise (KeyError analysis_id)
  end.

Definition initial_entry (analysis_id : string) (started_at : string) : entry :=
  list_to_map
    [("analysis_id", PStr analysis_id);
     ("status", PStr "started");
     ("progress", PStr "Initializing...");
     ("started_at", PStr started_at);
     ("completed_at", PNone);
     ("error", PNone);
     ("result", PNone)].

Definition _update_status (analysis_id status progress : string) : M unit :=
  let* st := get_store in
  when (bool_decide (is_Some (st !! analysis_id)))
    (store_update analysis_id
       (list_to_map [("status", PStr status); ("progress", PStr progress)]));;
  logger INFO ("   [" +:+ analysis_id +:+ "] " +:+ progress).

(** [datetime.fromisoformat(v)] *)
Definition py_fromisoformat (v : pyval) : res N :=
  match v with
  | PStr s =>
      match fromisoformat s with
      | Some t => Ok t
      | None => Raise (ValueError ("Invalid isoformat string: '" +:+ s +:+ "'"))
      end
  | _ => Raise (TypeError "fromisoformat: argument must be str")
  end.

Definition _calculate_duration (analysis_id : string) : M pyval :=
  let* st := get_store in
  match st !! analysis_id with
  | None => ret (PInt 0)
  | Some e =>
      let started := default PNone (e !! "started_at") in
      if negb (truthy started) then ret (PInt 0)
      else
        let* start_dt := lift (py_fromisoformat started) in
        let* t := utcnow in
        let duration := total_seconds (Z.of_N t - Z.of_N start_dt) in
        ret (PFloat (py_round2 duration))
  end.

Definition _send_callback (callback_url : pyval) (result : pyval) : M unit :=
  logger INFO ("Sending callback to " +:+ py_str callback_url);;
  try_except
    (let headers := [("Content-Type", "application/json")] in
     let timeout := CALLBACK_TIMEOUT (settings W) in
     let outcome := http_post W callback_url result headers timeout in
     emit (EvPost callback_url result headers timeout outcome);;
     match outcome with
     | HttpResponse status =>
         if status =? 200 then logger INFO "   Callback sent successfully"
         else logger WARNING ("   Callback returned status " +:+ str_of_Z status)
     | HttpFault msg => raise (Exception_ msg)
     end)
    (fun e => logger ERROR ("   Callback failed: " +:+ exn_str e)).

(** [run_policy_analysis] is given in the order of the source, one
    definition per step of its [try] block. *)

(** STEP 1: Get the PDF content. *)
Definition get_pdf_content (payload : list (string * pyval))
  : M ExtractionResult.t :=
  let local_path := payload_get payload "_local_file_path" PNone in
  let file_url := payload_get payload "file_url" PNone in
  let* extraction :=
    (if truthy local_path then
       (* Direct upload - file already saved locally *)
       emit (EvExtractFile local_path);;
       ret (extract_from_file W local_path)
     else if truthy file_url then
       (* Webhook - download from presigned URL *)
       emit (EvExtractUrl (py_str file_url));;
       ret (extract_from_url W (py_str file_url))
     else raise (ValueError "No file path or URL provided")) in
  (if negb (ExtractionResult.success extraction) then
     raise (Exception_ ("PDF extraction failed: "
                        +:+ py_str (ExtractionResult.error extraction)))
   else ret tt);;
  logger INFO ("   Extracted "
               +:+ str_of_Z (Z.of_nat (String.length (ExtractionResult.text extraction)))
               +:+ " chars from "
               +:+ str_of_Z (ExtractionResult.page_count extraction) +:+ " pages");;
  ret extraction.

(** STEP 2: Analyze with Claude; the analysis data. *)
Definition analyze_with_claude (policy_text : string)
    (client_name client_industry policy_type is_renewal : pyval) : M pyval :=
  let* analysis_result :=
    analyze_policy policy_text client_name client_industry policy_type is_renewal in
  (if negb (AnalysisResult.success analysis_result) then
     raise (Exception_ ("Claude analysis failed: "
                        +:+ py_str (AnalysisResult.error analysis_result)))
   else ret tt);;
  logger INFO ("   Analysis complete, tokens used: "
               +:+ py_str (AnalysisResult.tokens_used analysis_result));;
  ret (AnalysisResult.analysis_data analysis_result).

(** STEP 3: Generate PDF report; the report path, [None] when the
    generation fails. *)
Definition generate_pdf_report (analysis_data : pyval) : M pyval :=
  let report_result := generate_report W analysis_data (REPORTS_DIR (settings W)) in
  emit (EvRender analysis_data (REPORTS_DIR (settings W)) report_result);;
  if negb (ReportResult.success report_result) then
    logger WARNING ("   Report generation failed: "
                    +:+ py_str (ReportResult.error report_result));;
    ret PNone
  else
    logger INFO ("   Report generated: "
                 +:+ py_str (ReportResult.report_path report_result));;
    ret (ReportResult.report_path report_result).

(** Build result summary: the dict literal, its items evaluated in
    order. *)
Definition build_result (analysis_id : string) (payload : list (string * pyval))
    (client_name analysis_data report_path : pyval) : M pyval :=
  let* exec_summary := lift (py_get analysis_data "executive_summary" (PDict [])) in
  let* key_metrics := lift (py_get exec_summary "key_metrics" (PDict [])) in
  let* overall_score := lift (py_get key_metrics "overall_maturity_score" PNone) in
  let* recommendation := lift (py_get exec_summary "recommendation" PNone) in
  let* completed_at := utcnow in
  let* duration := _calculate_duration analysis_id in
  ret (PDict [("analysis_id", PStr analysis_id);
              ("policy_id", payload_get payload "policy_id" PNone);
              ("client_id", payload_get payload "client_id" PNone);
              ("client_name", client_name);
              ("status", PStr "completed");
              ("overall_score", overall_score);
              ("recommendation", recommendation);
              ("report_path", report_path);
              ("analysis_data", analysis_data);
              ("completed_at", PStr (isoformat completed_at));
              ("processing_time_seconds", duration)]).

(** STEP 5: Store results in Supabase (the source indents this block
    deeper than the statements around it; it is read at their level). *)
Definition store_results (analysis_id : string) (payload : list (string * pyval))
    (result : pyval) : M unit :=
  let policy_id := payload_get payload "policy_id" PNone in
  if truthy policy_id then
    let* _ := store_analysis_result policy_id analysis_id result "completed" in
    ret tt
  else ret tt.

(** Update status to complete, and STEP 4: Send callback (if
    configured). *)
Definition complete_job (analysis_id : string) (callback_url result : pyval)
  : M unit :=
  let* completed_at := lift (py_getitem result "completed_at") in
  store_update analysis_id
    (list_to_map [("status", PStr "completed");
                  ("progress", PStr "Analysis complete");
                  ("completed_at", completed_at);
                  ("result", result)]);;
  logger INFO ("Analysis complete: " +:+ analysis_id);;
  let* overall_score := lift (py_getitem result "overall_score") in
  logger INFO ("   Score: " +:+ py_str overall_score);;
  let* recommendation := lift (py_getitem result "recommendation") in
  logger INFO ("   Recommendation: " +:+ py_str recommendation);;
  when (truthy callback_url) (_send_callback callback_url result).

(** The body of the [try] block of [run_policy_analysis]. *)
Definition pipeline (analysis_id : string) (payload : list (string * pyval))
  : M unit :=
  (* Extract metadata from payload *)
  let client_name := payload_get payload "client_name" (PStr "Unknown Client") in
  let client_industry := payload_get payload "client_industry" (PStr "Other/General") in
  let policy_type := payload_get payload "policy_type" (PStr "cyber") in
  let is_renewal := payload_get payload "renewal" (PBool false) in
  let callback_url := payload_get payload "callback_url" PNone in
  _update_status analysis_id "extracting" "Extracting text from PDF...";;
  let* extraction := get_pdf_content payload in
  _update_status analysis_id "analyzing" "Analyzing policy with Claude...";;
  let* analysis_data :=
    analyze_with_claude (ExtractionResult.text extraction)
      client_name client_industry policy_type is_renewal in
  _update_status analysis_id "generating" "Generating PDF report...";;
  let* report_path := generate_pdf_report analysis_data in
  let* result :=
    build_result analysis_id payload client_name analysis_data report_path in
  store_results analysis_id payload result;;
  complete_job analysis_id callback_url result.

(** The [except Exception as e] block of [run_policy_analysis]. *)
Definition on_failure (analysis_id : string) (payload : list (string * pyval))
    (e : exn) : M unit :=
  logger ERROR ("Analysis failed: " +:+ analysis_id +:+ " - " +:+ exn_str e);;
  (* Update status to failed *)
  let* failed_at := utcnow in
  store_update analysis_id
    (list_to_map [("status", PStr "failed");
                  ("progress", PStr "Analysis failed");
                  ("error", PStr (exn_str e));
                  ("completed_at", PStr (isoformat failed_at))]);;
  (* Send failure callback if configured *)
  let callback_url := payload_get payload "callback_url" PNone in
  if truthy callback_url then
    let* sent_at := utcnow in
    _send_callback callback_url
      (PDict [("analysis_id", PStr analysis_id);
              ("policy_id", payload_get payload "policy_id" PNone);
              ("client_id", payload_get payload "client_id" PNone);
              ("status", PStr "failed");
              ("error_message", PStr (exn_str e));
              ("completed_at", PStr (isoformat sent_at))])
  else ret tt.

(** [analysis_status_store[analysis_id] = {...}], the initial entry. *)
Definition init_status (analysis_id : string) : M unit :=
  let* started := utcnow in
  store_setitem analysis_id (initial_entry analysis_id (isoformat started)).

Definition run_policy_analysis (analysis_id : string)
    (payload : list (string * pyval)) : M unit :=
  logger INFO ("Starting analysis workflow: " +:+ analysis_id);;
  (* Initialize status *)
  init_status analysis_id;;
  try_except (pipeline analysis_id payload) (on_failure analysis_id payload).

End WithWorld.

(** ** The webhook ([webhook.py]) *)

(** [PolicyUploadedPayload], a validated request body.  An [Optional]
    field is [None] or a value; a [HttpUrl] is given by the text [str]
    prints for it. *)
Module PolicyUploadedPayload.
Record t := {
  event_type : string;
  policy_id : string;
  client_id : string;
  client_name : string;
  client_industry : option string;
  file_url : string;
  file_name : string;
  file_size : option Z;
  uploaded_by : option string;
  policy_type : option string;
  renewal : option bool;
  priority : option string;
  callback_url : option string;
}.
End PolicyUploadedPayload.

Module WebhookResponse.
Record t := {
  success : bool;
  analysis_id : string;
  message : string;
  estimated_time_seconds : Z;
}.
End WebhookResponse.

Definition opt_str (o : option string) : pyval :=
  match o with Some s => PStr s | None => PNone end.

Definition opt_int (o : option Z) : pyval :=
  match o with Some z => PInt z | None => PNone end.

Definition opt_bool (o : option bool) : pyval :=
  match o with Some b => PBool b | None => PNone end.

(** [payload.model_dump()]: every field of the model, in the order of its
    declaration. *)
Definition model_dump (p : PolicyUploadedPayload.t) : list (string * pyval) :=
  [("event_type", PStr (PolicyUploadedPayload.event_type p));
   ("policy_id", PStr (PolicyUploadedPayload.policy_id p));
   ("client_id", PStr (PolicyUploadedPayload.client_id p));
   ("client_name", PStr (PolicyUploadedPayload.client_name p));
   ("client_industry", opt_str (PolicyUploadedPayload.client_industry p));
   ("file_url", PStr (PolicyUploadedPayload.file_url p));
   ("file_name", PStr (PolicyUploadedPayload.file_name p));
   ("file_size", opt_int (PolicyUploadedPayload.file_size p));
   ("uploaded_by", opt_str (PolicyUploadedPayload.uploaded_by p));
   ("policy_type", opt_str (PolicyUploadedPayload.policy_type p));
   ("renewal", opt_bool (PolicyUploadedPayload.renewal p));
   ("priority", opt_str (PolicyUploadedPayload.priority p));
   ("callback_url", opt_str (PolicyUploadedPayload.callback_url p))].

(** A call [run_policy_analysis(analysis_id, payload)] handed to
    [background_tasks.add_task]: it runs once the response is sent. *)
Record background_task := {
  task_analysis_id : string;
  task_payload : list (string * pyval);
}.

(** [handle_policy_uploaded]: the response, the tasks queued and the log
    records.  [uuid4_hex] is [uuid.uuid4().hex]; the signature header is
    accepted and not looked at. *)
Definition handle_policy_uploaded (uuid4_hex : string)
    (payload : PolicyUploadedPayload.t) (x_webhook_signature : option string)
  : WebhookResponse.t * list background_task * list event :=
  (* Generate unique analysis ID *)
  let analysis_id := "analysis_" +:+ Re.take 12 uuid4_hex in
  ({| WebhookResponse.success := true;
      WebhookResponse.analysis_id := analysis_id;
      WebhookResponse.message := "Policy analysis queued successfully";
      WebhookResponse.estimated_time_seconds := 120 |},
   (* Queue the analysis to run in background *)
   [{| task_analysis_id := analysis_id; task_payload := model_dump payload |}],
   [EvLog INFO ("Received policy upload webhook for client: "
                +:+ PolicyUploadedPayload.client_name payload);
    EvLog INFO ("   Policy ID: " +:+ PolicyUploadedPayload.policy_id payload);
    EvLog INFO ("   Industry: "
                +:+ default "None" (PolicyUploadedPayload.client_industry payload));
    EvLog INFO ("   File: " +:+ PolicyUploadedPayload.file_name payload);
    EvLog INFO ("Analysis queued: " +:+ analysis_id)]).

(** The background task, run. *)
Definition run_task (W : World) {DT : DateTime} (t : background_task) : M unit :=
  run_policy_analysis W (task_analysis_id t) (task_payload t).

(** [s.replace(old, new)] for a non-empty [old]: the occurrences of [old]
    are replaced from left to right, without overlap.  [skip] counts the
    characters of an occurrence still to be passed over. *)
Fixpoint replace_from (old new : string) (skip : nat) (s : string) : string :=
  match s with
  | EmptyString => EmptyString
  | String c s' =>
      match skip with
      | S k => replace_from old new k s'
      | O =>
          match Re.strip_prefix old s with
          | Some _ => new +:+ replace_from old new (String.length old - 1) s'
          | None => String c (replace_from old new O s')
          end
      end
  end.

Definition str_replace (s old new : string) : string := replace_from old new O s.

Fixpoint all_ascii (s : string) : bool :=
  match s with
  | String c s' => (nat_of_ascii c <? 128)%nat && all_ascii s'
  | EmptyString => true
  end.

(** [hmac.compare_digest] on two [str]: both must be ASCII. *)
Definition compare_digest (a b : string) : res bool :=
  if all_ascii a && all_ascii b then Ok (String.eqb a b)
  else Raise (TypeError "comparing strings with non-ASCII characters is not supported").

Section VerifySignature.
(** [hmac.new(secret.encode(), payload, hashlib.sha256).hexdigest()] *)
Variable hmac_sha256_hexdigest : string -> string -> string.

Definition verify_signature (payload signature secret : string) : M bool :=
  if String.eqb secret "" then
    logger WARNING "No webhook secret configured - skipping verification";;
    ret true
  else
    let expected := hmac_sha256_hexdigest secret payload in
    let provided := str_replace signature "sha256=" "" in
    lift (compare_digest expected provided).
End VerifySignature.

(** ** [config.py] *)

(** The defaults of [Settings], in force when the environment sets
    nothing. *)
Definition default_settings : Settings := {|
  ANTHROPIC_API_KEY := "";
  CALLBACK_TIMEOUT := 30;
  REPORTS_DIR := "reports";
  CLAUDE_MODEL := "claude-sonnet-4-20250514";
  CLAUDE_MAX_TOKENS := 8192;
|}.

(** * Vocabulary of the properties *)

(** ** Observing a computation *)

Definition outcome {A} (x : res A * state * list event) : res A := x.1.1.
Definition final {A} (x : res A * state * list event) : state := x.1.2.
Definition events {A} (x : res A * state * list event) : list event := x.2.

Definition set_store (s : state) (st : status_store) : state :=
  {| store := st; now := now s; reads := reads s |}.

(** Selecting events of one kind: the stores written, the replies of the
    model, the calls to the renderer, and the calls to the collaborators of
    the pipeline (extractor, analyzer, renderer, result store). *)
Definition sel_store (ev : event) : option status_store :=
  match ev with EvStore st => Some st | _ => None end.

Definition sel_reply (ev : event) : option string :=
  match ev with EvClaude _ _ _ _ (ApiResponse raw _ _) => Some raw | _ => None end.

Definition sel_render (ev : event) : option (pyval * ReportResult.t) :=
  match ev with EvRender d _ r => Some (d, r) | _ => None end.

Definition sel_collab (ev : event) : option event :=
  match ev with
  | EvExtractFile _ | EvExtractUrl _ | EvAnalyze _ _ _ _ _
  | EvClaude _ _ _ _ _ | EvRender _ _ _ | EvPersist _ _ _ _ => Some ev
  | _ => None
  end.

(** Events that write neither the store nor call the renderer or get a
    reply from the model. *)
Definition quiet (evs : list event) : Prop :=
  omap sel_store evs = [] /\ omap sel_render evs = [] /\ omap sel_reply evs = [].

(** The log record that closes a callback delivery. *)
Definition callback_log (outcome : http_outcome) : event :=
  match outcome with
  | HttpResponse status =>
      if status =? 200 then EvLog INFO "   Callback sent successfully"
      else EvLog WARNING ("   Callback returned status " +:+ str_of_Z status)
  | HttpFault msg => EvLog ERROR ("   Callback failed: " +:+ msg)
  end.

(** ** Entries and their invariant *)

(** [entry.get(k)] *)
Definition field (e : entry) (k : string) : pyval := default PNone (e !! k).

Definition terminal (status : pyval) : Prop :=
  status = PStr "completed" \/ status = PStr "failed".

(** [completed_at] is set exactly in a terminal status, [result] exactly in
    status [completed]. *)
Definition entry_inv (e : entry) : Prop :=
  (field e "completed_at" <> PNone <-> terminal (field e "status"))
  /\ (field e "result" <> PNone <-> field e "status" = PStr "completed").

(** Every entry of a store satisfies the entry invariant. *)
Definition store_inv (st : status_store) : Prop :=
  forall id e, st !! id = Some e -> entry_inv e.

(** The fields written by the three kinds of update. *)
Definition stage_fields (status progress : string) : entry :=
  list_to_map [("status", PStr status); ("progress", PStr progress)].

Definition completed_fields (completed_at result : pyval) : entry :=
  list_to_map [("status", PStr "completed");
               ("progress", PStr "Analysis complete");
               ("completed_at", completed_at);
               ("result", result)].

Definition failed_fields (error completed_at : string) : entry :=
  list_to_map [("status", PStr "failed");
               ("progress", PStr "Analysis failed");
               ("error", PStr error);
               ("completed_at", PStr completed_at)].

(** ** Requests *)

(** Neither source reference is present. *)
Definition no_source (payload : list (string * pyval)) : Prop :=
  truthy (payload_get payload "_local_file_path" PNone) = false
  /\ truthy (payload_get payload "file_url" PNone) = false.


(** The summary fields can be read: [executive_summary] and its
    [key_metrics] are dicts (or absent). *)
Definition summary_ok (a : pyval) : Prop :=
  exists des dkm,
    py_get a "executive_summary" (PDict []) = Ok (PDict des)
    /\ py_get (PDict des) "key_metrics" (PDict []) = Ok (PDict dkm).

Definition report_path_of (rr : ReportResult.t) : pyval :=
  if ReportResult.success rr then ReportResult.report_path rr else PNone.

(** The elapsed time reported for a start at [t0] and a clock reading [t]. *)
Definition elapsed (t0 t : N) : float :=
  py_round2 (total_seconds (Z.of_N t - Z.of_N t0)).

(** ** Signs of binary64 data *)


(** ** Scanning for fences *)

Section FenceVocabulary.
Import Re ParserSpec.

(** The suffix that follows the last occurrence of [c]. *)
Fixpoint after_last (c : ascii) (s : string) : option string :=
  match s with
  | String a s' =>
      match after_last c s' with
      | Some r => Some r
      | None => if Ascii.eqb a c then Some s' else None
      end
  | EmptyString => None
  end.

(** What follows the closing fence when [t] is white space followed by a
    fence. *)
Definition closes (t : string) : option string :=
  strip_prefix "```" (lstrip t).

(** The lazy group followed by the closing part of the fence pattern. *)
Definition lazy_close {X} (h : string -> string -> X) (p : string) : option X :=
  star_lazy any_char (fun s' => h s' <$> closes s') p.

Definition str_tail (s : string) : string :=
  match s with String _ s' => s' | EmptyString => EmptyString end.

End FenceVocabulary.

(** ** Jobs *)

Section JobVocabulary.
Context (W : World) {DT : DateTime}.

(** The state after one reading of the clock. *)
Definition tick_state (s : state) : state :=
  {| store := store s; now := (now s + tick W (reads s))%N; reads := S (reads s) |}.

(** The instant at which a job that starts in [s] is started. *)
Definition start_time (s : state) : N := now (tick_state s).

(** What the parser makes of a reply. *)
Definition parsed (raw : string) : pyval := ParserSpec.parse (json_loads W) raw.

(** What the renderer answers for the analysis data. *)
Definition rendered (data : pyval) : ReportResult.t :=
  generate_report W data (REPORTS_DIR (settings W)).

(** What [analyze_policy] guarantees about its outcome and its events. *)
Definition analyze_post (r : res AnalysisResult.t) (evs : list event) : Prop :=
  omap sel_store evs = [] /\ omap sel_render evs = []
  /\ match r with
     | Raise e => omap sel_reply evs = []
     | Ok ar =>
         if AnalysisResult.success ar then
           exists raw,
             omap sel_reply evs = [raw]
             /\ summary_ok (AnalysisResult.analysis_data ar)
             /\ (truthy (parsed raw) = false ->
                 AnalysisResult.analysis_data ar = PDict [("raw_analysis", PStr raw)])
         else forall raw, In raw (omap sel_reply evs) -> truthy (parsed raw) = true
     end.

(** An entry of a job that is under way and was started at [t0]. *)
Definition running (t0 : N) (e : entry) : Prop :=
  e !! "started_at" = Some (PStr (isoformat t0))
  /\ e !! "completed_at" = Some PNone
  /\ e !! "result" = Some PNone
  /\ exists st, e !! "status" = Some (PStr st) /\ st <> "completed" /\ st <> "failed".

(** The result summary of a job. *)
Definition result_of (id : string) (payload : list (string * pyval))
    (data report_path : pyval) (completed_at : N) (duration : float)
    (overall_score recommendation : pyval) : pyval :=
  PDict [("analysis_id", PStr id);
         ("policy_id", payload_get payload "policy_id" PNone);
         ("client_id", payload_get payload "client_id" PNone);
         ("client_name", payload_get payload "client_name" (PStr "Unknown Client"));
         ("status", PStr "completed");
         ("overall_score", overall_score);
         ("recommendation", recommendation);
         ("report_path", report_path);
         ("analysis_data", data);
         ("completed_at", PStr (isoformat completed_at));
         ("processing_time_seconds", PFloat duration)].

Variables (id : string) (payload : list (string * pyval)).

(** A store that differs from [st0] by a running entry under [id]. *)
Definition snap_running (st0 : status_store) (t0 : N) (st : status_store) : Prop :=
  exists en, st = <[id := en]> st0 /\ running t0 en.

(** How a completed job leaves the store, and what it emitted: the stores
    written on the way hold a running entry, the last one is the final
    store; the renderer was called once and the model replied once. *)
Definition completed_post (st0 : status_store) (t0 : N)
    (s' : state) (evs : list event) : Prop :=
  exists en data raw tc td sc rec snaps,
    let result :=
      result_of id payload data (report_path_of (rendered data)) tc
        (elapsed t0 td) sc rec in
    running t0 en
    /\ store s' = <[id := completed_fields (PStr (isoformat tc)) result ∪ en]> st0
    /\ omap sel_store evs = snaps ++ [store s']
    /\ Forall (snap_running st0 t0) snaps
    /\ omap sel_render evs = [(data, rendered data)]
    /\ omap sel_reply evs = [raw]
    /\ (truthy (parsed raw) = false -> data = PDict [("raw_analysis", PStr raw)])
    /\ (t0 <= td)%N
    /\ td = now s'
    /\ ~ no_source payload.

(** How an aborted pipeline leaves the store, and what it emitted. *)
Definition aborted_post (st0 : status_store) (t0 : N) (e : exn)
    (s' : state) (evs : list event) : Prop :=
  snap_running st0 t0 (store s')
  /\ Forall (snap_running st0 t0) (omap sel_store evs)
  /\ omap sel_render evs = []
  /\ (forall raw, In raw (omap sel_reply evs) -> truthy (parsed raw) = true)
  /\ (no_source payload ->
      e = ValueError "No file path or URL provided" /\ omap sel_collab evs = []).

Definition pipeline_post (st0 : status_store) (t0 : N)
    (r : res unit) (s' : state) (evs : list event) : Prop :=
  match r with
  | Ok _ => completed_post st0 t0 s' evs
  | Raise e => aborted_post st0 t0 e s' evs
  end.

(** How a failed job leaves the store, and what it emitted. *)
Definition failed_post (st0 : status_store) (t0 : N)
    (s' : state) (evs : list event) : Prop :=
  exists en e t snaps,
    running t0 en
    /\ store s' = <[id := failed_fields (exn_str e) (isoformat t) ∪ en]> st0
    /\ omap sel_store evs = snaps ++ [store s']
    /\ Forall (snap_running st0 t0) snaps
    /\ omap sel_render evs = []
    /\ (forall raw, In raw (omap sel_reply evs) -> truthy (parsed raw) = true)
    /\ (no_source payload ->
        e = ValueError "No file path or URL provided" /\ omap sel_collab evs = []).

End JobVocabulary.

(** ** A concrete environment, for examples *)

(** Instants printed as ["T"] followed by the decimal count of
    microseconds. *)
Definition decimal_isoformat (t : N) : string :=
  String "T" (NilEmpty.string_of_uint (N.to_uint t)).

Definition decimal_fromisoformat (s : string) : option N :=
  match s with
  | String "T" r => N.of_uint <$> NilEmpty.uint_of_string r
  | _ => None
  end.

#[export] Instance decimal_datetime : DateTime := {|
  isoformat := decimal_isoformat;
  fromisoformat := decimal_fromisoformat;
  fromisoformat_isoformat := fun t =>
    eq_trans
      (f_equal (fmap N.of_uint) (NilEmpty.usu (N.to_uint t)))
      (f_equal Some (DecimalN.Unsigned.of_to t));
  isoformat_nonempty := fun t H =>
    eq_ind (decimal_isoformat t)
      (fun s => match s with EmptyString => False | String _ _ => True end) I _ H;
|}.

Definition demo_settings : Settings := {|
  ANTHROPIC_API_KEY := "sk-demo";
  CALLBACK_TIMEOUT := 30;
  REPORTS_DIR := "reports";
  CLAUDE_MODEL := "claude-sonnet-4-20250514";
  CLAUDE_MAX_TOKENS := 8192;
|}.

Definition demo_prompts : PromptText := {|
  COVERAGE_CATEGORIES := "## COVERAGE CATEGORIES TO ANALYZE";
  SCORING_SCALE := "## MATURITY SCORING SCALE (0-10)";
  INDUSTRY_CRITERIA := [("Other/General", "## GENERAL CRITERIA")];
  INDUSTRY_DEFAULT := "## GENERAL CRITERIA";
  RED_FLAGS := "## RED FLAGS";
  OUTPUT_FORMAT := "## OUTPUT FORMAT";
  ROLE_TEXT := "## YOUR ROLE";
  APPROACH_TEXT := "## ANALYSIS APPROACH";
  RENEWAL_NOTE := "Note: This is a RENEWAL policy.";
|}.

Definition dquote : string := String "034" EmptyString.

(** The document [{"a":1}] of the specification's examples. *)
Definition a1_text : string := "{" +:+ dquote +:+ "a" +:+ dquote +:+ ":1}".

(** A decoder that knows three documents. *)
Definition demo_loads (s : string) : option pyval :=
  if String.eqb s a1_text then Some (PDict [("a", PInt 1)])
  else if String.eqb s "{}" then Some (PDict [])
  else if String.eqb s "[1]" then Some (PList [PInt 1])
  else None.

(** Extraction succeeds, the model answers with prose, rendering fails, the
    result store is not configured and the callback endpoint answers 200;
    the clock advances by a second and a half between readings. *)
Definition demo_world : World := {|
  settings := demo_settings;
  prompts := demo_prompts;
  json_loads := demo_loads;
  repr_other := fun _ => "<value>";
  tick := fun _ => 1500000%N;
  extract_from_file := fun _ =>
    {| ExtractionResult.success := true; ExtractionResult.text := "POLICY";
       ExtractionResult.page_count := 1; ExtractionResult.error := PNone |};
  extract_from_url := fun _ =>
    {| ExtractionResult.success := true; ExtractionResult.text := "POLICY";
       ExtractionResult.page_count := 1; ExtractionResult.error := PNone |};
  messages_create := fun _ _ _ _ => ApiResponse "The policy looks adequate." 120 30;
  generate_report := fun _ _ =>
    {| ReportResult.success := false; ReportResult.report_path := PNone;
       ReportResult.error := PStr "renderer unavailable" |};
  supabase_client := false;
  supabase_execute := fun _ _ _ _ => None;
  http_post := fun _ _ _ _ => HttpResponse 200;
|}.

Definition empty_state : state :=
  {| store := ∅; now := 1700000000000000%N; reads := 0 |}.

(** A store in which ["job-1"] has already completed. *)
Definition used_entry : entry :=
  completed_fields (PStr "T1") (PDict [("status", PStr "completed")])
  ∪ initial_entry "job-1" "T0".

Definition used_state : state :=
  {| store := {[ "job-1" := used_entry ]}; now := 1700000000000000%N; reads := 0 |}.

Definition upload_payload : list (string * pyval) :=
  [("client_name", PStr "Acme Corp"); ("_local_file_path", PStr "temp/policy.pdf")].




(** ** Shapes of texts *)

(** The character [c] does not occur in [s]. *)
Fixpoint free_of (c : ascii) (s : string) : bool :=
  match s with
  | String a s' => negb (Ascii.eqb a c) && free_of c s'
  | EmptyString => true
  end.

(** [s] consists of white space. *)
Fixpoint all_space (s : string) : bool :=
  match s with
  | String a s' => Re.is_space a && all_space s'
  | EmptyString => true
  end.

Definition starts_with_space (s : string) : bool :=
  match s with
  | String a _ => Re.is_space a
  | EmptyString => false
  end.

Fixpoint ends_with_space (s : string) : bool :=
  match s with
  | String a EmptyString => Re.is_space a
  | String _ s' => ends_with_space s'
  | EmptyString => false
  end.

(** ** Calls of the model *)

(** The answers of the model, with their token counts, and the exceptions
    its API raised. *)
Definition sel_response (ev : event) : option (string * Z * Z) :=
  match ev with
  | EvClaude _ _ _ _ (ApiResponse raw i o) => Some (raw, i, o)
  | _ => None
  end.

Definition sel_api_error (ev : event) : option exn :=
  match ev with
  | EvClaude _ _ _ _ (ApiRaises e) => Some e
  | _ => None
  end.

(** The error text [analyze_policy] reports for an exception caught around
    the API call. *)
Definition analysis_error (e : exn) : string :=
  if is_APIError e then "API error: " +:+ exn_str e else exn_str e.

(** The [_metadata] item that [analyze_policy] adds to a structured
    analysis. *)
Definition metadata (model : string) (cn ci pt ir : pyval) (tokens_used : Z) : pyval :=
  PDict [("client_name", cn);
         ("client_industry", ci);
         ("policy_type", pt);
         ("is_renewal", ir);
         ("model_used", PStr model);
         ("tokens_used", PInt tokens_used)].


(** Everything but the log records. *)
Definition sel_effect (ev : event) : option event :=
  match ev with
  | EvLog _ _ => None
  | _ => Some ev
  end.

Definition effects (evs : list event) : list event := omap sel_effect evs.

(** ** The course of a job *)

Section TraceVocabulary.
Context (W : World) {DT : DateTime}.

(** The clock after [n] more readings, from the reading [t] with [r]
    readings made so far. *)
Fixpoint reading_from (t : N) (r n : nat) : N :=
  match n with
  | O => t
  | S n' => reading_from (t + tick W r)%N (S r) n'
  end.

(** The [n]-th clock reading made from state [s] on. *)
Definition reading (s : state) (n : nat) : N := reading_from (now s) (reads s) n.

Variables (id : string) (payload : list (string * pyval)).

(** The extractor call the request leads to, with the extractor's answer;
    [None] when the request names no source. *)
Definition source_call : option (event * ExtractionResult.t) :=
  let local_path := payload_get payload "_local_file_path" PNone in
  let file_url := payload_get payload "file_url" PNone in
  if truthy local_path then
    Some (EvExtractFile local_path, extract_from_file W local_path)
  else if truthy file_url then
    Some (EvExtractUrl (py_str W file_url), extract_from_url W (py_str W file_url))
  else None.

(** The analyzer call of the job, on the extracted text. *)
Definition analysis_call (x : ExtractionResult.t) : M AnalysisResult.t :=
  analyze_policy W (ExtractionResult.text x)
    (payload_get payload "client_name" (PStr "Unknown Client"))
    (payload_get payload "client_industry" (PStr "Other/General"))
    (payload_get payload "policy_type" (PStr "cyber"))
    (payload_get payload "renewal" (PBool false)).

(** The exception with which the Analyze step ends the pipeline: the one
    the analyzer raised, or the one raised for its unsuccessful result. *)
Definition analysis_fails (x : ExtractionResult.t) (s : state) (e : exn) : Prop :=
  outcome (analysis_call x s) = Raise e
  \/ exists ar,
       outcome (analysis_call x s) = Ok ar
       /\ AnalysisResult.success ar = false
       /\ e = Exception_ ("Claude analysis failed: " +:+ py_str W (AnalysisResult.error ar)).

(** The POST of [body] to the request's callback target. *)
Definition post_event (body : pyval) : event :=
  let callback_url := payload_get payload "callback_url" PNone in
  let headers := [("Content-Type", "application/json")] in
  let timeout := CALLBACK_TIMEOUT (settings W) in
  EvPost callback_url body headers timeout (http_post W callback_url body headers timeout).

Definition callback_effects (body : pyval) : list event :=
  if truthy (payload_get payload "callback_url" PNone) then [post_event body] else [].

Definition persist_effects (result : pyval) : list event :=
  let policy_id := payload_get payload "policy_id" PNone in
  if truthy policy_id then [EvPersist policy_id id result "completed"] else [].

(** The body of the failure callback. *)
Definition failure_body (e : exn) (sent_at : N) : pyval :=
  PDict [("analysis_id", PStr id);
         ("policy_id", payload_get payload "policy_id" PNone);
         ("client_id", payload_get payload "client_id" PNone);
         ("status", PStr "failed");
         ("error_message", PStr (exn_str e));
         ("completed_at", PStr (isoformat sent_at))].

(** The job's entry after creation and after each stage update. *)
Definition entry_started (t0 : N) : entry := initial_entry id (isoformat t0).

Definition entry_extracting (t0 : N) : entry :=
  stage_fields "extracting" "Extracting text from PDF..." ∪ entry_started t0.

Definition entry_analyzing (t0 : N) : entry :=
  stage_fields "analyzing" "Analyzing policy with Claude..." ∪ entry_extracting t0.

Definition entry_generating (t0 : N) : entry :=
  stage_fields "generating" "Generating PDF report..." ∪ entry_analyzing t0.

(** The write of the job's entry to the store the job started from. *)
Definition put (s0 : state) (e : entry) : event := EvStore (<[id := e]> (store s0)).

(** The entry of a job that failed with [e] while its entry was [en], and
    what the failure handler does. *)
Definition failed_entry (s0 : state) (e : exn) (en : entry) : entry :=
  failed_fields (exn_str e) (isoformat (reading s0 2)) ∪ en.

Definition failure_effects (s0 : state) (e : exn) (en : entry) : list event :=
  put s0 (failed_entry s0 e en) :: callback_effects (failure_body e (reading s0 3)).

(** The result summary and the entry of a job that completed with the
    analysis [data]. *)
Definition job_result (s0 : state) (data sc rec : pyval) : pyval :=
  result_of id payload data (report_path_of (rendered W data)) (reading s0 2)
    (elapsed (reading s0 1) (reading s0 3)) sc rec.

Definition completed_entry (s0 : state) (result : pyval) : entry :=
  completed_fields (PStr (isoformat (reading s0 2))) result
  ∪ entry_generating (reading s0 1).

(** The four courses a job started in [s0] can take, each with the final
    store and the effects in the order they happen: no source, extraction
    failed, analysis failed, completed. *)
Inductive job_trace (s0 : state) : status_store -> list event -> Prop :=
| job_no_source :
    source_call = None ->
    job_trace s0
      (<[id := failed_entry s0 (ValueError "No file path or URL provided")
                 (entry_extracting (reading s0 1))]> (store s0))
      ([put s0 (entry_started (reading s0 1)); put s0 (entry_extracting (reading s0 1))]
       ++ failure_effects s0 (ValueError "No file path or URL provided")
            (entry_extracting (reading s0 1)))
| job_extraction_failed call x e :
    source_call = Some (call, x) ->
    ExtractionResult.success x = false ->
    e = Exception_ ("PDF extraction failed: " +:+ py_str W (ExtractionResult.error x)) ->
    job_trace s0
      (<[id := failed_entry s0 e (entry_extracting (reading s0 1))]> (store s0))
      ([put s0 (entry_started (reading s0 1)); put s0 (entry_extracting (reading s0 1));
        call]
       ++ failure_effects s0 e (entry_extracting (reading s0 1)))
| job_analysis_failed call x e :
    source_call = Some (call, x) ->
    ExtractionResult.success x = true ->
    analysis_fails x s0 e ->
    job_trace s0
      (<[id := failed_entry s0 e (entry_analyzing (reading s0 1))]> (store s0))
      ([put s0 (entry_started (reading s0 1)); put s0 (entry_extracting (reading s0 1));
        call; put s0 (entry_analyzing (reading s0 1))]
       ++ effects (events (analysis_call x s0))
       ++ failure_effects s0 e (entry_analyzing (reading s0 1)))
| job_completed call x ar es km sc rec result :
    source_call = Some (call, x) ->
    ExtractionResult.success x = true ->
    outcome (analysis_call x s0) = Ok ar ->
    AnalysisResult.success ar = true ->
    py_get (AnalysisResult.analysis_data ar) "executive_summary" (PDict []) = Ok es ->
    py_get es "key_metrics" (PDict []) = Ok km ->
    py_get km "overall_maturity_score" PNone = Ok sc ->
    py_get es "recommendation" PNone = Ok rec ->
    result = job_result s0 (AnalysisResult.analysis_data ar) sc rec ->
    job_trace s0
      (<[id := completed_entry s0 result]> (store s0))
      ([put s0 (entry_started (reading s0 1)); put s0 (entry_extracting (reading s0 1));
        call; put s0 (entry_analyzing (reading s0 1))]
       ++ effects (events (analysis_call x s0))
       ++ [put s0 (entry_generating (reading s0 1));
           EvRender (AnalysisResult.analysis_data ar) (REPORTS_DIR (settings W))
             (rendered W (AnalysisResult.analysis_data ar))]
       ++ persist_effects result
       ++ [put s0 (completed_entry s0 result)]
       ++ callback_effects result).

End TraceVocabulary.

(** ** What a job shows to the outside *)

(** The callback POSTs (target and body) and the writes to the result
    store. *)
Definition sel_post (ev : event) : option (pyval * pyval) :=
  match ev with
  | EvPost url body _ _ _ => Some (url, body)
  | _ => None
  end.

Definition sel_persist (ev : event) : option (pyval * string * pyval * string) :=
  match ev with
  | EvPersist policy_id analysis_id analysis_data status =>
      Some (policy_id, analysis_id, analysis_data, status)
  | _ => None
  end.

(** The collaborators of the pipeline, in the order of its stages. *)
Inductive collaborator : Type :=
| Extractor | Analyzer | Model | Renderer | ResultStore.

Definition sel_collaborator (ev : event) : option collaborator :=
  match ev with
  | EvExtractFile _ | EvExtractUrl _ => Some Extractor
  | EvAnalyze _ _ _ _ _ => Some Analyzer
  | EvClaude _ _ _ _ _ => Some Model
  | EvRender _ _ _ => Some Renderer
  | EvPersist _ _ _ _ => Some ResultStore
  | _ => None
  end.




(** The entry of job [id] when a computation ends. *)
Definition entry_of {A} (id : string) (x : res A * state * list event) : entry :=
  default ∅ (store (final x) !! id).

(** The world [W] with another result store and another callback
    endpoint. *)
Definition with_delivery (W : World) (client : bool)
    (execute : pyval -> string -> pyval -> string -> option string)
    (post : pyval -> pyval -> list (string * string) -> Z -> http_outcome) : World :=
  {| settings := settings W;
     prompts := prompts W;
     json_loads := json_loads W;
     repr_other := repr_other W;
     tick := tick W;
     extract_from_file := extract_from_file W;
     extract_from_url := extract_from_url W;
     messages_create := messages_create W;
     generate_report := generate_report W;
     supabase_client := client;
     supabase_execute := execute;
     http_post := post |}.

(** The digits of a [hexdigest]. *)
Definition is_hex (c : ascii) : bool :=
  let n := nat_of_ascii c in
  ((48 <=? n) && (n <=? 57) || (97 <=? n) && (n <=? 102))%nat.

Fixpoint all_hex (s : string) : bool :=
  match s with
  | String c s' => is_hex c && all_hex s'
  | EmptyString => true
  end.


(** ** More environments, for examples *)

Definition with_settings (W : World) (st : Settings) : World :=
  {| settings := st;
     prompts := prompts W;
     json_loads := json_loads W;
     repr_other := repr_other W;
     tick := tick W;
     extract_from_file := extract_from_file W;
     extract_from_url := extract_from_url W;
     messages_create := messages_create W;
     generate_report := generate_report W;
     supabase_client := supabase_client W;
     supabase_execute := supabase_execute W;
     http_post := http_post W |}.

Definition with_extractor (W : World) (answer : ExtractionResult.t) : World :=
  {| settings := settings W;
     prompts := prompts W;
     json_loads := json_loads W;
     repr_other := repr_other W;
     tick := tick W;
     extract_from_file := fun _ => answer;
     extract_from_url := fun _ => answer;
     messages_create := messages_create W;
     generate_report := generate_report W;
     supabase_client := supabase_client W;
     supabase_execute := supabase_execute W;
     http_post := http_post W |}.

Definition with_model (W : World) (answer : api_outcome)
    (loads : string -> option pyval) : World :=
  {| settings := settings W;
     prompts := prompts W;
     json_loads := loads;
     repr_other := repr_other W;
     tick := tick W;
     extract_from_file := extract_from_file W;
     extract_from_url := extract_from_url W;
     messages_create := fun _ _ _ _ => answer;
     generate_report := generate_report W;
     supabase_client := supabase_client W;
     supabase_execute := supabase_execute W;
     http_post := http_post W |}.

(** No API key is configured. *)
Definition unconfigured_world : World := with_settings demo_world default_settings.

(** The extractor cannot read the file. *)
Definition unreadable_world : World :=
  with_extractor demo_world
    {| ExtractionResult.success := false; ExtractionResult.text := "";
       ExtractionResult.page_count := 0; ExtractionResult.error := PStr "not a PDF" |}.

(** The API of the model is overloaded. *)
Definition overloaded_world : World :=
  with_model demo_world (ApiRaises (APIError "overloaded")) demo_loads.

Definition quoted (s : string) : string := dquote +:+ s +:+ dquote.

(** A structured reply:
    [{"executive_summary":{"recommendation":"BIND","key_metrics":{"overall_maturity_score":7}}}] *)
Definition summary_text : string :=
  "{" +:+ quoted "executive_summary" +:+ ":{" +:+ quoted "recommendation" +:+ ":"
  +:+ quoted "BIND" +:+ "," +:+ quoted "key_metrics" +:+ ":{"
  +:+ quoted "overall_maturity_score" +:+ ":7}}}".

Definition summary_items : list (string * pyval) :=
  [("executive_summary",
    PDict [("recommendation", PStr "BIND");
           ("key_metrics", PDict [("overall_maturity_score", PInt 7)])])].

Definition summary_loads (s : string) : option pyval :=
  if String.eqb s summary_text then Some (PDict summary_items) else None.

(** The model answers with the structured reply. *)
Definition structured_world : World :=
  with_model demo_world (ApiResponse summary_text 120 30) summary_loads.

(** A digest function for examples. *)
Definition demo_hexdigest (key msg : string) : string := "00ff" +:+ "c0de".

Definition webhook_payload : PolicyUploadedPayload.t := {|
  PolicyUploadedPayload.event_type := "policy.uploaded";
  PolicyUploadedPayload.policy_id := "pol-7";
  PolicyUploadedPayload.client_id := "cl-3";
  PolicyUploadedPayload.client_name := "Acme Corp";
  PolicyUploadedPayload.client_industry := None;
  PolicyUploadedPayload.file_url := "https://files.example/policy.pdf";
  PolicyUploadedPayload.file_name := "policy.pdf";
  PolicyUploadedPayload.file_size := None;
  PolicyUploadedPayload.uploaded_by := None;
  PolicyUploadedPayload.policy_type := Some "cyber";
  PolicyUploadedPayload.renewal := Some false;
  PolicyUploadedPayload.priority := Some "normal";
  PolicyUploadedPayload.callback_url := Some "https://saas.example/hook";
|}.

Definition demo_uuid_hex : string := "0123456789abcdef0123456789abcdef".


(** * Properties *)

#[local] Arguments _send_callback : simpl never.
#[local] Arguments store_update : simpl never.
#[local] Arguments _update_status : simpl never.
#[local] Arguments _calculate_duration : simpl never.
#[local] Arguments get_pdf_content : simpl never.
#[local] Arguments analyze_with_claude : simpl never.
#[local] Arguments generate_pdf_report : simpl never.
#[local] Arguments build_result : simpl never.
#[local] Arguments store_results : simpl never.
#[local] Arguments complete_job : simpl never.
#[local] Arguments on_failure : simpl never.
#[local] Arguments init_status : simpl never.
#[local] Arguments pipeline : simpl never.
Local Open Scope monad_scope.

(** ** The response parser *)

Section ParserFacts.
Import Re ParserSpec.

Lemma app_String a s t : String a s +:+ t = String a (s +:+ t).
Proof. reflexivity. Qed.

Lemma app_empty t : EmptyString +:+ t = t.
Proof. reflexivity. Qed.

Lemma length_strip_prefix p s r :
  strip_prefix p s = Some r -> String.length s = (String.length p + String.length r)%nat.
Proof.
  revert s; induction p as [|a p IH]; intros s H; simpl in *.
  - by inversion H.
  - destruct s as [|b s]; [done|].
    destruct (Ascii.eqb a b); [|done]. simpl. by rewrite (IH _ H).
Qed.

Lemma strip_prefix_app p s r : strip_prefix p s = Some r -> s = p +:+ r.
Proof.
  revert s; induction p as [|a p IH]; intros s H; simpl in *.
  - by inversion H.
  - destruct s as [|b s]; [done|].
    destruct (Ascii.eqb_spec a b); [|done]. subst. rewrite app_String. f_equal. by apply IH.
Qed.

Lemma take_app_length a b : take (String.length a) (a +:+ b) = a.
Proof.
  induction a as [|c a IH]; [by destruct b|].
  rewrite app_String. simpl. by rewrite IH.
Qed.

Lemma length_app a b : String.length (a +:+ b) = (String.length a + String.length b)%nat.
Proof.
  induction a as [|c a IH]; [done|]. rewrite app_String. simpl. by rewrite IH.
Qed.

Lemma consumed_app a b : consumed (a +:+ b) b = a.
Proof.
  unfold consumed. rewrite length_app.
  replace (String.length a + String.length b - String.length b)%nat
    with (String.length a) by lia.
  apply take_app_length.
Qed.

Lemma star_greedy_any_last {X} (c : ascii) (g : string -> X) s :
  star_greedy any_char
    (fun r => match strip_prefix (String c EmptyString) r with
              | Some rest => Some (g rest)
              | None => None
              end) s
  = g <$> after_last c s.
Proof.
  induction s as [|a s IH]; [done|].
  cbn [star_greedy after_last any_char]. rewrite IH.
  destruct (after_last c s); [done|].
  cbn [strip_prefix fmap option_fmap option_map].
  rewrite Ascii.eqb_sym. by destruct (Ascii.eqb a c).
Qed.

Lemma upto_after_last c s :
  match after_last c s with
  | Some r => exists p, upto_last c s = Some p /\ s = p +:+ r
  | None => upto_last c s = None
  end.
Proof.
  induction s as [|a s IH]; simpl; [done|].
  destruct (after_last c s) as [r|].
  - destruct IH as (p & -> & ->). by exists (String a p).
  - rewrite IH. destruct (Ascii.eqb_spec a c); [|done].
    exists (String a EmptyString). by subst.
Qed.

Lemma match_at_brace s :
  match_at brace_re s =
    match s with
    | String a s' =>
        if Ascii.eqb a "{" then
          (fun p => {| group0 := String a p; group1 := None |}) <$> upto_last "}" s'
        else None
    | EmptyString => None
    end.
Proof.
  unfold match_at, brace_re. cbn [re_match].
  destruct s as [|a s]; [done|]. cbn [strip_prefix].
  rewrite Ascii.eqb_sym. destruct (Ascii.eqb_spec a "{"); [|done]. subst a.
  rewrite (star_greedy_any_last "}" (fun rest => {| group0 := consumed (String "{" s) rest; group1 := None |})).
  pose proof (upto_after_last "}" s) as H.
  destruct (after_last "}" s) as [r|]; simpl.
  - destruct H as (p & -> & ->). cbn [fmap option_fmap option_map].
    by rewrite <- app_String, consumed_app.
  - by rewrite H.
Qed.

Lemma upto_last_cons_none c a s : upto_last c (String a s) = None -> upto_last c s = None.
Proof. simpl. by destruct (upto_last c s). Qed.

Lemma outer_brace_span_none s : upto_last "}" s = None -> outer_brace_span s = None.
Proof.
  induction s as [|a s IH]; simpl; [done|]. intros H.
  pose proof (upto_last_cons_none _ _ _ H) as H'.
  rewrite H'. rewrite (IH H'). by destruct (Ascii.eqb a "{").
Qed.

Lemma search_brace s :
  search brace_re s
  = (fun span => {| group0 := span; group1 := None |}) <$> outer_brace_span s.
Proof.
  induction s as [|a s IH]; [done|].
  cbn [search]. rewrite match_at_brace. cbn [outer_brace_span].
  destruct (Ascii.eqb a "{").
  - destruct (upto_last "}" s) as [p|] eqn:E; simpl; [done|].
    rewrite IH. by rewrite (outer_brace_span_none _ E).
  - by rewrite IH.
Qed.

Lemma fence_not_space c t :
  is_space c = true -> strip_prefix "```" (String c t) = None.
Proof.
  intros Hc. cbn [strip_prefix].
  destruct (Ascii.eqb_spec "`" c) as [<-|]; [by vm_compute in Hc|done].
Qed.

Lemma closes_space c t : is_space c = true -> closes (String c t) = closes t.
Proof. intros Hc. unfold closes. cbn [lstrip]. by rewrite Hc. Qed.

Lemma closes_nonspace c t :
  is_space c = false -> closes (String c t) = strip_prefix "```" (String c t).
Proof. intros Hc. unfold closes. cbn [lstrip]. by rewrite Hc. Qed.

Lemma tail_greedy {X} (g : string -> X) t :
  star_greedy is_space
    (fun r => match strip_prefix "```" r with
              | Some rest => Some (g rest)
              | None => None
              end) t
  = g <$> closes t.
Proof.
  induction t as [|c t IH]; [done|].
  cbn [star_greedy]. destruct (is_space c) eqn:Hc.
  - rewrite IH, (closes_space _ _ Hc), (fence_not_space _ _ Hc).
    by destruct (closes t).
  - by rewrite (closes_nonspace _ _ Hc).
Qed.

Lemma split_first_cons c s :
  strip_prefix "```" (String c s) = None ->
  split_first "```" (String c s)
  = match split_first "```" s with
    | Some (i, a) => Some (String c i, a)
    | None => None
    end.
Proof. intros E. cbn [split_first]. by rewrite E. Qed.

Lemma split_first_here s a :
  strip_prefix "```" s = Some a -> split_first "```" s = Some (EmptyString, a).
Proof. intros E. destruct s; cbn [split_first]; by rewrite E. Qed.

Lemma rstrip_cons c i :
  rstrip (String c i)
  = match rstrip i with
    | EmptyString => if is_space c then EmptyString else String c EmptyString
    | r => String c r
    end.
Proof. reflexivity. Qed.

Lemma closes_split p i a :
  split_first "```" p = Some (i, a) ->
  (closes p = Some a /\ rstrip i = EmptyString)
  \/ (closes p = None /\ rstrip i <> EmptyString).
Proof.
  revert i a; induction p as [|d q IH]; intros i a H; [done|].
  destruct (strip_prefix "```" (String d q)) as [a'|] eqn:E.
  - rewrite (split_first_here _ _ E) in H. inversion H; subst. left. split; [|done].
    destruct (is_space d) eqn:Hd; [by rewrite (fence_not_space _ _ Hd) in E|].
    by rewrite (closes_nonspace _ _ Hd).
  - rewrite (split_first_cons _ _ E) in H.
    destruct (split_first "```" q) as [[i' a']|]; [|done].
    inversion H; subst. rewrite rstrip_cons.
    destruct (is_space d) eqn:Hd.
    + rewrite (closes_space _ _ Hd).
      destruct (IH _ _ eq_refl) as [[-> ->]|[-> Hi]]; [by left|right].
      split; [done|]. by destruct (rstrip i').
    + rewrite (closes_nonspace _ _ Hd), E. right. split; [done|].
      by destruct (rstrip i').
Qed.

Lemma closes_occurs p r : closes p = Some r -> split_first "```" p <> None.
Proof.
  induction p as [|d q IH]; [done|]. intros H.
  destruct (is_space d) eqn:Hd.
  - rewrite (closes_space _ _ Hd) in H.
    rewrite (split_first_cons _ _ (fence_not_space _ _ Hd)).
    specialize (IH H). by destruct (split_first "```" q) as [[]|].
  - rewrite (closes_nonspace _ _ Hd) in H. by rewrite (split_first_here _ _ H).
Qed.

Lemma lazy_close_cons {X} (h : string -> string -> X) c p :
  lazy_close h (String c p)
  = match closes (String c p) with
    | Some r => Some (h (String c p) r)
    | None => lazy_close h p
    end.
Proof. unfold lazy_close. cbn [star_lazy any_char]. by destruct (closes (String c p)). Qed.

Lemma lazy_close_none {X} (h : string -> string -> X) p :
  split_first "```" p = None -> lazy_close h p = None.
Proof.
  induction p as [|c p IH]; [done|]. intros H.
  rewrite lazy_close_cons.
  destruct (closes (String c p)) as [r|] eqn:E; [by destruct (closes_occurs _ _ E)|].
  apply IH. cbn [split_first] in H.
  destruct (strip_prefix "```" (String c p)); [done|].
  by destruct (split_first "```" p) as [[]|].
Qed.

Lemma lazy_close_some {X} (h : string -> string -> X) p i a :
  split_first "```" p = Some (i, a) ->
  exists s0, p = rstrip i +:+ s0 /\ lazy_close h p = Some (h s0 a).
Proof.
  revert i a; induction p as [|c p IH]; intros i a H; [done|].
  rewrite lazy_close_cons.
  destruct (closes_split _ _ _ H) as [[-> ->]|[-> Hi]]; [by eexists|].
  destruct (strip_prefix "```" (String c p)) as [a'|] eqn:E.
  - rewrite (split_first_here _ _ E) in H. by inversion H; subst.
  - rewrite (split_first_cons _ _ E) in H.
    destruct (split_first "```" p) as [[i' a']|] eqn:E2; [|done].
    inversion H; subst. destruct (IH _ _ eq_refl) as (s0 & Hp & ->).
    exists s0. split; [|done]. rewrite rstrip_cons in Hi |- *.
    destruct (rstrip i') eqn:Er.
    + destruct (is_space c); [done|]. by rewrite Hp.
    + by rewrite app_String, <- Hp.
Qed.

Lemma lstrip_inner c s i a :
  is_space c = false -> split_first "```" (String c s) = Some (i, a) -> lstrip i = i.
Proof.
  intros Hc H. cbn [split_first] in H.
  destruct (strip_prefix "```" (String c s)); [by inversion H|].
  destruct (split_first "```" s) as [[i' a']|]; [|done].
  inversion H; subst. cbn [lstrip]. by rewrite Hc.
Qed.

(** White space, the lazy group, white space and the closing fence, as
    matched from [b] on. *)
Lemma body_match {X} (f : string -> string -> X) b :
  star_greedy is_space (fun r3 => lazy_close (fun s' rest => f rest (consumed r3 s')) r3) b
  = match split_first "```" b with
    | Some (i, a) => Some (f a (trim i))
    | None => None
    end.
Proof.
  induction b as [|c b IH].
  - done.
  - cbn [star_greedy]. destruct (is_space c) eqn:Hc.
    + rewrite IH, (split_first_cons _ _ (fence_not_space _ _ Hc)).
      destruct (split_first "```" b) as [[i a]|] eqn:E.
      * unfold trim. cbn [lstrip]. by rewrite Hc.
      * apply lazy_close_none.
        by rewrite (split_first_cons _ _ (fence_not_space _ _ Hc)), E.
    + destruct (split_first "```" (String c b)) as [[i a]|] eqn:E.
      * destruct (lazy_close_some (fun s' rest => f rest (consumed (String c b) s')) _ _ _ E)
          as (s0 & Hp & ->).
        rewrite Hp at 1. rewrite consumed_app.
        unfold trim. by rewrite (lstrip_inner _ _ _ _ Hc E).
      * by apply lazy_close_none.
Qed.

Lemma star_greedy_ext {X} cls (k k' : string -> option X) s :
  (forall t, k t = k' t) -> star_greedy cls k s = star_greedy cls k' s.
Proof.
  intros Hk. induction s as [|c s IH]; cbn [star_greedy]; [done|].
  by rewrite IH, Hk.
Qed.

Lemma star_lazy_ext {X} cls (k k' : string -> option X) s :
  (forall t, k t = k' t) -> star_lazy cls k s = star_lazy cls k' s.
Proof.
  intros Hk. induction s as [|c s IH]; cbn [star_lazy]; rewrite Hk; [done|].
  by rewrite IH.
Qed.

Lemma fence_body_match {X} (f : string -> string -> X) b :
  star_greedy is_space
    (fun r3 =>
       star_lazy any_char
         (fun s' =>
            star_greedy is_space
              (fun r5 => match strip_prefix "```" r5 with
                         | Some rest => Some (f rest (consumed r3 s'))
                         | None => None
                         end) s') r3) b
  = match split_first "```" b with
    | Some (i, a) => Some (f a (trim i))
    | None => None
    end.
Proof.
  rewrite <- body_match. apply star_greedy_ext. intros r3.
  unfold lazy_close. apply star_lazy_ext. intros s'.
  by rewrite (tail_greedy (fun rest => f rest (consumed r3 s'))).
Qed.

Lemma split_first_skip c s :
  c <> "`"%char -> split_first "```" s = None -> split_first "```" (String c s) = None.
Proof.
  intros Hc H. rewrite split_first_cons, H; [done|].
  cbn [strip_prefix]. by destruct (Ascii.eqb_spec "`" c).
Qed.

Lemma match_at_fence s :
  match_at fence_re s
  = match strip_prefix "```" s with
    | Some body =>
        match split_first "```" (skip_tag "json" body) with
        | Some (i, a) => Some {| group0 := consumed s a; group1 := Some (trim i) |}
        | None => None
        end
    | None => None
    end.
Proof.
  unfold match_at, fence_re. cbn [re_match].
  destruct (strip_prefix "```" s) as [body|]; [|done].
  unfold skip_tag.
  pose proof (fence_body_match
                (fun a g => {| group0 := consumed s a; group1 := Some g |})) as HK.
  cbn beta in HK.
  destruct (strip_prefix "json" body) as [b1|] eqn:E.
  - rewrite !HK. destruct (split_first "```" b1) as [[i a]|] eqn:E1; [done|].
    apply strip_prefix_app in E. subst body.
    rewrite !app_String, app_empty.
    assert (split_first "```" (String "j" (String "s" (String "o" (String "n" b1)))) = None)
      as -> by (do 4 (apply split_first_skip; [done|]); exact E1).
    done.
  - by rewrite HK.
Qed.

(** ** [re.search] of the fence pattern *)

Lemma split_first_tail_none s :
  split_first "```" s = None -> split_first "```" (str_tail s) = None.
Proof.
  destruct s as [|c s]; [done|]. cbn [split_first str_tail].
  destruct (strip_prefix "```" (String c s)); [done|].
  by destruct (split_first "```" s) as [[]|].
Qed.

Lemma split_first_after s i a :
  split_first "```" s = Some (i, a) ->
  split_first "```" (str_tail (str_tail (str_tail s))) = None ->
  split_first "```" a = None.
Proof.
  revert i a; induction s as [|c s IH]; intros i a H Hn; [done|].
  destruct (strip_prefix "```" (String c s)) as [a'|] eqn:E.
  - rewrite (split_first_here _ _ E) in H. inversion H; subst.
    apply strip_prefix_app in E. rewrite !app_String, app_empty in E.
    by rewrite E in Hn.
  - rewrite (split_first_cons _ _ E) in H.
    destruct (split_first "```" s) as [[i' a']|] eqn:E2; [|done].
    inversion H; subst. eapply IH; [done|].
    cbn [str_tail] in Hn. destruct s as [|c1 [|c2 s]]; [done..|].
    cbn [str_tail] in *. by apply split_first_tail_none.
Qed.

Lemma skip_tag_none tag s :
  split_first "```" s = None -> split_first "```" (skip_tag tag s) = None.
Proof.
  unfold skip_tag. revert s. induction tag as [|c tag IH]; intros s H; [done|].
  destruct s as [|d s]; [done|]. cbn [strip_prefix].
  destruct (Ascii.eqb c d); [|done].
  specialize (IH s (split_first_tail_none _ H)).
  by destruct (strip_prefix tag s).
Qed.

Lemma tail_skip_tag_none body :
  split_first "```" (skip_tag "json" body) = None ->
  split_first "```" (str_tail body) = None.
Proof.
  unfold skip_tag. destruct (strip_prefix "json" body) as [b1|] eqn:E.
  - intros H. apply strip_prefix_app in E. subst body.
    rewrite !app_String, app_empty. cbn [str_tail].
    by do 3 (apply split_first_skip; [done|]).
  - apply split_first_tail_none.
Qed.

Lemma fenced_inner_cons c s :
  strip_prefix "```" (String c s) = None ->
  fenced_inner (String c s) = fenced_inner s.
Proof.
  intros E. unfold fenced_inner. rewrite (split_first_cons _ _ E).
  by destruct (split_first "```" s) as [[]|].
Qed.

Lemma fenced_inner_here s body :
  strip_prefix "```" s = Some body ->
  fenced_inner s = match split_first "```" (skip_tag "json" body) with
                   | Some (i, _) => Some (trim i)
                   | None => None
                   end.
Proof. intros E. unfold fenced_inner. by rewrite (split_first_here _ _ E). Qed.

Lemma fenced_inner_none s :
  split_first "```" (str_tail (str_tail (str_tail s))) = None -> fenced_inner s = None.
Proof.
  intros H. unfold fenced_inner.
  destruct (split_first "```" s) as [[i a]|] eqn:E; [|done].
  by rewrite (skip_tag_none _ _ (split_first_after _ _ _ E H)).
Qed.

Lemma search_fence s :
  group1 <$> search fence_re s = Some <$> fenced_inner s.
Proof.
  induction s as [|c s IH]; [done|].
  cbn [search]. rewrite match_at_fence.
  destruct (strip_prefix "```" (String c s)) as [body|] eqn:E.
  - rewrite (fenced_inner_here _ _ E).
    destruct (split_first "```" (skip_tag "json" body)) as [[i a]|] eqn:E1; [done|].
    rewrite IH. rewrite fenced_inner_none; [done|].
    apply strip_prefix_app in E. rewrite !app_String, app_empty in E.
    inversion E; subst. cbn [str_tail]. by apply tail_skip_tag_none.
  - by rewrite IH, (fenced_inner_cons _ _ E).
Qed.
End ParserFacts.

(** ** The cascade *)
Lemma parse_analysis_json_eq (json_loads : string -> option pyval) (text : string) :
  _parse_analysis_json json_loads text = Ok (ParserSpec.parse json_loads text).
Proof.
  unfold _parse_analysis_json, ParserSpec.parse, ParserSpec.strategies.
  cbn [ParserSpec.first_success].
  unfold ParserSpec.decode_whole, ParserSpec.decode_fenced, ParserSpec.decode_braces, loads.
  destruct (json_loads text) as [v|]; [done|].
  cbn [return_unless_decode_error is_JSONDecodeError].
  pose proof (search_fence text) as Hf.
  assert (Hrest :
    if_match (Re.search brace_re text)
      (fun json_match =>
         match json_loads (Re.group0 json_match) with
         | Some v => Ok v
         | None => Raise (JSONDecodeError "Expecting value")
         end) (Ok PNone)
    = Ok match match ParserSpec.outer_brace_span text with
               | Some span => json_loads span
               | None => None
               end with
         | Some v => v
         | None => PNone
         end).
  { rewrite search_brace. destruct (ParserSpec.outer_brace_span text) as [span|]; [|done].
    cbn. by destruct (json_loads span). }
  rewrite Hrest.
  destruct (Re.search fence_re text) as [m|];
    destruct (ParserSpec.fenced_inner text) as [inner|]; cbn in Hf; try done.
  - inversion Hf as [Hg]. unfold if_match, group1_text. rewrite Hg.
    destruct (json_loads inner); [done|].
    cbn [return_unless_decode_error is_JSONDecodeError].
    destruct (ParserSpec.outer_brace_span text) as [sp|]; [by destruct (json_loads sp)|done].
  - cbn [if_match].
    destruct (ParserSpec.outer_brace_span text) as [sp|]; [by destruct (json_loads sp)|done].
Qed.


(** The three examples of the specification decode to the same object. *)
Example parse_examples :
  let nl := String "010" EmptyString in
  _parse_analysis_json demo_loads a1_text = Ok (PDict [("a", PInt 1)])
  /\ _parse_analysis_json demo_loads ("```json" +:+ nl +:+ a1_text +:+ nl +:+ "```")
     = Ok (PDict [("a", PInt 1)])
  /\ _parse_analysis_json demo_loads ("here is it: " +:+ a1_text +:+ " thanks")
     = Ok (PDict [("a", PInt 1)])
  /\ _parse_analysis_json demo_loads "no structured data" = Ok PNone.
Proof. vm_compute. done. Qed.

(** ** Binary64 signs *)

Section Signs.
Let prec := FloatOps.prec.
Let emax := FloatOps.emax.

















End Signs.

(** ** The steps of a job *)

Section Blocks.
Context (W : World) {DT : DateTime}.

(** *** The callback *)

Lemma send_callback_eq url result s :
  _send_callback W url result s
  = (Ok tt, s,
     let headers := [("Content-Type", "application/json")] in
     let outcome := http_post W url result headers (CALLBACK_TIMEOUT (settings W)) in
     [EvLog INFO ("Sending callback to " +:+ py_str W url);
      EvPost url result headers (CALLBACK_TIMEOUT (settings W)) outcome;
      callback_log outcome]).
Proof.
  unfold _send_callback, bind, try_except, logger, emit, raise. cbn.
  destruct (http_post W url result _ _) as [status|msg]; cbn; [|done].
  by destruct (status =? 200).
Qed.

(** *** The status store *)

Lemma store_update_present id fields s e :
  store s !! id = Some e ->
  store_update id fields s
  = (Ok tt, set_store s (<[id := fields ∪ e]> (store s)),
     [EvStore (<[id := fields ∪ e]> (store s))]).
Proof. intros H. unfold store_update, bind, get_store. cbn. by rewrite H. Qed.

Lemma store_update_absent id fields s :
  store s !! id = None ->
  store_update id fields s = (Raise (KeyError id), s, []).
Proof. intros H. unfold store_update, bind, get_store. cbn. by rewrite H. Qed.

Lemma update_status_present id status progress s e :
  store s !! id = Some e ->
  _update_status id status progress s
  = (Ok tt, set_store s (<[id := stage_fields status progress ∪ e]> (store s)),
     [EvStore (<[id := stage_fields status progress ∪ e]> (store s));
      EvLog INFO ("   [" +:+ id +:+ "] " +:+ progress)]).
Proof.
  intros H. unfold _update_status, bind, get_store, when, logger, emit. cbn.
  rewrite bool_decide_eq_true_2 by (by rewrite H).
  by rewrite (store_update_present _ _ _ _ H).
Qed.

Lemma update_status_absent id status progress s :
  store s !! id = None ->
  _update_status id status progress s
  = (Ok tt, s, [EvLog INFO ("   [" +:+ id +:+ "] " +:+ progress)]).
Proof.
  intros H. unfold _update_status, bind, get_store, when, logger, emit. cbn.
  rewrite bool_decide_eq_false_2; [done|]. rewrite H. by intros [? ?].
Qed.

Lemma init_status_eq id s :
  init_status W id s
  = (Ok tt,
     set_store (tick_state W s)
       (<[id := initial_entry id (isoformat (now (tick_state W s)))]> (store s)),
     [EvStore (<[id := initial_entry id (isoformat (now (tick_state W s)))]> (store s))]).
Proof. reflexivity. Qed.
End Blocks.

Section Analyzer.
Context (W : World) {DT : DateTime}.

Lemma logged_score_summary_ok a sc : logged_score a = Ok sc -> summary_ok a.
Proof.
  unfold logged_score, summary_ok. intros H.
  destruct (py_get a "executive_summary" (PDict [])) as [es|] eqn:E1; [|done].
  destruct (py_get es "key_metrics" (PDict [])) as [km|] eqn:E2; [|done].
  destruct es as [| | | | | |des]; try done.
  destruct km as [| | | | | |dkm]; try done.
  by exists des, dkm.
Qed.

Lemma summary_ok_degraded raw : summary_ok (PDict [("raw_analysis", PStr raw)]).
Proof. by exists [], []. Qed.

Lemma analyze_policy_spec text cn ci pt ir s :
  exists r evs,
    analyze_policy W text cn ci pt ir s = (r, s, evs) /\ analyze_post W r evs.
Proof.
  unfold analyze_policy, analyze_post, bind, try_except, logger, emit, lift, ret, raise.
  cbn.
  destruct (String.eqb (ANTHROPIC_API_KEY (settings W)) "").
  { do 2 eexists. split; [reflexivity|]. cbn. by intuition. }
  destruct (get_analysis_prompt W ci ir) as [system_prompt|e].
  2:{ do 2 eexists. split; [reflexivity|]. by cbn. }
  cbn.
  destruct (messages_create W _ _ _ system_prompt) as [raw tin tout|e]; cbn.
  2:{ destruct (is_APIError e); cbn; do 2 eexists; (split; [reflexivity|]); cbn; by intuition. }
  rewrite parse_analysis_json_eq. fold (parsed W raw).
  destruct (truthy (parsed W raw)) eqn:Ht; cbn.
  2:{ do 2 eexists. split; [reflexivity|]. cbn. split; [done|]. split; [done|].
      exists raw. split; [done|]. split; [apply summary_ok_degraded|done]. }
  destruct (py_setitem (parsed W raw) "_metadata" _) as [a|e]; cbn.
  2:{ destruct (is_APIError e); cbn; do 2 eexists; (split; [reflexivity|]); cbn;
      (split; [done|]); (split; [done|]); by intros ? [<-|[]]. }
  destruct (logged_score a) as [sc|e] eqn:Hs; cbn.
  2:{ destruct (is_APIError e); cbn; do 2 eexists; (split; [reflexivity|]); cbn;
      (split; [done|]); (split; [done|]); by intros ? [<-|[]]. }
  do 2 eexists. split; [reflexivity|]. cbn. split; [done|]. split; [done|].
  exists raw. split; [done|]. split; [by eapply logged_score_summary_ok|].
  intros. congruence.
Qed.
End Analyzer.

Section Steps.
Context (W : World) {DT : DateTime}.

Lemma running_inv t0 e : running t0 e -> entry_inv e.
Proof.
  intros (_ & Hc & Hr & st & Hs & ? & ?). unfold entry_inv, field, terminal.
  rewrite Hc, Hr, Hs. cbn. split; split; try done.
  - intros [?|?]; congruence.
  - congruence.
Qed.

Lemma running_initial id t0 : running t0 (initial_entry id (isoformat t0)).
Proof. repeat split; try done. by exists "started". Qed.

Lemma running_stage t0 e status progress :
  status <> "completed" -> status <> "failed" ->
  running t0 e -> running t0 (stage_fields status progress ∪ e).
Proof.
  intros ? ? (Hs & Hc & Hr & _). unfold stage_fields.
  repeat split.
  - by rewrite lookup_union_r.
  - by rewrite lookup_union_r.
  - by rewrite lookup_union_r.
  - exists status. split; [|done]. by erewrite lookup_union_Some_l.
Qed.

Lemma completed_inv t0 e completed_at result :
  completed_at <> PNone -> result <> PNone ->
  running t0 e -> entry_inv (completed_fields completed_at result ∪ e).
Proof.
  intros ? ? _. unfold entry_inv, field, terminal, completed_fields.
  erewrite !lookup_union_Some_l by done. cbn. split; split; auto.
Qed.

Lemma failed_inv t0 e error completed_at :
  running t0 e -> entry_inv (failed_fields error completed_at ∪ e).
Proof.
  intros (_ & _ & Hr & _). unfold entry_inv, field, terminal, failed_fields.
  erewrite (lookup_union_Some_l _ _ "completed_at") by done.
  erewrite (lookup_union_Some_l _ _ "status") by done.
  rewrite (lookup_union_r _ _ "result") by done. rewrite Hr. cbn.
  split; split; auto; done.
Qed.

Lemma get_pdf_content_spec payload s :
  exists r evs,
    get_pdf_content W payload s = (r, s, evs) /\ quiet evs
    /\ (no_source payload ->
        r = Raise (ValueError "No file path or URL provided")
        /\ omap sel_collab evs = []).
Proof.
  unfold get_pdf_content, no_source, quiet, bind, emit, ret, raise, logger. cbn.
  destruct (truthy (payload_get payload "_local_file_path" PNone)); cbn.
  { destruct (ExtractionResult.success _); cbn; do 2 eexists;
      (split; [reflexivity|]); cbn; by intuition. }
  destruct (truthy (payload_get payload "file_url" PNone)); cbn.
  { destruct (ExtractionResult.success _); cbn; do 2 eexists;
      (split; [reflexivity|]); cbn; by intuition. }
  do 2 eexists. split; [reflexivity|]. by cbn.
Qed.

Lemma analyze_with_claude_spec text cn ci pt ir s :
  exists r evs,
    analyze_with_claude W text cn ci pt ir s = (r, s, evs)
    /\ omap sel_store evs = [] /\ omap sel_render evs = []
    /\ match r with
       | Ok data =>
           exists raw, omap sel_reply evs = [raw] /\ summary_ok data
                       /\ (truthy (parsed W raw) = false ->
                           data = PDict [("raw_analysis", PStr raw)])
       | Raise e => forall raw, In raw (omap sel_reply evs) -> truthy (parsed W raw) = true
       end.
Proof.
  unfold analyze_with_claude, bind.
  destruct (analyze_policy_spec W text cn ci pt ir s) as (r & evs & -> & Hst & Hre & H).
  destruct r as [ar|e].
  2:{ do 2 eexists. split; [reflexivity|]. rewrite H. by intuition. }
  destruct (AnalysisResult.success ar) eqn:Hs; cbn.
  - do 2 eexists. split; [reflexivity|]. rewrite !omap_app, Hst, Hre. cbn. rewrite app_nil_r.
    by intuition.
  - do 2 eexists. split; [reflexivity|]. rewrite !omap_app, Hst, Hre. cbn. rewrite app_nil_r.
    by intuition.
Qed.

Lemma generate_pdf_report_spec data s :
  exists evs,
    generate_pdf_report W data s = (Ok (report_path_of (rendered W data)), s, evs)
    /\ omap sel_store evs = [] /\ omap sel_reply evs = []
    /\ omap sel_render evs = [(data, rendered W data)].
Proof.
  unfold generate_pdf_report, report_path_of, rendered, bind, emit, logger, ret. cbn.
  destruct (ReportResult.success _); cbn; eexists; by intuition.
Qed.
End Steps.

Section Finish.
Context (W : World) {DT : DateTime}.

Lemma truthy_isoformat t : truthy (PStr (isoformat t)) = true.
Proof.
  cbn. destruct (String.eqb_spec (isoformat t) ""); [|done].
  by destruct (isoformat_nonempty t).
Qed.

Lemma calculate_duration_started id s e t0 :
  store s !! id = Some e ->
  e !! "started_at" = Some (PStr (isoformat t0)) ->
  _calculate_duration W id s
  = (Ok (PFloat (elapsed t0 (now (tick_state W s)))), tick_state W s, []).
Proof.
  intros He Hs. unfold _calculate_duration, bind, get_store, lift, ret.
  cbn -[truthy]. rewrite He, Hs. cbn -[truthy]. rewrite truthy_isoformat.
  cbn. by rewrite fromisoformat_isoformat.
Qed.



Lemma build_result_spec id payload data rp s e t0 :
  store s !! id = Some e ->
  e !! "started_at" = Some (PStr (isoformat t0)) ->
  summary_ok data ->
  exists sc rec,
    build_result W id payload
      (payload_get payload "client_name" (PStr "Unknown Client")) data rp s
    = (Ok (result_of id payload data rp (now (tick_state W s))
             (elapsed t0 (now (tick_state W (tick_state W s)))) sc rec),
       tick_state W (tick_state W s), []).
Proof.
  intros He Hs (des & dkm & H1 & H2).
  unfold build_result, bind, lift. rewrite H1, H2.
  cbn -[_calculate_duration tick_state].
  change {| store := store s; now := (now s + tick W (reads s))%N;
            reads := S (reads s) |} with (tick_state W s).
  rewrite (calculate_duration_started id (tick_state W s) e t0 He Hs). cbn.
  by do 2 eexists.
Qed.

Lemma store_results_spec id payload result s :
  exists evs, store_results W id payload result s = (Ok tt, s, evs) /\ quiet evs.
Proof.
  unfold store_results, store_analysis_result, quiet, bind, emit, logger, ret. cbn.
  destruct (truthy _); [|by eexists].
  destruct (supabase_client W); cbn; [|by eexists].
  destruct (supabase_execute W _ _ _ _); cbn; by eexists.
Qed.

Lemma complete_job_spec id payload data rp tc d sc rec cb s e :
  store s !! id = Some e ->
  let result := result_of id payload data rp tc d sc rec in
  let st := <[id := completed_fields (PStr (isoformat tc)) result ∪ e]> (store s) in
  exists evs,
    complete_job W id cb result s = (Ok tt, set_store s st, evs)
    /\ omap sel_store evs = [st] /\ omap sel_render evs = [] /\ omap sel_reply evs = [].
Proof.
  intros He result st. unfold complete_job, bind, lift, logger, emit, when.
  cbn -[store_update list_to_map]. rewrite (store_update_present id _ s e He). cbn -[_send_callback].
  destruct (truthy cb); cbn -[_send_callback]; [|by eexists].
  rewrite send_callback_eq. cbn. eexists. split; [reflexivity|].
  by destruct (http_post W _ _ _ _) as [status|]; cbn; [destruct (status =? 200)|].
Qed.

Lemma on_failure_spec id payload exn s e :
  store s !! id = Some e ->
  let t := now (tick_state W s) in
  let st := <[id := failed_fields (exn_str exn) (isoformat t) ∪ e]> (store s) in
  exists s' evs,
    on_failure W id payload exn s = (Ok tt, s', evs) /\ store s' = st
    /\ omap sel_store evs = [st] /\ omap sel_render evs = []
    /\ omap sel_reply evs = [] /\ omap sel_collab evs = [].
Proof.
  intros He t st. unfold on_failure, bind, logger, emit, ret.
  cbn -[store_update list_to_map].
  change {| store := store s; now := (now s + tick W (reads s))%N;
            reads := S (reads s) |} with (tick_state W s).
  rewrite (store_update_present id _ (tick_state W s) e He). cbn -[_send_callback].
  destruct (truthy _); cbn -[_send_callback]; [|by do 2 eexists].
  rewrite send_callback_eq. cbn. do 2 eexists. split; [reflexivity|].
  by destruct (http_post W _ _ _ _) as [status|]; cbn; [destruct (status =? 200)|].
Qed.
End Finish.

Section Pipeline.
Context (W : World) {DT : DateTime}.
Variables (id : string) (payload : list (string * pyval)).

Lemma snap_running_stage st0 t0 en status progress :
  status <> "completed" -> status <> "failed" -> running t0 en ->
  snap_running id st0 t0 (<[id := stage_fields status progress ∪ en]> (<[id := en]> st0)).
Proof.
  intros. exists (stage_fields status progress ∪ en).
  split; [by rewrite insert_insert_eq|by apply running_stage].
Qed.

Lemma pipeline_spec s0 st0 e0 t0 :
  store s0 = <[id := e0]> st0 -> running t0 e0 -> (t0 <= now s0)%N ->
  exists r s' evs,
    pipeline W id payload s0 = (r, s', evs) /\ pipeline_post W id payload st0 t0 r s' evs.
Proof.
  intros Hst0 Hrun Ht0.
  assert (He0 : store s0 !! id = Some e0) by (rewrite Hst0; apply lookup_insert_eq).
  unfold pipeline, bind.
  (* extracting *)
  rewrite (update_status_present id _ _ s0 e0 He0).
  set (e1 := stage_fields "extracting" _ ∪ e0).
  set (s1 := set_store s0 _).
  assert (Hr1 : running t0 e1) by (by apply running_stage).
  assert (Hs1 : store s1 = <[id := e1]> st0)
    by (unfold s1; cbn; by rewrite Hst0, insert_insert_eq).
  assert (Hsn1 : snap_running id st0 t0 (store s1)) by (by exists e1).
  destruct (get_pdf_content_spec W payload s1) as (r1 & ev1 & -> & (Hq1a & Hq1b & Hq1c) & Hns).
  destruct r1 as [extraction|e].
  2:{ do 3 eexists. split; [reflexivity|]. cbn [pipeline_post]. unfold aborted_post.
      rewrite !omap_app, Hq1a, Hq1b, Hq1c. cbn.
      split; [done|]. split; [by repeat constructor|]. split; [done|]. split; [done|].
      intros Hn. destruct (Hns Hn) as [[= ->] ->]. done. }
  (* analyzing *)
  assert (He1 : store s1 !! id = Some e1) by (rewrite Hs1; apply lookup_insert_eq).
  rewrite (update_status_present id _ _ s1 e1 He1).
  set (e2 := stage_fields "analyzing" _ ∪ e1).
  set (s2 := set_store s1 _).
  assert (Hr2 : running t0 e2) by (by apply running_stage).
  assert (Hs2 : store s2 = <[id := e2]> st0)
    by (unfold s2; cbn -[s1]; by rewrite Hs1, insert_insert_eq).
  assert (Hsn2 : snap_running id st0 t0 (store s2)) by (by exists e2).
  destruct (analyze_with_claude_spec W (ExtractionResult.text extraction)
              (payload_get payload "client_name" (PStr "Unknown Client"))
              (payload_get payload "client_industry" (PStr "Other/General"))
              (payload_get payload "policy_type" (PStr "cyber"))
              (payload_get payload "renewal" (PBool false)) s2)
    as (r2 & ev2 & -> & Hq2a & Hq2b & H2).
  assert (Hsrc : ~ no_source payload).
  { intros Hn. by destruct (Hns Hn). }
  destruct r2 as [data|e].
  2:{ do 3 eexists. split; [reflexivity|]. cbn [pipeline_post]. unfold aborted_post.
      rewrite !omap_app, Hq1a, Hq1b, Hq1c, Hq2a, Hq2b. cbn -[s1 s2].
      split; [done|]. split; [by repeat constructor|]. split; [done|]. split; [done|].
      intros Hn. by destruct Hsrc. }
  destruct H2 as (raw & Hq2c & Hsum & Hdeg).
  (* generating *)
  assert (He2 : store s2 !! id = Some e2) by (rewrite Hs2; apply lookup_insert_eq).
  rewrite (update_status_present id _ _ s2 e2 He2).
  set (e3 := stage_fields "generating" _ ∪ e2).
  set (s3 := set_store s2 _).
  assert (Hr3 : running t0 e3) by (by apply running_stage).
  assert (Hs3 : store s3 = <[id := e3]> st0)
    by (unfold s3; cbn -[s2]; by rewrite Hs2, insert_insert_eq).
  assert (Hsn3 : snap_running id st0 t0 (store s3)) by (by exists e3).
  assert (He3 : store s3 !! id = Some e3) by (rewrite Hs3; apply lookup_insert_eq).
  destruct (generate_pdf_report_spec W data s3) as (ev3 & -> & Hq3a & Hq3c & Hq3b).
  destruct (build_result_spec W id payload data (report_path_of (rendered W data))
              s3 e3 t0 He3 (proj1 Hr3) Hsum) as (sc & rec & ->).
  set (s4 := tick_state W (tick_state W s3)).
  destruct (store_results_spec W id payload
              (result_of id payload data (report_path_of (rendered W data))
                 (now (tick_state W s3)) (elapsed t0 (now s4)) sc rec) s4)
    as (ev4 & -> & Hq4a & Hq4b & Hq4c).
  assert (He4 : store s4 !! id = Some e3) by exact He3.
  destruct (complete_job_spec W id payload data (report_path_of (rendered W data))
              (now (tick_state W s3)) (elapsed t0 (now s4)) sc rec
              (payload_get payload "callback_url" PNone) s4 e3 He4)
    as (ev5 & -> & Hq5a & Hq5b & Hq5c).
  do 3 eexists. split; [reflexivity|]. cbn [pipeline_post]. unfold completed_post.
  exists e3, data, raw, (now (tick_state W s3)), (now s4), sc, rec,
    [store s1; store s2; store s3].
  cbn zeta. split; [done|].
  assert (Hfin : store (set_store s4
                   (<[id := completed_fields (PStr (isoformat (now (tick_state W s3))))
                             (result_of id payload data (report_path_of (rendered W data))
                                (now (tick_state W s3)) (elapsed t0 (now s4)) sc rec) ∪ e3]>
                      (store s4)))
                 = <[id := completed_fields (PStr (isoformat (now (tick_state W s3))))
                             (result_of id payload data (report_path_of (rendered W data))
                                (now (tick_state W s3)) (elapsed t0 (now s4)) sc rec) ∪ e3]> st0).
  { cbn -[s3]. by rewrite Hs3, insert_insert_eq. }
  split; [exact Hfin|].
  rewrite !omap_app, Hq1a, Hq1b, Hq1c, Hq2a, Hq2b, Hq2c, Hq3a, Hq3b, Hq3c,
    Hq4a, Hq4b, Hq4c, Hq5a, Hq5b, Hq5c.
  split; [done|]. split; [by repeat constructor|].
  split; [done|]. split; [done|]. split; [done|].
  split; [|done].
  unfold s4, s3, s2, s1. cbn. lia.
Qed.
End Pipeline.

#[local] Arguments tick_state : simpl never.

Section Run.
Context (W : World) {DT : DateTime}.
Variables (id : string) (payload : list (string * pyval)).

Theorem run_spec s0 :
  exists s' evs,
    run_policy_analysis W id payload s0 = (Ok tt, s', evs)
    /\ (completed_post W id payload (store s0) (start_time W s0) s' evs
        \/ failed_post W id payload (store s0) (start_time W s0) s' evs).
Proof.
  unfold run_policy_analysis, bind, try_except, logger, emit.
  rewrite init_status_eq.
  set (t0 := start_time W s0). fold (start_time W s0). fold t0.
  set (e0 := initial_entry id (isoformat t0)).
  set (s1 := set_store _ _).
  assert (Hr0 : running t0 e0) by apply running_initial.
  assert (Hsn : snap_running id (store s0) t0 (store s1)) by (by exists e0).
  destruct (pipeline_spec W id payload s1 (store s0) e0 t0 eq_refl Hr0)
    as (r & s2 & evs & -> & Hpost); [done|].
  destruct r as [[]|e]; cbn [pipeline_post] in Hpost.
  - do 2 eexists. split; [reflexivity|]. left.
    destruct Hpost as (en & data & raw & tc & td & sc & rec & snaps & H).
    cbn zeta in H. destruct H as (? & ? & Hsn' & ? & ? & ? & ? & ? & ? & ?).
    exists en, data, raw, tc, td, sc, rec, (store s1 :: snaps). cbn zeta.
    rewrite !omap_app, Hsn'. cbn.
    split; [done|]. split; [done|]. split; [done|]. split; [by constructor|]. done.
  - destruct Hpost as ((en & Hen & Hrun) & Hsn' & Hre' & Hrep' & Hns).
    assert (He2 : store s2 !! id = Some en) by (rewrite Hen; apply lookup_insert_eq).
    destruct (on_failure_spec W id payload e s2 en He2)
      as (s3 & evf & -> & Hst3 & Hf1 & Hf2 & Hf3 & Hf4).
    do 2 eexists. split; [reflexivity|]. right.
    exists en, e, (now (tick_state W s2)), (store s1 :: omap sel_store evs).
    rewrite !omap_app, Hf1, Hf2, Hf3, Hf4, Hre', ?app_nil_r.
    rewrite Hst3, Hen, insert_insert_eq. cbn.
    split; [done|]. split; [done|]. split; [done|]. split; [by constructor|].
    split; [done|]. split; [done|].
    intros Hn. destruct (Hns Hn) as [-> ->]. done.
Qed.
End Run.

(** ** The claims *)

Section Claims.
Context (W : World) {DT : DateTime}.

(** *** The status store *)

Lemma update_status_absent_noop id status progress s :
  store s !! id = None ->
  outcome (_update_status id status progress s) = Ok tt
  /\ final (_update_status id status progress s) = s.
Proof. intros H. by rewrite (update_status_absent id status progress s H). Qed.

Lemma on_failure_absent id payload e s :
  store s !! id = None ->
  outcome (on_failure W id payload e s) = Raise (KeyError id).
Proof.
  intros H. unfold on_failure, bind, logger, emit. cbn -[store_update list_to_map].
  by rewrite store_update_absent.
Qed.

Lemma complete_job_absent id cb tc sc rec data rp d payload s :
  store s !! id = None ->
  outcome (complete_job W id cb (result_of id payload data rp tc d sc rec) s)
  = Raise (KeyError id).
Proof.
  intros H. unfold complete_job, bind, lift. cbn -[store_update list_to_map].
  by rewrite store_update_absent.
Qed.

(** C10: on an entry that is present, [_update_status] sets the status
    and progress fields and nothing else: every other field of the entry
    and every entry under another id stay as they were. *)
Theorem update_status_frame id status progress s e :
  store s !! id = Some e ->
  outcome (_update_status id status progress s) = Ok tt
  /\ (exists e', store (final (_update_status id status progress s)) !! id = Some e'
                 /\ e' !! "status" = Some (PStr status)
                 /\ e' !! "progress" = Some (PStr progress)
                 /\ forall k, k <> "status" -> k <> "progress" -> e' !! k = e !! k)
  /\ (forall id', id' <> id ->
        store (final (_update_status id status progress s)) !! id' = store s !! id').
Proof.
  intros H. rewrite (update_status_present id status progress s e H).
  unfold outcome, final. cbn. split; [done|]. split.
  - eexists. split; [apply lookup_insert_eq|]. unfold stage_fields.
    split; [by erewrite lookup_union_Some_l|].
    split; [by erewrite lookup_union_Some_l|].
    intros k H1 H2. rewrite lookup_union_r; [done|]. cbn. by simplify_map_eq.
  - intros id' Hne. by rewrite lookup_insert_ne.
Qed.

(** C5, as the code has it: creating the entry of a job never fails;
    whatever the store held under the id is replaced by a fresh entry in
    state [started]. *)
Theorem init_status_replaces id s :
  outcome (init_status W id s) = Ok tt
  /\ store (final (init_status W id s)) !! id
     = Some (initial_entry id (isoformat (start_time W s)))
  /\ (forall id', id' <> id ->
        store (final (init_status W id s)) !! id' = store s !! id').
Proof.
  rewrite init_status_eq. unfold outcome, final. cbn.
  split; [done|]. split; [apply lookup_insert_eq|].
  intros id' Hne. by rewrite lookup_insert_ne.
Qed.

(** C8: the callback delivery always returns normally and leaves the state
    alone; it makes exactly one POST, of the payload, with the JSON
    content type and the configured timeout, and then logs the verdict:
    success exactly when the response code is 200, otherwise a warning
    (another code) or an error (an I/O fault). *)
Theorem send_callback_single_attempt url payload s :
  let headers := [("Content-Type", "application/json")] in
  let timeout := CALLBACK_TIMEOUT (settings W) in
  let reply := http_post W url payload headers timeout in
  exists verdict,
    _send_callback W url payload s
    = (Ok tt, s,
       [EvLog INFO ("Sending callback to " +:+ py_str W url);
        EvPost url payload headers timeout reply;
        verdict])
    /\ (verdict = EvLog INFO "   Callback sent successfully" <-> reply = HttpResponse 200)
    /\ (reply <> HttpResponse 200 ->
        exists msg, verdict = EvLog WARNING msg \/ verdict = EvLog ERROR msg).
Proof.
  intros headers timeout reply. exists (callback_log reply).
  split; [apply send_callback_eq|]. unfold callback_log.
  destruct reply as [status|msg].
  - destruct (Z.eqb_spec status 200) as [->|Hne].
    + by split.
    + split; [split; [done|congruence]|]. intros _. eexists. by left.
  - split; [done|]. intros _. eexists. by right.
Qed.
End Claims.

(** C5, against the claim: the id is present, yet the creation succeeds and
    the completed entry is replaced by one in state [started]. *)
Lemma init_status_replaces_completed :
  field (default ∅ (store used_state !! "job-1")) "status" = PStr "completed"
  /\ outcome (init_status demo_world "job-1" used_state) = Ok tt
  /\ field (default ∅ (store (final (init_status demo_world "job-1" used_state)) !! "job-1"))
       "status" = PStr "started".
Proof. vm_compute. done. Qed.


Section Jobs.
Context (W : World) {DT : DateTime}.

Lemma field_completed en ca r k :
  field (completed_fields ca r ∪ en) k
  = if String.eqb k "status" then PStr "completed"
    else if String.eqb k "progress" then PStr "Analysis complete"
    else if String.eqb k "completed_at" then ca
    else if String.eqb k "result" then r
    else field en k.
Proof.
  unfold field, completed_fields.
  destruct (String.eqb_spec k "status") as [->|?];
    [by erewrite lookup_union_Some_l by done|].
  destruct (String.eqb_spec k "progress") as [->|?];
    [by erewrite lookup_union_Some_l by done|].
  destruct (String.eqb_spec k "completed_at") as [->|?];
    [by erewrite lookup_union_Some_l by done|].
  destruct (String.eqb_spec k "result") as [->|?];
    [by erewrite lookup_union_Some_l by done|].
  rewrite lookup_union_r; [done|]. cbn. by simplify_map_eq.
Qed.

Lemma field_failed en err t k :
  field (failed_fields err t ∪ en) k
  = if String.eqb k "status" then PStr "failed"
    else if String.eqb k "progress" then PStr "Analysis failed"
    else if String.eqb k "error" then PStr err
    else if String.eqb k "completed_at" then PStr t
    else field en k.
Proof.
  unfold field, failed_fields.
  destruct (String.eqb_spec k "status") as [->|?];
    [by erewrite lookup_union_Some_l by done|].
  destruct (String.eqb_spec k "progress") as [->|?];
    [by erewrite lookup_union_Some_l by done|].
  destruct (String.eqb_spec k "error") as [->|?];
    [by erewrite lookup_union_Some_l by done|].
  destruct (String.eqb_spec k "completed_at") as [->|?];
    [by erewrite lookup_union_Some_l by done|].
  rewrite lookup_union_r; [done|]. cbn. by simplify_map_eq.
Qed.



End Jobs.

Section Invariant.
Context (W : World) {DT : DateTime}.

Lemma store_inv_insert st id e :
  store_inv st -> entry_inv e -> store_inv (<[id := e]> st).
Proof.
  intros Hst He id' e'. destruct (decide (id = id')) as [->|Hne].
  - rewrite lookup_insert_eq. by intros [= <-].
  - rewrite lookup_insert_ne by done. apply Hst.
Qed.

Lemma snap_running_inv id st0 t0 st :
  store_inv st0 -> snap_running id st0 t0 st -> store_inv st /\ is_Some (st !! id).
Proof.
  intros Hst (en & -> & Hrun). split.
  - apply store_inv_insert; [done|by eapply running_inv].
  - rewrite lookup_insert_eq. by eexists.
Qed.

(** C4: started from a store whose entries satisfy the invariant
    ([completed_at] set exactly in a terminal status, [result] set
    exactly in status [completed]), a job leaves every entry in the
    invariant after each of its writes to the store (the creation, the
    stage updates and the update to [completed] or [failed]), and its own
    entry is present from the first write on. *)
Theorem status_invariant id payload s :
  store_inv (store s) ->
  Forall (fun st => store_inv st /\ is_Some (st !! id))
    (omap sel_store (events (run_policy_analysis W id payload s)))
  /\ store_inv (store (final (run_policy_analysis W id payload s)))
  /\ last (omap sel_store (events (run_policy_analysis W id payload s)))
     = Some (store (final (run_policy_analysis W id payload s))).
Proof.
  intros Hinv.
  destruct (run_spec W id payload s) as (s' & evs & -> & [Hc|Hf]);
    unfold final, events; cbn [fst snd].
  - destruct Hc as (en & data & raw & tc & td & sc & rec & snaps & Hc).
    cbn zeta in Hc. destruct Hc as (Hrun & Hst & -> & Hsn & _).
    assert (Hfin : store_inv (store s') /\ is_Some (store s' !! id)).
    { rewrite Hst. split; [|rewrite lookup_insert_eq; by eexists].
      apply store_inv_insert; [done|]. by eapply completed_inv. }
    split; [|split; [by apply Hfin|by rewrite last_snoc]].
    apply Forall_app. split; [|by constructor].
    eapply Forall_impl; [exact Hsn|]. intros st. by apply snap_running_inv.
  - destruct Hf as (en & e & t & snaps & Hrun & Hst & -> & Hsn & _).
    assert (Hfin : store_inv (store s') /\ is_Some (store s' !! id)).
    { rewrite Hst. split; [|rewrite lookup_insert_eq; by eexists].
      apply store_inv_insert; [done|]. by eapply failed_inv. }
    split; [|split; [by apply Hfin|by rewrite last_snoc]].
    apply Forall_app. split; [|by constructor].
    eapply Forall_impl; [exact Hsn|]. intros st. by apply snap_running_inv.
Qed.

(** [round_half_even n d] is an integer nearest to [n / d]. *)
Lemma round_half_even_nearest n d :
  0 < d -> 2 * Z.abs (d * round_half_even n d - n) <= d.
Proof.
  intros Hd. unfold round_half_even.
  pose proof (Z.div_mod n d ltac:(lia)) as Hdm.
  pose proof (Z.mod_pos_bound n d Hd) as Hb.
  destruct (Z.compare_spec (2 * (n mod d)) d); [destruct (Z.even (n / d))| |]; nia.
Qed.

End Invariant.

(** ** Concrete runs *)




Lemma status_invariant_witness :
  store_inv (store empty_state)
  /\ store_inv (store (final (run_policy_analysis demo_world "job-1" upload_payload
                                empty_state))).
Proof.
  assert (H : store_inv (store empty_state)).
  { intros id e He. cbn in He. by rewrite lookup_empty in He. }
  split; [exact H|].
  apply (status_invariant demo_world "job-1" upload_payload empty_state H).
Defined.



Lemma update_status_frame_witness :
  store used_state !! "job-1" = Some used_entry
  /\ forall id', id' <> "job-1" ->
       store (final (_update_status "job-1" "extracting" "Extracting text from PDF..."
                       used_state)) !! id' = store used_state !! id'.
Proof.
  assert (H : store used_state !! "job-1" = Some used_entry)
    by apply lookup_singleton_eq.
  split; [exact H|].
  exact (proj2 (proj2 (update_status_frame "job-1" "extracting"
                         "Extracting text from PDF..." used_state used_entry H))).
Defined.

(** The demo job: three clock readings a second and a half apart, so three
    seconds from start to completion. *)
Example demo_job_elapsed :
  py_getitem
    (field (default ∅ (store (final (run_policy_analysis demo_world "job-1" upload_payload
                                       empty_state)) !! "job-1")) "result")
    "processing_time_seconds"
  = Ok (PFloat 3%float).
Proof. vm_compute. reflexivity. Qed.

(** [round(x, 2)] on seconds computed from microseconds. *)
Example round_examples :
  py_round2 (total_seconds 1234567) = 1.23%float
  /\ py_round2 (total_seconds 5000) = 0.01%float
  /\ py_round2 (total_seconds 125000) = 0.12%float
  /\ py_round2 (total_seconds 0) = 0%float.
Proof. vm_compute. done. Qed.

(** * Further properties *)

(** ** Recovery by the parser *)

Section ParserRecovery.
Import Re ParserSpec.






Lemma free_of_app c a b : free_of c (a +:+ b) = free_of c a && free_of c b.
Proof.
  induction a as [|x a IH]; [by rewrite app_empty|].
  rewrite app_String. cbn. by rewrite IH, andb_assoc.
Qed.

Lemma split_first_at_fence before rest :
  free_of "`" before = true ->
  split_first "```" (before +:+ "```" +:+ rest) = Some (before, rest).
Proof.
  intros Hb. induction before as [|a b IH].
  - rewrite app_empty. by rewrite !app_String, app_empty.
  - rewrite app_String. apply andb_prop in Hb as [H1 H2].
    cbn [split_first strip_prefix]. rewrite Ascii.eqb_sym.
    destruct (Ascii.eqb a "`"); [done|]. by rewrite (IH H2).
Qed.

Lemma all_space_free s : all_space s = true -> free_of "`" s = true.
Proof.
  induction s as [|a s IH]; [done|]. cbn. intros [Ha Hs]%andb_prop.
  rewrite (IH Hs), andb_true_r.
  destruct (Ascii.eqb_spec a "`") as [->|]; [|done]. vm_compute in Ha. discriminate Ha.
Qed.

Lemma lstrip_space ws s : all_space ws = true -> lstrip (ws +:+ s) = lstrip s.
Proof.
  induction ws as [|a ws IH]; [by rewrite app_empty|].
  cbn. intros [Ha Hs]%andb_prop. rewrite app_String. cbn. rewrite Ha. by apply IH.
Qed.

Lemma lstrip_all_space ws : all_space ws = true -> lstrip ws = EmptyString.
Proof.
  induction ws as [|a ws IH]; [done|]. cbn. intros [Ha Hs]%andb_prop.
  rewrite Ha. by apply IH.
Qed.

Lemma rstrip_all_space ws : all_space ws = true -> rstrip ws = EmptyString.
Proof.
  induction ws as [|a ws IH]; [done|]. cbn. intros [Ha Hs]%andb_prop.
  by rewrite (IH Hs), Ha.
Qed.

Lemma rstrip_space s ws : all_space ws = true -> rstrip (s +:+ ws) = rstrip s.
Proof.
  intros Hs. induction s as [|a s IH].
  - rewrite app_empty. by apply rstrip_all_space.
  - rewrite app_String. cbn. by rewrite IH.
Qed.

Lemma rstrip_trimmed s : ends_with_space s = false -> rstrip s = s.
Proof.
  induction s as [|a s IH]; [done|]. intros H. cbn.
  destruct s as [|b s]; [cbn in *; by rewrite H|].
  rewrite IH by exact H. done.
Qed.

Lemma trim_padded ws1 doc ws2 :
  all_space ws1 = true -> all_space ws2 = true ->
  starts_with_space doc = false -> ends_with_space doc = false ->
  trim (ws1 +:+ doc +:+ ws2) = doc.
Proof.
  intros H1 H2 Hs He. unfold trim. rewrite (lstrip_space _ _ H1).
  destruct doc as [|a d].
  - rewrite app_empty. by rewrite (lstrip_all_space _ H2).
  - rewrite app_String. cbn [lstrip]. cbn in Hs. rewrite Hs.
    rewrite <- app_String. rewrite (rstrip_space _ _ H2). by apply rstrip_trimmed.
Qed.

Lemma skip_tag_space ws s :
  ws <> EmptyString -> all_space ws = true -> skip_tag "json" (ws +:+ s) = ws +:+ s.
Proof.
  destruct ws as [|a ws]; [done|]. intros _ [Ha _]%andb_prop.
  rewrite app_String. unfold skip_tag. cbn [strip_prefix].
  destruct (Ascii.eqb_spec "j" a) as [<-|]; [|done]. vm_compute in Ha. discriminate Ha.
Qed.

Lemma app_assoc_str a b c : (a +:+ b) +:+ c = a +:+ b +:+ c.
Proof.
  induction a as [|x a IH]; [by rewrite !app_empty|]. rewrite !app_String. by rewrite IH.
Qed.

Lemma fenced_inner_block before tag ws1 doc ws2 after :
  free_of "`" before = true -> free_of "`" doc = true ->
  tag = "json" \/ (tag = "" /\ ws1 <> "") ->
  all_space ws1 = true -> all_space ws2 = true ->
  starts_with_space doc = false -> ends_with_space doc = false ->
  fenced_inner (before +:+ "```" +:+ tag +:+ ws1 +:+ doc +:+ ws2 +:+ "```" +:+ after)
  = Some doc.
Proof.
  intros Hb Hd Htag H1 H2 Hs He. unfold fenced_inner.
  rewrite (split_first_at_fence _ _ Hb).
  assert (Hskip : skip_tag "json" (tag +:+ ws1 +:+ doc +:+ ws2 +:+ "```" +:+ after)
                  = (ws1 +:+ doc +:+ ws2) +:+ "```" +:+ after).
  { rewrite !app_assoc_str. destruct Htag as [->|[-> Hne]].
    - unfold skip_tag. by rewrite !app_String, app_empty.
    - rewrite app_empty. by apply skip_tag_space. }
  rewrite Hskip. rewrite split_first_at_fence.
  - by rewrite trim_padded.
  - rewrite !free_of_app, Hd, !all_space_free; done.
Qed.


(** X2: a document in a fenced block is recovered.  When the text
    does not decode as a whole and holds, after prose without backticks, a
    block opened by three backticks (tagged [json], or untagged and followed
    by white space) and closed by three backticks, the parser returns what
    the block's content, stripped of the white space around it, decodes
    to. *)
Theorem parse_fenced_document (json_loads : string -> option pyval)
    (before tag ws1 doc ws2 after : string) (v : pyval) :
  let text := before +:+ "```" +:+ tag +:+ ws1 +:+ doc +:+ ws2 +:+ "```" +:+ after in
  free_of "`" before = true -> free_of "`" doc = true ->
  tag = "json" \/ (tag = "" /\ ws1 <> "") ->
  all_space ws1 = true -> all_space ws2 = true ->
  starts_with_space doc = false -> ends_with_space doc = false ->
  json_loads text = None -> json_loads doc = Some v ->
  _parse_analysis_json json_loads text = Ok v.
Proof.
  intros text Hb Hd Htag H1 H2 Hs He Hw Hv. rewrite parse_analysis_json_eq.
  unfold parse, strategies. cbn [first_success]. unfold decode_whole, decode_fenced.
  rewrite Hw. unfold text. rewrite fenced_inner_block by done. by rewrite Hv.
Qed.
End ParserRecovery.

(** ** The analyzer *)

Section AnalyzerFacts.
Context (W : World) {DT : DateTime}.
Variables (text : string) (cn ci pt ir : pyval).

Lemma dict_lookup_set_eq d k v : dict_lookup (dict_set d k v) k = Some v.
Proof.
  induction d as [|[k' v'] d IH]; cbn; [by rewrite String.eqb_refl|].
  destruct (String.eqb k' k) eqn:E; cbn; rewrite E; [done|exact IH].
Qed.

Lemma dict_lookup_set_ne d k v k' : k' <> k -> dict_lookup (dict_set d k v) k' = dict_lookup d k'.
Proof.
  intros Hne. induction d as [|[k0 v0] d IH]; cbn.
  - destruct (String.eqb_spec k k'); [congruence|done].
  - destruct (String.eqb_spec k0 k) as [->|]; cbn.
    + destruct (String.eqb_spec k k'); [congruence|done].
    + by rewrite IH.
Qed.

Lemma summary_ok_set d v :
  summary_ok (PDict (dict_set d "_metadata" v)) <-> summary_ok (PDict d).
Proof.
  unfold summary_ok. cbn [py_get]. by rewrite dict_lookup_set_ne.
Qed.

Lemma logged_score_ok a : summary_ok a -> exists sc, logged_score a = Ok sc.
Proof.
  intros (des & dkm & H1 & H2). unfold logged_score. rewrite H1, H2. cbn. by eexists.
Qed.

(** The analyzer reads the settings and calls the model; it neither reads
    nor writes the state. *)
Lemma analyze_policy_indep s s0 :
  analyze_policy W text cn ci pt ir s
  = (outcome (analyze_policy W text cn ci pt ir s0), s,
     events (analyze_policy W text cn ci pt ir s0)).
Proof.
  unfold analyze_policy, outcome, events, bind, try_except, logger, emit, lift, ret, raise.
  cbn.
  destruct (String.eqb (ANTHROPIC_API_KEY (settings W)) ""); [done|].
  destruct (get_analysis_prompt W ci ir) as [system_prompt|e]; [|done]. cbn.
  destruct (messages_create W _ _ _ system_prompt) as [raw tin tout|e]; cbn.
  2:{ by destruct (is_APIError e). }
  destruct (_parse_analysis_json (json_loads W) raw) as [v|e]; cbn.
  2:{ by destruct (is_APIError e). }
  destruct (truthy v); cbn; [|done].
  destruct (py_setitem v "_metadata" _) as [a|e]; cbn.
  2:{ by destruct (is_APIError e). }
  destruct (logged_score a) as [sc|e]; cbn; [done|].
  by destruct (is_APIError e).
Qed.

(** X3: [analyze_policy] raises in one case only: the API key is
    configured and the client industry is an unhashable value (a list or a
    dict), for which building the prompt, outside the [try], raises
    [TypeError].  In every other case it returns a result. *)
Theorem analyze_policy_raises s e :
  outcome (analyze_policy W text cn ci pt ir s) = Raise e
  <-> ANTHROPIC_API_KEY (settings W) <> ""
      /\ hashable ci = false
      /\ e = TypeError ("unhashable type: '" +:+ type_name ci +:+ "'").
Proof.
  unfold analyze_policy, outcome, bind, try_except, logger, emit, lift, ret, raise.
  cbn.
  destruct (String.eqb_spec (ANTHROPIC_API_KEY (settings W)) "") as [Hk|Hk].
  { cbn. split; [done|]. by intros [? _]. }
  unfold get_analysis_prompt, industry_criteria.
  destruct (hashable ci); cbn.
  2:{ split; [by intros [= <-]|]. by intros (_ & _ & ->). }
  split; [|by intros (_ & ? & _)]. intros H. exfalso. revert H.
  destruct (messages_create W _ _ _ _) as [raw tin tout|e']; cbn.
  2:{ by destruct (is_APIError e'). }
  rewrite parse_analysis_json_eq. cbn.
  destruct (truthy _); cbn; [|done].
  destruct (py_setitem _ "_metadata" _) as [a|e']; cbn.
  2:{ by destruct (is_APIError e'). }
  destruct (logged_score a) as [sc|e']; cbn; [done|].
  by destruct (is_APIError e').
Qed.

Lemma py_setitem_error v k x e : py_setitem v k x = Raise e -> is_APIError e = false.
Proof. destruct v; cbn; intros [= <-]; done. Qed.

Lemma py_get_error v k d e : py_get v k d = Raise e -> is_APIError e = false.
Proof. destruct v; cbn; intros [= <-]; done. Qed.

Lemma logged_score_error a e : logged_score a = Raise e -> is_APIError e = false.
Proof.
  unfold logged_score.
  destruct (py_get a "executive_summary" (PDict [])) as [es|e1] eqn:E1.
  2:{ intros [= <-]. by eapply py_get_error. }
  destruct (py_get es "key_metrics" (PDict [])) as [km|e2] eqn:E2.
  2:{ intros [= <-]. by eapply py_get_error. }
  apply py_get_error.
Qed.

(** What [analyze_policy] returns once the model has replied. *)
Lemma analyze_policy_on_reply s raw i o :
  In (raw, i, o) (omap sel_response (events (analyze_policy W text cn ci pt ir s))) ->
  outcome (analyze_policy W text cn ci pt ir s)
  = Ok (if truthy (parsed W raw) then
          match py_setitem (parsed W raw) "_metadata"
                  (metadata (CLAUDE_MODEL (settings W)) cn ci pt ir (i + o)) with
          | Ok a =>
              match logged_score a with
              | Ok _ =>
                  {| AnalysisResult.success := true;
                     AnalysisResult.analysis_data := a;
                     AnalysisResult.raw_response := PStr raw;
                     AnalysisResult.tokens_used := PInt (i + o);
                     AnalysisResult.error := PNone |}
              | Raise e => analysis_failure (exn_str e)
              end
          | Raise e => analysis_failure (exn_str e)
          end
        else
          {| AnalysisResult.success := true;
             AnalysisResult.analysis_data := PDict [("raw_analysis", PStr raw)];
             AnalysisResult.raw_response := PStr raw;
             AnalysisResult.tokens_used := PInt (i + o);
             AnalysisResult.error := PNone |}).
Proof.
  unfold analyze_policy, outcome, events, bind, try_except, logger, emit, lift, ret, raise.
  cbn.
  destruct (String.eqb (ANTHROPIC_API_KEY (settings W)) ""); [by cbn|].
  destruct (get_analysis_prompt W ci ir) as [system_prompt|e]; [|by cbn]. cbn.
  destruct (messages_create W _ _ _ system_prompt) as [raw' tin tout|e]; cbn.
  2:{ by destruct (is_APIError e); cbn. }
  rewrite parse_analysis_json_eq. fold (parsed W raw'). cbn.
  unfold metadata.
  destruct (truthy (parsed W raw')) eqn:Ht; cbn.
  2:{ intros [[= -> -> ->]|[]]. by rewrite Ht. }
  destruct (py_setitem (parsed W raw') "_metadata" _) as [a|e] eqn:Hset; cbn.
  2:{ rewrite (py_setitem_error _ _ _ _ Hset). cbn.
      intros [[= -> -> ->]|[]]. by rewrite Ht, Hset. }
  destruct (logged_score a) as [sc|e] eqn:Hsc; cbn.
  2:{ rewrite (logged_score_error _ _ Hsc). cbn.
      intros [[= -> -> ->]|[]]. by rewrite Ht, Hset, Hsc. }
  intros [[= -> -> ->]|[]]. by rewrite Ht, Hset, Hsc.
Qed.


Lemma reply_structured s raw i o d :
  In (raw, i, o) (omap sel_response (events (analyze_policy W text cn ci pt ir s))) ->
  parsed W raw = PDict d -> d <> [] -> summary_ok (PDict d) ->
  outcome (analyze_policy W text cn ci pt ir s)
  = Ok {| AnalysisResult.success := true;
          AnalysisResult.analysis_data :=
            PDict (dict_set d "_metadata"
                     (metadata (CLAUDE_MODEL (settings W)) cn ci pt ir (i + o)));
          AnalysisResult.raw_response := PStr raw;
          AnalysisResult.tokens_used := PInt (i + o);
          AnalysisResult.error := PNone |}.
Proof.
  intros Hin Hv Hne Hs.
  rewrite (analyze_policy_on_reply s raw i o Hin). rewrite Hv.
  assert (Ht : truthy (PDict d) = true) by (by destruct d).
  rewrite Ht. cbn [py_setitem].
  apply (summary_ok_set _ (metadata (CLAUDE_MODEL (settings W)) cn ci pt ir (i + o))) in Hs.
  by destruct (logged_score_ok _ Hs) as [sc ->].
Qed.



(** X5: for a structured reply (a non-empty object with a readable
    summary) the result is successful, carries the raw reply and the sum of
    the input and output tokens, and its analysis data is the decoded object
    with one item added or replaced: [_metadata], holding the request's
    metadata, the model and the token count.  Every other key is as
    decoded. *)
Theorem analyze_policy_enriches s raw i o d :
  In (raw, i, o) (omap sel_response (events (analyze_policy W text cn ci pt ir s))) ->
  _parse_analysis_json (json_loads W) raw = Ok (PDict d) ->
  d <> [] -> summary_ok (PDict d) ->
  exists ar data,
    outcome (analyze_policy W text cn ci pt ir s) = Ok ar
    /\ AnalysisResult.success ar = true
    /\ AnalysisResult.raw_response ar = PStr raw
    /\ AnalysisResult.tokens_used ar = PInt (i + o)
    /\ AnalysisResult.analysis_data ar = PDict data
    /\ dict_lookup data "_metadata"
       = Some (metadata (CLAUDE_MODEL (settings W)) cn ci pt ir (i + o))
    /\ forall k, k <> "_metadata" -> dict_lookup data k = dict_lookup d k.
Proof.
  intros Hin Hv Hne Hs. rewrite parse_analysis_json_eq in Hv. injection Hv as Hv.
  rewrite (reply_structured s raw i o d Hin Hv Hne Hs).
  do 2 eexists. split; [reflexivity|]. cbn.
  split; [done|]. split; [done|]. split; [done|]. split; [done|].
  split; [apply dict_lookup_set_eq|]. intros k Hk. by apply dict_lookup_set_ne.
Qed.

(** What [analyze_policy] returns when the API call raises. *)
Lemma analyze_policy_on_api_error s e :
  In e (omap sel_api_error (events (analyze_policy W text cn ci pt ir s))) ->
  outcome (analyze_policy W text cn ci pt ir s) = Ok (analysis_failure (analysis_error e))
  /\ omap sel_response (events (analyze_policy W text cn ci pt ir s)) = [].
Proof.
  unfold analyze_policy, outcome, events, bind, try_except, logger, emit, lift, ret, raise.
  cbn.
  destruct (String.eqb (ANTHROPIC_API_KEY (settings W)) ""); [by cbn|].
  destruct (get_analysis_prompt W ci ir) as [system_prompt|e']; [|by cbn]. cbn.
  destruct (messages_create W _ _ _ system_prompt) as [raw' tin tout|e']; cbn.
  - rewrite parse_analysis_json_eq. cbn.
    destruct (truthy _); cbn; [|by intros []].
    destruct (py_setitem _ "_metadata" _) as [a|e'']; cbn.
    2:{ destruct (is_APIError e''); cbn; by intros []. }
    destruct (logged_score a) as [sc|e'']; cbn; [by intros []|].
    destruct (is_APIError e''); cbn; by intros [].
  - unfold analysis_error. destruct (is_APIError e') eqn:E; cbn; intros [<-|[]]; by rewrite E.
Qed.

(** X6: when the API call raises, [analyze_policy] returns an
    unsuccessful result without analysis data, whose error is the exception's
    text, prefixed by ["API error: "] when the exception is an
    [anthropic.APIError]. *)
Theorem analyze_policy_api_error s e :
  In e (omap sel_api_error (events (analyze_policy W text cn ci pt ir s))) ->
  exists ar,
    outcome (analyze_policy W text cn ci pt ir s) = Ok ar
    /\ AnalysisResult.success ar = false
    /\ AnalysisResult.analysis_data ar = PNone
    /\ AnalysisResult.error ar
       = PStr (if is_APIError e then "API error: " +:+ exn_str e else exn_str e)
    /\ omap sel_response (events (analyze_policy W text cn ci pt ir s)) = [].
Proof.
  intros H. destruct (analyze_policy_on_api_error s e H) as [-> ->].
  eexists. by split.
Qed.
End AnalyzerFacts.

(** ** The course of a job *)

Section Traces.
Context (W : World) {DT : DateTime}.
Variables (id : string) (payload : list (string * pyval)).

Lemma effects_app evs1 evs2 : effects (evs1 ++ evs2) = effects evs1 ++ effects evs2.
Proof. apply omap_app. Qed.

Lemma effects_store st evs : effects (EvStore st :: evs) = EvStore st :: effects evs.
Proof. reflexivity. Qed.

Lemma effects_log lvl msg evs : effects (EvLog lvl msg :: evs) = effects evs.
Proof. reflexivity. Qed.

Lemma effects_nil : effects [] = [].
Proof. reflexivity. Qed.

Lemma get_pdf_content_trace s :
  match source_call W payload with
  | None =>
      get_pdf_content W payload s
      = (Raise (ValueError "No file path or URL provided"), s, [])
  | Some (call, x) =>
      exists evs,
        get_pdf_content W payload s
        = ((if ExtractionResult.success x then Ok x
            else Raise (Exception_ ("PDF extraction failed: "
                                    +:+ py_str W (ExtractionResult.error x)))), s, evs)
        /\ effects evs = [call]
  end.
Proof.
  unfold source_call, get_pdf_content, bind, emit, ret, raise, logger. cbn.
  destruct (truthy (payload_get payload "_local_file_path" PNone)); cbn.
  { destruct (ExtractionResult.success _); cbn; by eexists. }
  destruct (truthy (payload_get payload "file_url" PNone)); cbn; [|done].
  destruct (ExtractionResult.success _); cbn; by eexists.
Qed.

Lemma analyze_with_claude_trace text cn ci pt ir s s0 :
  exists evs,
    analyze_with_claude W text cn ci pt ir s
    = (match outcome (analyze_policy W text cn ci pt ir s0) with
       | Ok ar =>
           if AnalysisResult.success ar then Ok (AnalysisResult.analysis_data ar)
           else Raise (Exception_ ("Claude analysis failed: "
                                   +:+ py_str W (AnalysisResult.error ar)))
       | Raise e => Raise e
       end, s, evs)
    /\ effects evs = effects (events (analyze_policy W text cn ci pt ir s0)).
Proof.
  unfold analyze_with_claude, bind. rewrite (analyze_policy_indep W text cn ci pt ir s s0).
  destruct (outcome (analyze_policy W text cn ci pt ir s0)) as [ar|e]; [|by eexists].
  destruct (AnalysisResult.success ar); cbn; eexists; (split; [reflexivity|]);
    by rewrite effects_app, app_nil_r.
Qed.

Lemma generate_pdf_report_trace data s :
  exists evs,
    generate_pdf_report W data s = (Ok (report_path_of (rendered W data)), s, evs)
    /\ effects evs = [EvRender data (REPORTS_DIR (settings W)) (rendered W data)].
Proof.
  unfold generate_pdf_report, report_path_of, rendered, bind, emit, logger, ret. cbn.
  destruct (ReportResult.success _); cbn; by eexists.
Qed.

Lemma build_result_trace data rp s e t0 es km sc rec :
  store s !! id = Some e ->
  e !! "started_at" = Some (PStr (isoformat t0)) ->
  py_get data "executive_summary" (PDict []) = Ok es ->
  py_get es "key_metrics" (PDict []) = Ok km ->
  py_get km "overall_maturity_score" PNone = Ok sc ->
  py_get es "recommendation" PNone = Ok rec ->
  build_result W id payload
    (payload_get payload "client_name" (PStr "Unknown Client")) data rp s
  = (Ok (result_of id payload data rp (now (tick_state W s))
           (elapsed t0 (now (tick_state W (tick_state W s)))) sc rec),
     tick_state W (tick_state W s), []).
Proof.
  intros He Hs H1 H2 H3 H4.
  unfold build_result, bind, lift. rewrite H1, H2, H3, H4.
  cbn -[_calculate_duration tick_state].
  change {| store := store s; now := (now s + tick W (reads s))%N;
            reads := S (reads s) |} with (tick_state W s).
  by rewrite (calculate_duration_started W id (tick_state W s) e t0 He Hs).
Qed.

Lemma store_results_trace result s :
  exists evs,
    store_results W id payload result s = (Ok tt, s, evs)
    /\ effects evs = persist_effects id payload result.
Proof.
  unfold store_results, store_analysis_result, persist_effects, bind, emit, logger, ret. cbn.
  destruct (truthy _); [|by eexists].
  destruct (supabase_client W); cbn; [|by eexists].
  destruct (supabase_execute W _ _ _ _); cbn; by eexists.
Qed.

Lemma complete_job_trace data rp tc d sc rec s e :
  store s !! id = Some e ->
  let result := result_of id payload data rp tc d sc rec in
  let st := <[id := completed_fields (PStr (isoformat tc)) result ∪ e]> (store s) in
  exists evs,
    complete_job W id (payload_get payload "callback_url" PNone) result s
    = (Ok tt, set_store s st, evs)
    /\ effects evs = EvStore st :: callback_effects W payload result.
Proof.
  intros He result st. unfold complete_job, callback_effects, post_event, bind, lift, logger, emit, when.
  cbn -[store_update list_to_map]. rewrite (store_update_present id _ s e He).
  cbn -[_send_callback].
  destruct (truthy _); cbn -[_send_callback]; [|by eexists].
  rewrite send_callback_eq. cbn. eexists. split; [reflexivity|].
  by destruct (http_post W _ _ _ _) as [status|]; cbn; [destruct (status =? 200)|].
Qed.

Lemma on_failure_trace exn s e :
  store s !! id = Some e ->
  let st := <[id := failed_fields (exn_str exn) (isoformat (now (tick_state W s))) ∪ e]>
              (store s) in
  exists s' evs,
    on_failure W id payload exn s = (Ok tt, s', evs) /\ store s' = st
    /\ effects evs
       = EvStore st
         :: callback_effects W payload
              (failure_body id payload exn (now (tick_state W (tick_state W s)))).
Proof.
  intros He st. unfold on_failure, callback_effects, post_event, failure_body, bind, logger, emit, ret.
  cbn -[store_update list_to_map].
  change {| store := store s; now := (now s + tick W (reads s))%N;
            reads := S (reads s) |} with (tick_state W s).
  rewrite (store_update_present id _ (tick_state W s) e He). cbn -[_send_callback].
  destruct (truthy _); cbn -[_send_callback]; [|by do 2 eexists].
  rewrite send_callback_eq. cbn. do 2 eexists. split; [reflexivity|]. split; [done|].
  by destruct (http_post W _ _ _ _) as [status|]; cbn; [destruct (status =? 200)|].
Qed.

Lemma pipeline_trace s1 s0 t0 :
  store s1 = <[id := entry_started id t0]> (store s0) ->
  let e1 := entry_extracting id t0 in
  let e2 := entry_analyzing id t0 in
  let e3 := entry_generating id t0 in
  let put e := EvStore (<[id := e]> (store s0)) in
  exists r s' evs,
    pipeline W id payload s1 = (r, s', evs)
    /\ match r with
       | Raise e =>
           now s' = now s1 /\ reads s' = reads s1
           /\ ((source_call W payload = None
                /\ e = ValueError "No file path or URL provided"
                /\ store s' = <[id := e1]> (store s0)
                /\ effects evs = [put e1])
               \/ (exists call x,
                     source_call W payload = Some (call, x)
                     /\ ExtractionResult.success x = false
                     /\ e = Exception_ ("PDF extraction failed: "
                                        +:+ py_str W (ExtractionResult.error x))
                     /\ store s' = <[id := e1]> (store s0)
                     /\ effects evs = [put e1; call])
               \/ (exists call x,
                     source_call W payload = Some (call, x)
                     /\ ExtractionResult.success x = true
                     /\ analysis_fails W payload x s0 e
                     /\ store s' = <[id := e2]> (store s0)
                     /\ effects evs
                        = [put e1; call; put e2]
                          ++ effects (events (analysis_call W payload x s0))))
       | Ok _ =>
           exists call x ar es km sc rec,
             source_call W payload = Some (call, x)
             /\ ExtractionResult.success x = true
             /\ outcome (analysis_call W payload x s0) = Ok ar
             /\ AnalysisResult.success ar = true
             /\ py_get (AnalysisResult.analysis_data ar) "executive_summary" (PDict [])
                = Ok es
             /\ py_get es "key_metrics" (PDict []) = Ok km
             /\ py_get km "overall_maturity_score" PNone = Ok sc
             /\ py_get es "recommendation" PNone = Ok rec
             /\ let data := AnalysisResult.analysis_data ar in
                let result :=
                  result_of id payload data (report_path_of (rendered W data))
                    (now (tick_state W s1))
                    (elapsed t0 (now (tick_state W (tick_state W s1)))) sc rec in
                let en :=
                  completed_fields (PStr (isoformat (now (tick_state W s1)))) result ∪ e3 in
                store s' = <[id := en]> (store s0)
                /\ effects evs
                   = [put e1; call; put e2]
                     ++ effects (events (analysis_call W payload x s0))
                     ++ [put e3; EvRender data (REPORTS_DIR (settings W)) (rendered W data)]
                     ++ persist_effects id payload result
                     ++ [put en]
                     ++ callback_effects W payload result
       end.
Proof.
  intros Hst1 e1 e2 e3 put.
  assert (He0 : store s1 !! id = Some (entry_started id t0))
    by (rewrite Hst1; apply lookup_insert_eq).
  unfold pipeline, bind.
  (* extracting *)
  rewrite (update_status_present id _ _ s1 _ He0).
  fold (entry_extracting id t0). fold e1.
  set (s2 := set_store s1 _).
  assert (Hst2 : store s2 = <[id := e1]> (store s0)).
  { unfold s2. cbn. fold (entry_extracting id t0). fold e1. by rewrite Hst1, insert_insert_eq. }
  assert (Hput1 : EvStore (<[id := e1]> (store s1)) = put e1).
  { unfold put. by rewrite Hst1, insert_insert_eq. }
  rewrite Hput1.
  pose proof (get_pdf_content_trace s2) as Hpdf.
  destruct (source_call W payload) as [[call x]|] eqn:Hsrc.
  2:{ rewrite Hpdf. do 3 eexists. split; [reflexivity|]. cbn [fst snd].
      split; [done|]. split; [done|]. left. by rewrite app_nil_r. }
  destruct Hpdf as (ev1 & -> & Hev1).
  destruct (ExtractionResult.success x) eqn:Hx.
  2:{ do 3 eexists. split; [reflexivity|].
      split; [done|]. split; [done|]. right. left. exists call, x.
      rewrite effects_app, Hev1. cbn. by rewrite Hx. }
  (* analyzing *)
  assert (He1 : store s2 !! id = Some e1) by (rewrite Hst2; apply lookup_insert_eq).
  rewrite (update_status_present id _ _ s2 e1 He1).
  change (stage_fields "analyzing" "Analyzing policy with Claude..." ∪ e1) with e2.
  set (s3 := set_store s2 _).
  assert (Hst3 : store s3 = <[id := e2]> (store s0)).
  { unfold s3. cbn -[s2].
    change (stage_fields "analyzing" "Analyzing policy with Claude..." ∪ e1) with e2.
    by rewrite Hst2, insert_insert_eq. }
  assert (Hput2 : EvStore (<[id := e2]> (store s2)) = put e2).
  { unfold put. by rewrite Hst2, insert_insert_eq. }
  rewrite Hput2.
  destruct (analyze_with_claude_trace (ExtractionResult.text x)
              (payload_get payload "client_name" (PStr "Unknown Client"))
              (payload_get payload "client_industry" (PStr "Other/General"))
              (payload_get payload "policy_type" (PStr "cyber"))
              (payload_get payload "renewal" (PBool false)) s3 s0)
    as (ev2 & -> & Hev2).
  fold (analysis_call W payload x) in Hev2 |- *.
  destruct (outcome (analysis_call W payload x s0)) as [ar|e] eqn:Hout.
  2:{ do 3 eexists. split; [reflexivity|].
      split; [done|]. split; [done|]. right. right. exists call, x.
      split; [done|]. split; [done|]. split; [by left|]. split; [done|].
      rewrite !effects_app, Hev1, Hev2. cbn. rewrite ?app_nil_r. done. }
  destruct (AnalysisResult.success ar) eqn:Har.
  2:{ do 3 eexists. split; [reflexivity|].
      split; [done|]. split; [done|]. right. right. exists call, x.
      split; [done|]. split; [done|]. split; [right; by exists ar|]. split; [done|].
      rewrite !effects_app, Hev1, Hev2. cbn. rewrite ?app_nil_r. done. }
  (* the analysis data can be summarised *)
  assert (Hsum : summary_ok (AnalysisResult.analysis_data ar)).
  { destruct (analyze_policy_spec W (ExtractionResult.text x)
                (payload_get payload "client_name" (PStr "Unknown Client"))
                (payload_get payload "client_industry" (PStr "Other/General"))
                (payload_get payload "policy_type" (PStr "cyber"))
                (payload_get payload "renewal" (PBool false)) s0)
      as (r & evs & Heq & _ & _ & Hpost).
    unfold analysis_call in Hout. rewrite Heq in Hout. unfold outcome in Hout.
    cbn in Hout. subst r. cbn in Hpost. rewrite Har in Hpost.
    by destruct Hpost as (raw & _ & ? & _). }
  destruct Hsum as (des & dkm & Hes & Hkm).
  (* generating *)
  assert (He2 : store s3 !! id = Some e2) by (rewrite Hst3; apply lookup_insert_eq).
  rewrite (update_status_present id _ _ s3 e2 He2).
  change (stage_fields "generating" "Generating PDF report..." ∪ e2) with e3.
  set (s4 := set_store s3 _).
  assert (Hst4 : store s4 = <[id := e3]> (store s0)).
  { unfold s4. cbn -[s3].
    change (stage_fields "generating" "Generating PDF report..." ∪ e2) with e3.
    by rewrite Hst3, insert_insert_eq. }
  assert (Hput3 : EvStore (<[id := e3]> (store s3)) = put e3).
  { unfold put. by rewrite Hst3, insert_insert_eq. }
  rewrite Hput3.
  assert (He3 : store s4 !! id = Some e3) by (rewrite Hst4; apply lookup_insert_eq).
  destruct (generate_pdf_report_trace (AnalysisResult.analysis_data ar) s4)
    as (ev3 & -> & Hev3).
  assert (Hstart : e3 !! "started_at" = Some (PStr (isoformat t0))) by done.
  rewrite (build_result_trace (AnalysisResult.analysis_data ar) _ s4 e3 t0
             (PDict des) (PDict dkm) _ _ He3 Hstart Hes Hkm eq_refl eq_refl).
  set (result := result_of _ _ _ _ _ _ _ _).
  destruct (store_results_trace result (tick_state W (tick_state W s4)))
    as (ev4 & -> & Hev4).
  destruct (complete_job_trace (AnalysisResult.analysis_data ar)
              (report_path_of (rendered W (AnalysisResult.analysis_data ar)))
              (now (tick_state W s4))
              (elapsed t0 (now (tick_state W (tick_state W s4))))
              (match dict_lookup dkm "overall_maturity_score" with
               | Some x0 => x0 | None => PNone end)
              (match dict_lookup des "recommendation" with
               | Some x0 => x0 | None => PNone end)
              (tick_state W (tick_state W s4)) e3 He3)
    as (ev5 & Hcj & Hev5).
  fold result in Hcj, Hev5. rewrite Hcj.
  do 3 eexists. split; [reflexivity|].
  exists call, x, ar, (PDict des), (PDict dkm). do 2 eexists.
  split; [done|]. split; [done|]. split; [done|]. split; [done|].
  split; [done|]. split; [done|]. split; [reflexivity|]. split; [reflexivity|].
  cbn zeta.
  assert (Hfin : <[id := completed_fields (PStr (isoformat (now (tick_state W s4)))) result ∪ e3]>
                   (store (tick_state W (tick_state W s4)))
                 = <[id := completed_fields (PStr (isoformat (now (tick_state W s4)))) result ∪ e3]>
                     (store s0)).
  { change (store (tick_state W (tick_state W s4))) with (store s4).
    by rewrite Hst4, insert_insert_eq. }
  split.
  - cbn [store set_store]. exact Hfin.
  - rewrite !effects_app, Hev1, Hev2, Hev3, Hev4, Hev5, Hfin.
    rewrite ?effects_store, ?effects_log, ?effects_nil. cbn [app].
    by rewrite ?app_nil_r.
Qed.

Lemma failure_trace s0 s' e en :
  store s' = <[id := en]> (store s0) ->
  now s' = reading W s0 1 -> reads s' = S (reads s0) ->
  exists s'' evs,
    on_failure W id payload e s' = (Ok tt, s'', evs)
    /\ store s'' = <[id := failed_entry W s0 e en]> (store s0)
    /\ effects evs = failure_effects W id payload s0 e en.
Proof.
  intros Hst Hnow Hreads.
  assert (He : store s' !! id = Some en) by (rewrite Hst; apply lookup_insert_eq).
  destruct (on_failure_trace e s' en He) as (s'' & evs & Heq & Hst'' & Hev).
  assert (H2 : now (tick_state W s') = reading W s0 2).
  { unfold tick_state. cbn [now]. by rewrite Hnow, Hreads. }
  assert (H3 : now (tick_state W (tick_state W s')) = reading W s0 3).
  { unfold tick_state. cbn [now reads]. by rewrite Hnow, Hreads. }
  exists s'', evs. split; [done|].
  rewrite Hst'', Hev, H2, H3, Hst, insert_insert_eq. done.
Qed.

Theorem run_trace s0 :
  exists s' evs,
    run_policy_analysis W id payload s0 = (Ok tt, s', evs)
    /\ job_trace W id payload s0 (store s') (effects evs).
Proof.
  unfold run_policy_analysis, bind, try_except, logger, emit.
  rewrite init_status_eq.
  set (s1 := set_store _ _).
  assert (Hst1 : store s1 = <[id := entry_started id (reading W s0 1)]> (store s0))
    by reflexivity.
  destruct (pipeline_trace s1 s0 (reading W s0 1) Hst1) as (r & s' & evs & -> & Hr).
  destruct r as [[]|e].
  - destruct Hr as (call & x & ar & es & km & sc & rec & Hsrc & Hx & Hout & Har
                    & Hes & Hkm & Hsc & Hrec & Hst & Hev).
    do 2 eexists. split; [reflexivity|].
    rewrite Hst. rewrite !effects_app, ?effects_store, ?effects_log, ?effects_nil, Hev.
    cbn [app].
    exact (job_completed W id payload s0 call x ar es km sc rec _
             Hsrc Hx Hout Har Hes Hkm Hsc Hrec eq_refl).
  - destruct Hr as (Hnow & Hreads & Hcase).
    destruct Hcase as [(Hsrc & -> & Hst & Hev)
                      |[(call & x & Hsrc & Hx & -> & Hst & Hev)
                       |(call & x & Hsrc & Hx & Hfail & Hst & Hev)]].
    + destruct (failure_trace s0 s' (ValueError "No file path or URL provided") _
                  Hst Hnow Hreads) as (s'' & evf & -> & Hst'' & Hevf).
      do 2 eexists. split; [reflexivity|].
      rewrite Hst''. rewrite !effects_app, ?effects_store, ?effects_log, ?effects_nil, Hev, Hevf.
      cbn [app]. by apply job_no_source.
    + destruct (failure_trace s0 s'
                  (Exception_ ("PDF extraction failed: "
                               +:+ py_str W (ExtractionResult.error x))) _
                  Hst Hnow Hreads) as (s'' & evf & -> & Hst'' & Hevf).
      do 2 eexists. split; [reflexivity|].
      rewrite Hst''. rewrite !effects_app, ?effects_store, ?effects_log, ?effects_nil, Hev, Hevf.
      cbn [app]. by eapply job_extraction_failed.
    + destruct (failure_trace s0 s' e _ Hst Hnow Hreads) as (s'' & evf & -> & Hst'' & Hevf).
      do 2 eexists. split; [reflexivity|].
      rewrite Hst''. rewrite !effects_app, ?effects_store, ?effects_log, ?effects_nil, Hev, Hevf.
      cbn [app]. by eapply job_analysis_failed.
Qed.
End Traces.

(** ** What a job shows *)

Section JobFacts.
Context (W : World) {DT : DateTime}.
Variables (id : string) (payload : list (string * pyval)).

Lemma omap_effects {A} (sel : event -> option A) evs :
  (forall lvl msg, sel (EvLog lvl msg) = None) ->
  omap sel evs = omap sel (effects evs).
Proof.
  intros Hlog. induction evs as [|ev evs IH]; [done|].
  destruct ev; cbn; rewrite ?Hlog, ?IH; try done; by destruct (sel _).
Qed.

(** The effects of the analyzer: its invocation, then at most one call of
    the model, which is not made when the API key is missing or the prompt
    cannot be built. *)
Lemma analyze_policy_effects text cn ci pt ir s :
  let a := analyze_policy W text cn ci pt ir s in
  (ANTHROPIC_API_KEY (settings W) = ""
   /\ effects (events a) = [EvAnalyze text cn ci pt ir]
   /\ outcome a = Ok (analysis_failure "Anthropic API key not configured"))
  \/ (ANTHROPIC_API_KEY (settings W) <> ""
      /\ effects (events a) = [EvAnalyze text cn ci pt ir]
      /\ exists e, outcome a = Raise e)
  \/ (ANTHROPIC_API_KEY (settings W) <> ""
      /\ (exists m k u sys o,
            effects (events a) = [EvAnalyze text cn ci pt ir; EvClaude m k u sys o])
      /\ exists ar, outcome a = Ok ar).
Proof.
  unfold analyze_policy, outcome, events, bind, try_except, logger, emit, lift, ret, raise.
  cbn.
  destruct (String.eqb_spec (ANTHROPIC_API_KEY (settings W)) "") as [Hk|Hk].
  { by left. }
  right.
  destruct (get_analysis_prompt W ci ir) as [system_prompt|e]; cbn.
  2:{ left. split; [done|]. split; [done|]. by eexists. }
  right. split; [done|].
  destruct (messages_create W _ _ _ system_prompt) as [raw tin tout|e]; cbn.
  2:{ destruct (is_APIError e); cbn; (split; [by do 5 eexists|by eexists]). }
  destruct (_parse_analysis_json (json_loads W) raw) as [v|e]; cbn.
  2:{ destruct (is_APIError e); cbn; (split; [by do 5 eexists|by eexists]). }
  destruct (truthy v); cbn; [|split; [by do 5 eexists|by eexists]].
  destruct (py_setitem v "_metadata" _) as [a|e]; cbn.
  2:{ destruct (is_APIError e); cbn; (split; [by do 5 eexists|by eexists]). }
  destruct (logged_score a) as [sc|e]; cbn; [split; [by do 5 eexists|by eexists]|].
  destruct (is_APIError e); cbn; (split; [by do 5 eexists|by eexists]).
Qed.

(** *** Fields of the entries a job writes *)

Lemma field_stage st pr e k :
  field (stage_fields st pr ∪ e) k
  = if String.eqb k "status" then PStr st
    else if String.eqb k "progress" then PStr pr
    else field e k.
Proof.
  unfold field, stage_fields.
  destruct (String.eqb_spec k "status") as [->|?];
    [by erewrite lookup_union_Some_l by done|].
  destruct (String.eqb_spec k "progress") as [->|?];
    [by erewrite lookup_union_Some_l by done|].
  rewrite lookup_union_r; [done|]. cbn. by simplify_map_eq.
Qed.

Lemma field_started t0 k :
  field (entry_started id t0) k
  = if String.eqb k "analysis_id" then PStr id
    else if String.eqb k "status" then PStr "started"
    else if String.eqb k "progress" then PStr "Initializing..."
    else if String.eqb k "started_at" then PStr (isoformat t0)
    else PNone.
Proof.
  unfold field, entry_started, initial_entry.
  destruct (String.eqb_spec k "analysis_id") as [->|?]; [done|].
  destruct (String.eqb_spec k "status") as [->|?]; [done|].
  destruct (String.eqb_spec k "progress") as [->|?]; [done|].
  destruct (String.eqb_spec k "started_at") as [->|?]; [done|].
  destruct (String.eqb_spec k "completed_at") as [->|?]; [done|].
  destruct (String.eqb_spec k "error") as [->|?]; [done|].
  destruct (String.eqb_spec k "result") as [->|?]; [done|].
  cbn. by simplify_map_eq.
Qed.


Lemma entry_of_insert (s' : state) evs st0 e :
  store s' = <[id := e]> st0 -> entry_of id (Ok tt, s', evs) = e.
Proof. intros H. unfold entry_of, final. cbn. by rewrite H, lookup_insert_eq. Qed.

(** The course of a job, in the form the proofs below take it apart. *)
Lemma run_course s0 :
  exists s' evs st efs,
    run_policy_analysis W id payload s0 = (Ok tt, s', evs)
    /\ store s' = st /\ effects evs = efs /\ job_trace W id payload s0 st efs.
Proof.
  destruct (run_trace W id payload s0) as (s' & evs & Heq & Htr).
  by exists s', evs, (store s'), (effects evs).
Qed.


(** The analyzer shows only to selectors that look at its own events. *)
Lemma analysis_silent {A} (sel : event -> option A) x s :
  (forall t a b c d, sel (EvAnalyze t a b c d) = None) ->
  (forall m k u sys o, sel (EvClaude m k u sys o) = None) ->
  omap sel (effects (events (analysis_call W payload x s))) = [].
Proof.
  intros H1 H2. unfold analysis_call.
  destruct (analyze_policy_effects (ExtractionResult.text x)
              (payload_get payload "client_name" (PStr "Unknown Client"))
              (payload_get payload "client_industry" (PStr "Other/General"))
              (payload_get payload "policy_type" (PStr "cyber"))
              (payload_get payload "renewal" (PBool false)) s)
    as [(_ & -> & _)|[(_ & -> & _)|(_ & (m & k & u & sys & o & ->) & _)]];
    cbn; by rewrite ?H1, ?H2.
Qed.

(** The steps that close a job show nothing to a selector that looks
    neither at store writes nor at POSTs (resp. at writes to the result
    store); the extractor call shows as the extractor. *)
Lemma failure_effects_silent {A} (sel : event -> option A) s0 e en :
  (forall st, sel (EvStore st) = None) ->
  (forall a b c d o, sel (EvPost a b c d o) = None) ->
  omap sel (failure_effects W id payload s0 e en) = [].
Proof.
  intros H1 H2. unfold failure_effects, callback_effects, post_event, put.
  destruct (truthy _); cbn; by rewrite H1, ?H2.
Qed.

Lemma callback_effects_silent {A} (sel : event -> option A) body :
  (forall a b c d o, sel (EvPost a b c d o) = None) ->
  omap sel (callback_effects W payload body) = [].
Proof.
  intros H. unfold callback_effects, post_event. destruct (truthy _); cbn; by rewrite ?H.
Qed.

Lemma persist_effects_silent {A} (sel : event -> option A) result :
  (forall a b c d, sel (EvPersist a b c d) = None) ->
  omap sel (persist_effects id payload result) = [].
Proof.
  intros H. unfold persist_effects. destruct (truthy _); cbn; by rewrite ?H.
Qed.

Lemma source_call_silent {A} (sel : event -> option A) call x :
  source_call W payload = Some (call, x) ->
  (forall p, sel (EvExtractFile p) = None) ->
  (forall u, sel (EvExtractUrl u) = None) ->
  sel call = None.
Proof.
  unfold source_call. intros H H1 H2.
  destruct (truthy (payload_get payload "_local_file_path" PNone));
    [by injection H as <- _|].
  destruct (truthy (payload_get payload "file_url" PNone)); [by injection H as <- _|done].
Qed.

Lemma source_call_collaborator call x :
  source_call W payload = Some (call, x) -> sel_collaborator call = Some Extractor.
Proof.
  unfold source_call.
  destruct (truthy (payload_get payload "_local_file_path" PNone)); [by intros [= <- _]|].
  destruct (truthy (payload_get payload "file_url" PNone)); [by intros [= <- _]|done].
Qed.

End JobFacts.

(** ** Properties of a job *)

Ltac pick :=
  cbn [omap list_omap fmap list_fmap app
       sel_store sel_post sel_persist sel_collaborator sel_render sel_api_error].

Ltac job_cases W id payload s0 :=
  let s' := fresh "s'" in
  let evs := fresh "evs" in
  let st := fresh "st" in
  let efs := fresh "efs" in
  destruct (run_course W id payload s0) as (s' & evs & st & efs & Heq & Hst & Hefs & Htr);
  destruct Htr as [Hsrc|call x e Hsrc Hx He|call x e Hsrc Hx Hfail
                  |call x ar es km sc rec result Hsrc Hx Hout Har Hes Hkm Hsc Hrec Hres];
  rewrite Heq; rewrite (entry_of_insert id _ _ _ _ Hst); unfold events; cbn [snd].

Ltac entry_fields :=
  unfold failed_entry, completed_entry, entry_generating, entry_analyzing,
    entry_extracting;
  rewrite ?field_failed, ?field_completed, ?field_stage, ?field_started;
  cbn [String.eqb Ascii.eqb Bool.eqb].

Section JobProperties.
Context (W : World) {DT : DateTime}.
Variables (id : string) (payload : list (string * pyval)).

Lemma source_call_event call x :
  source_call W payload = Some (call, x) ->
  (exists p, call = EvExtractFile p) \/ (exists u, call = EvExtractUrl u).
Proof.
  unfold source_call.
  destruct (truthy (payload_get payload "_local_file_path" PNone));
    [intros [= <- _]; left; by eexists|].
  destruct (truthy (payload_get payload "file_url" PNone)); [|done].
  intros [= <- _]; right; by eexists.
Qed.



(** X11: a job posts to the callback target exactly once when the
    request names one, and never otherwise; the body carries the job id and
    the final status, and is the stored result of a completed job, or names
    the recorded error of a failed one. *)
Theorem job_callback_once s0 :
  let r := run_policy_analysis W id payload s0 in
  let callback_url := payload_get payload "callback_url" PNone in
  let e := entry_of id r in
  (truthy callback_url = false -> omap sel_post (events r) = [])
  /\ (truthy callback_url = true ->
      exists body,
        omap sel_post (events r) = [(callback_url, body)]
        /\ py_getitem body "analysis_id" = Ok (PStr id)
        /\ py_getitem body "status" = Ok (field e "status")
        /\ ((field e "status" = PStr "completed" /\ field e "result" = body)
            \/ (field e "status" = PStr "failed" /\ field e "result" = PNone
                /\ py_getitem body "error_message" = Ok (field e "error")))).
Proof.
  intros r callback_url e. subst r callback_url e.
  job_cases W id payload s0;
    rewrite (omap_effects sel_post) by done; rewrite Hefs;
    unfold failure_effects, persist_effects, callback_effects, post_event, put;
    rewrite !omap_app, ?analysis_silent by done;
    try (destruct (source_call_event _ _ Hsrc) as [[? ->]|[? ->]]);
    destruct (truthy (payload_get payload "callback_url" PNone));
    try destruct (truthy (payload_get payload "policy_id" PNone));
    pick; (split; [done|]); try done; intros _; eexists; (split; [reflexivity|]);
    entry_fields;
    try (subst result; unfold job_result);
    (split; [done|]); (split; [done|]); first [by left|by right].
Qed.

(** X12: the result store is written exactly when the job completes
    and the request carries a policy id: once, with the policy id, the job
    id, the stored result and status completed.  A failed job is never
    persisted. *)
Theorem job_persists_completed_result s0 :
  let r := run_policy_analysis W id payload s0 in
  let policy_id := payload_get payload "policy_id" PNone in
  let e := entry_of id r in
  (field e "status" = PStr "completed" -> truthy policy_id = true ->
   omap sel_persist (events r) = [(policy_id, id, field e "result", "completed")])
  /\ (field e "status" <> PStr "completed" \/ truthy policy_id = false ->
      omap sel_persist (events r) = []).
Proof.
  intros r policy_id e. subst r policy_id e.
  job_cases W id payload s0;
    rewrite (omap_effects sel_persist) by done; rewrite Hefs;
    unfold failure_effects, persist_effects, callback_effects, post_event, put;
    rewrite !omap_app, ?analysis_silent by done;
    try (destruct (source_call_event _ _ Hsrc) as [[? ->]|[? ->]]);
    destruct (truthy (payload_get payload "callback_url" PNone));
    try destruct (truthy (payload_get payload "policy_id" PNone));
    pick;
    entry_fields;
    (split; [try done|try done]); by intros [?|?].
Qed.


(** X14: when the extractor reports a failure, the job fails with
    the extractor's error in its message, has no result, and no later
    collaborator is invoked. *)
Theorem extraction_failure_fails_job s0 call0 x0 :
  source_call W payload = Some (call0, x0) ->
  ExtractionResult.success x0 = false ->
  let r := run_policy_analysis W id payload s0 in
  let e := entry_of id r in
  field e "status" = PStr "failed"
  /\ field e "error"
     = PStr ("PDF extraction failed: " +:+ py_str W (ExtractionResult.error x0))
  /\ field e "result" = PNone
  /\ omap sel_collaborator (events r) = [Extractor].
Proof.
  intros Hsrc0 Hx0 r e. subst r e.
  job_cases W id payload s0; rewrite Hsrc0 in Hsrc; try done;
    injection Hsrc as <- <-; try congruence.
  rewrite (omap_effects sel_collaborator) by done. rewrite Hefs. subst e.
  unfold failure_effects, callback_effects, post_event, put.
  destruct (source_call_event _ _ Hsrc0) as [[? ->]|[? ->]];
    destruct (truthy (payload_get payload "callback_url" PNone)); pick; entry_fields; done.
Qed.

(** X15: without an API key every job whose text was extracted fails
    at the Analyze stage with the analyzer's message, and the model is never
    called. *)
Theorem missing_key_fails_job s0 call0 x0 :
  ANTHROPIC_API_KEY (settings W) = "" ->
  source_call W payload = Some (call0, x0) ->
  ExtractionResult.success x0 = true ->
  let r := run_policy_analysis W id payload s0 in
  let e := entry_of id r in
  field e "status" = PStr "failed"
  /\ field e "error" = PStr "Claude analysis failed: Anthropic API key not configured"
  /\ omap sel_collaborator (events r) = [Extractor; Analyzer].
Proof.
  intros Hkey Hsrc0 Hx0 r e. subst r e.
  job_cases W id payload s0; rewrite Hsrc0 in Hsrc; try done;
    injection Hsrc as <- <-; try congruence;
    rewrite (omap_effects sel_collaborator) by done; rewrite Hefs;
    unfold analysis_fails, analysis_call in *;
    destruct (analyze_policy_effects W (ExtractionResult.text x0)
                (payload_get payload "client_name" (PStr "Unknown Client"))
                (payload_get payload "client_industry" (PStr "Other/General"))
                (payload_get payload "policy_type" (PStr "cyber"))
                (payload_get payload "renewal" (PBool false)) s0)
      as [(_ & Hae & Ho)|[(? & _)|(? & _)]]; try done.
  - destruct Hfail as [Hfail|(ar & Hfail & _ & ->)]; rewrite Ho in Hfail; [done|].
    injection Hfail as <-.
    unfold failure_effects, callback_effects, post_event, put. rewrite !omap_app, Hae.
    destruct (source_call_event _ _ Hsrc0) as [[? ->]|[? ->]];
      destruct (truthy (payload_get payload "callback_url" PNone)); pick; entry_fields; done.
  - rewrite Ho in Hout. injection Hout as <-. by cbn in Har.
Qed.

(** What the analyzer returns when the API call raises. *)
Lemma analysis_call_api_error x s e :
  In e (omap sel_api_error (events (analysis_call W payload x s))) ->
  outcome (analysis_call W payload x s) = Ok (analysis_failure (analysis_error e)).
Proof. intros H. by apply analyze_policy_on_api_error. Qed.

(** X16: when the API call of the model raises, the job fails at the
    Analyze stage with the exception's text in its message (marked as an API
    error when it is one), has no result, and neither the renderer nor the
    result store is invoked. *)
Theorem api_error_fails_job s0 exc :
  let r := run_policy_analysis W id payload s0 in
  let e := entry_of id r in
  In exc (omap sel_api_error (events r)) ->
  field e "status" = PStr "failed"
  /\ field e "error" = PStr ("Claude analysis failed: " +:+ analysis_error exc)
  /\ field e "result" = PNone
  /\ omap sel_collaborator (events r) = [Extractor; Analyzer; Model].
Proof.
  intros r e. subst r e.
  job_cases W id payload s0;
    rewrite (omap_effects sel_api_error), (omap_effects sel_collaborator) by done;
    rewrite Hefs, !omap_app;
    rewrite ?(failure_effects_silent W id payload sel_api_error),
      ?(callback_effects_silent W payload sel_api_error),
      ?(persist_effects_silent id payload sel_api_error) by done;
    unfold put; pick;
    rewrite ?(source_call_silent W payload sel_api_error _ _ Hsrc) by done;
    rewrite ?app_nil_r; try done;
    rewrite <- (omap_effects sel_api_error) by done; intros Hin;
    pose proof (analysis_call_api_error _ _ _ Hin) as Ho.
  - (* the analysis failed *)
    destruct Hfail as [Hfail|(ar & Hfail & _ & ->)]; rewrite Ho in Hfail; [done|].
    injection Hfail as <-. entry_fields.
    split; [done|]. split; [done|]. split; [done|].
    rewrite (failure_effects_silent W id payload sel_collaborator) by done.
    rewrite (source_call_collaborator W payload _ _ Hsrc), app_nil_r.
    unfold analysis_call in Hin |- *.
    destruct (analyze_policy_effects W (ExtractionResult.text x)
                (payload_get payload "client_name" (PStr "Unknown Client"))
                (payload_get payload "client_industry" (PStr "Other/General"))
                (payload_get payload "policy_type" (PStr "cyber"))
                (payload_get payload "renewal" (PBool false)) s0)
      as [(_ & Hae & _)|[(_ & Hae & _)|(_ & (m & k & u & sys & o & Hae) & _)]];
      rewrite (omap_effects sel_api_error), Hae in Hin by done; [done|done|].
    by rewrite Hae.
  - (* the job completed: the analyzer was successful *)
    rewrite Ho in Hout. injection Hout as <-. by cbn in Har.
Qed.

Lemma reading_le s n : (reading W s n <= reading W s (S n))%N.
Proof.
  unfold reading. generalize (now s) (reads s). induction n as [|n IH]; intros t k.
  - cbn. lia.
  - apply (IH (t + tick W k)%N (S k)).
Qed.

(** X8: a job never raises: it returns normally with its entry in
    status completed or failed, and the entry keeps the job id and the start
    time, with a completion time that is not earlier. *)
Theorem job_ends_terminal s0 :
  let r := run_policy_analysis W id payload s0 in
  let e := entry_of id r in
  outcome r = Ok tt
  /\ terminal (field e "status")
  /\ field e "analysis_id" = PStr id
  /\ field e "started_at" = PStr (isoformat (start_time W s0))
  /\ exists t, field e "completed_at" = PStr (isoformat t) /\ (start_time W s0 <= t)%N.
Proof.
  intros r e. subst r e.
  job_cases W id payload s0; unfold outcome, terminal; cbn [fst]; entry_fields;
    (split; [done|]); (split; [by auto|]); (split; [done|]); (split; [done|]);
    exists (reading W s0 2); (split; [done|]); apply (reading_le s0 1).
Qed.

(** X13: the result of a completed job: its score and recommendation
    are read from the executive summary of the analysis data that was
    rendered, the report path is the renderer's (or [None]), the completion
    time is the entry's, and the elapsed time runs from the start to a clock
    reading that is not earlier than the completion time. *)
Theorem completed_job_result s0 :
  let r := run_policy_analysis W id payload s0 in
  let e := entry_of id r in
  field e "status" = PStr "completed" ->
  exists data es km sc rec tc td,
    omap sel_render (events r) = [(data, rendered W data)]
    /\ py_get data "executive_summary" (PDict []) = Ok es
    /\ py_get es "key_metrics" (PDict []) = Ok km
    /\ py_get km "overall_maturity_score" PNone = Ok sc
    /\ py_get es "recommendation" PNone = Ok rec
    /\ field e "completed_at" = PStr (isoformat tc)
    /\ (tc <= td)%N
    /\ field e "result"
       = PDict [("analysis_id", PStr id);
                ("policy_id", payload_get payload "policy_id" PNone);
                ("client_id", payload_get payload "client_id" PNone);
                ("client_name", payload_get payload "client_name" (PStr "Unknown Client"));
                ("status", PStr "completed");
                ("overall_score", sc);
                ("recommendation", rec);
                ("report_path", report_path_of (rendered W data));
                ("analysis_data", data);
                ("completed_at", PStr (isoformat tc));
                ("processing_time_seconds", PFloat (elapsed (start_time W s0) td))].
Proof.
  intros r e. subst r e.
  job_cases W id payload s0; entry_fields; try done. intros _.
  exists (AnalysisResult.analysis_data ar), es, km, sc, rec, (reading W s0 2), (reading W s0 3).
  rewrite (omap_effects sel_render) by done. rewrite Hefs.
  unfold persist_effects, callback_effects, post_event, put.
  rewrite !omap_app, analysis_silent by done.
  destruct (source_call_event _ _ Hsrc) as [[? ->]|[? ->]];
    destruct (truthy (payload_get payload "callback_url" PNone));
    destruct (truthy (payload_get payload "policy_id" PNone));
    pick; subst result;
    (split; [done|]); (split; [done|]); (split; [done|]); (split; [done|]);
    (split; [done|]); (split; [done|]); (split; [apply (reading_le s0 2)|done]).
Qed.

(** X20: a job writes its own entry only: the entries of other jobs
    are the same in every store it writes and when it ends. *)
Theorem job_leaves_other_entries s0 id' :
  id' <> id ->
  let r := run_policy_analysis W id payload s0 in
  Forall (fun st => st !! id' = store s0 !! id') (omap sel_store (events r))
  /\ store (final r) !! id' = store s0 !! id'.
Proof.
  intros Hne r. subst r.
  assert (Hsnap : forall t0 st, snap_running id (store s0) t0 st ->
                                st !! id' = store s0 !! id').
  { intros t0 st (en & -> & _). by rewrite lookup_insert_ne. }
  destruct (run_spec W id payload s0) as (s' & evs & -> & [Hc|Hf]);
    unfold final, events; cbn [fst snd].
  - destruct Hc as (en & data & raw & tc & td & sc & rec & snaps & Hc).
    cbn zeta in Hc. destruct Hc as (_ & Hst & -> & Hsn & _).
    assert (Hfin : store s' !! id' = store s0 !! id')
      by (rewrite Hst; by rewrite lookup_insert_ne).
    split; [|done]. apply Forall_app. split; [|by constructor].
    eapply Forall_impl; [exact Hsn|]. intros st. apply Hsnap.
  - destruct Hf as (en & e & t & snaps & _ & Hst & -> & Hsn & _).
    assert (Hfin : store s' !! id' = store s0 !! id')
      by (rewrite Hst; by rewrite lookup_insert_ne).
    split; [|done]. apply Forall_app. split; [|by constructor].
    eapply Forall_impl; [exact Hsn|]. intros st. apply Hsnap.
Qed.
End JobProperties.

(** ** The result store and the callback endpoint *)

Section Delivery.
Context (W : World) {DT : DateTime}.
Variables (id : string) (payload : list (string * pyval)).

Lemma analysis_fails_functional x s e e' :
  analysis_fails W payload x s e -> analysis_fails W payload x s e' -> e = e'.
Proof.
  intros [H|(ar & H & Hs & ->)] [H'|(ar' & H' & Hs' & ->)]; congruence.
Qed.

(** The final store is determined by the course. *)
Lemma job_trace_store s0 st efs st' efs' :
  job_trace W id payload s0 st efs -> job_trace W id payload s0 st' efs' -> st = st'.
Proof.
  intros H H'.
  destruct H as [Hsrc|call x e Hsrc Hx He|call x e Hsrc Hx Hfail
                |call x ar es km sc rec result Hsrc Hx Hout Har Hes Hkm Hsc Hrec Hres];
    destruct H' as [Hsrc'|call' x' e' Hsrc' Hx' He'|call' x' e' Hsrc' Hx' Hfail'
                   |call' x' ar' es' km' sc' rec' result' Hsrc' Hx' Hout' Har' Hes' Hkm'
                      Hsc' Hrec' Hres'];
    rewrite Hsrc in Hsrc'; try done; injection Hsrc' as <- <-; try congruence.
  - by rewrite (analysis_fails_functional _ _ _ _ Hfail Hfail').
  - destruct Hfail as [Hfail|(ar0 & Hfail & Hs & _)]; congruence.
  - destruct Hfail' as [Hfail|(ar0 & Hfail & Hs & _)]; congruence.
Qed.

Lemma job_trace_delivery client execute post s0 st efs :
  job_trace (with_delivery W client execute post) id payload s0 st efs ->
  exists efs', job_trace W id payload s0 st efs'.
Proof.
  intros H.
  destruct H as [Hsrc|call x e Hsrc Hx He|call x e Hsrc Hx Hfail
                |call x ar es km sc rec result Hsrc Hx Hout Har Hes Hkm Hsc Hrec Hres];
    eexists.
  - exact (job_no_source W id payload s0 Hsrc).
  - exact (job_extraction_failed W id payload s0 call x e Hsrc Hx He).
  - exact (job_analysis_failed W id payload s0 call x e Hsrc Hx Hfail).
  - exact (job_completed W id payload s0 call x ar es km sc rec result
             Hsrc Hx Hout Har Hes Hkm Hsc Hrec Hres).
Qed.

(** X22: what the result store and the callback endpoint answer has
    no influence on the job: with any other result store and endpoint the
    job returns the same and ends with the same store. *)
Theorem delivery_does_not_alter_job s0 client execute post :
  let W' := with_delivery W client execute post in
  outcome (run_policy_analysis W' id payload s0)
  = outcome (run_policy_analysis W id payload s0)
  /\ store (final (run_policy_analysis W' id payload s0))
     = store (final (run_policy_analysis W id payload s0)).
Proof.
  intros W'.
  destruct (run_trace W id payload s0) as (s1 & evs1 & -> & H1).
  destruct (run_trace W' id payload s0) as (s2 & evs2 & -> & H2).
  split; [done|]. unfold final. cbn [fst snd].
  destruct (job_trace_delivery _ _ _ _ _ _ H2) as (efs' & H2').
  symmetry. by eapply job_trace_store.
Qed.
End Delivery.

(** ** Stage updates *)

Section StoreFacts.

Lemma stage_fields_other st pr k :
  k <> "status" -> k <> "progress" -> stage_fields st pr !! k = None.
Proof. intros ? ?. unfold stage_fields. cbn. by simplify_map_eq. Qed.

Lemma stage_fields_absorb st1 pr1 st2 pr2 (e : entry) :
  stage_fields st2 pr2 ∪ (stage_fields st1 pr1 ∪ e) = stage_fields st2 pr2 ∪ e.
Proof.
  apply map_eq. intros k.
  destruct (decide (k = "status")) as [->|?];
    [by erewrite !lookup_union_Some_l by done|].
  destruct (decide (k = "progress")) as [->|?];
    [by erewrite !lookup_union_Some_l by done|].
  by rewrite !lookup_union_r by (by apply stage_fields_other).
Qed.

(** X7: of two stage updates in a row the second one wins: the
    store is the same as after the second update alone, whether or not the
    job has an entry, and the update returns normally. *)
Theorem update_status_last_wins id st1 pr1 st2 pr2 s :
  store (final (_update_status id st2 pr2 (final (_update_status id st1 pr1 s))))
  = store (final (_update_status id st2 pr2 s))
  /\ outcome (_update_status id st2 pr2 (final (_update_status id st1 pr1 s))) = Ok tt.
Proof.
  destruct (store s !! id) as [e|] eqn:He.
  - rewrite (update_status_present id st1 pr1 s e He). unfold final at 2 4. cbn [fst snd].
    assert (He' : store (set_store s (<[id := stage_fields st1 pr1 ∪ e]> (store s))) !! id
                  = Some (stage_fields st1 pr1 ∪ e)) by apply lookup_insert_eq.
    rewrite (update_status_present id st2 pr2 _ _ He').
    rewrite (update_status_present id st2 pr2 s e He).
    unfold final, outcome. cbn [fst snd store set_store].
    by rewrite insert_insert_eq, stage_fields_absorb.
  - rewrite (update_status_absent id st1 pr1 s He). unfold final at 2 4. cbn [fst snd].
    by rewrite (update_status_absent id st2 pr2 s He).
Qed.
End StoreFacts.

(** ** The reply of the model *)

Section Replies.
Context (W : World) {DT : DateTime}.
Variables (id : string) (payload : list (string * pyval)).






Lemma analysis_fails_state x s s' e :
  analysis_fails W payload x s e -> analysis_fails W payload x s' e.
Proof.
  unfold analysis_fails, analysis_call.
  rewrite (analyze_policy_indep W _ _ _ _ _ s' s). by unfold outcome at 3 5.
Qed.

Lemma job_trace_restore s0 st0 st efs :
  job_trace W id payload s0 st efs ->
  exists efs',
    job_trace W id payload (set_store s0 st0) (<[id := default ∅ (st !! id)]> st0) efs'.
Proof.
  intros H.
  destruct H as [Hsrc|call x e Hsrc Hx He|call x e Hsrc Hx Hfail
                |call x ar es km sc rec result Hsrc Hx Hout Har Hes Hkm Hsc Hrec Hres];
    eexists; rewrite lookup_insert_eq; cbn [default].
  - exact (job_no_source W id payload (set_store s0 st0) Hsrc).
  - exact (job_extraction_failed W id payload (set_store s0 st0) call x e Hsrc Hx He).
  - exact (job_analysis_failed W id payload (set_store s0 st0) call x e Hsrc Hx
             (analysis_fails_state x s0 _ e Hfail)).
  - assert (Hout' : outcome (analysis_call W payload x (set_store s0 st0)) = Ok ar).
    { unfold analysis_call in *.
      rewrite (analyze_policy_indep W _ _ _ _ _ (set_store s0 st0) s0). exact Hout. }
    exact (job_completed W id payload (set_store s0 st0) call x ar es km sc rec result
             Hsrc Hx Hout' Har Hes Hkm Hsc Hrec Hres).
Qed.

(** X21: a job reads nothing from the status store: whatever the
    store holds when the job starts, under its own id or under others, the
    job ends with the same entry. *)
Theorem job_ignores_previous_store s0 st0 :
  entry_of id (run_policy_analysis W id payload (set_store s0 st0))
  = entry_of id (run_policy_analysis W id payload s0).
Proof.
  destruct (run_trace W id payload s0) as (s1 & evs1 & -> & H1).
  destruct (run_trace W id payload (set_store s0 st0)) as (s2 & evs2 & -> & H2).
  destruct (job_trace_restore s0 st0 _ _ H1) as (efs' & H1').
  pose proof (job_trace_store W id payload _ _ _ _ _ H2 H1') as Hst.
  unfold entry_of, final. cbn [fst snd]. by rewrite Hst, lookup_insert_eq.
Qed.
End Replies.

(** ** The webhook *)

Section SignatureFacts.
Variable hmac_sha256_hexdigest : string -> string -> string.
Hypothesis hexdigest_hex : forall key msg, all_hex (hmac_sha256_hexdigest key msg) = true.

Lemma replace_absent old new s :
  match old with String a _ => free_of a s | EmptyString => false end = true ->
  replace_from old new O s = s.
Proof.
  destruct old as [|a old]; [done|].
  induction s as [|c s IH]; [done|]. cbn [free_of]. intros [Hc Hs]%andb_prop.
  cbn [replace_from Re.strip_prefix]. rewrite Ascii.eqb_sym.
  destruct (Ascii.eqb c a); [done|]. by rewrite (IH Hs).
Qed.

Lemma hex_free_s h : all_hex h = true -> free_of "s" h = true.
Proof.
  induction h as [|c h IH]; [done|]. cbn. intros [Hc Hh]%andb_prop.
  rewrite (IH Hh), andb_true_r.
  destruct (Ascii.eqb_spec c "s") as [->|]; [|done]. vm_compute in Hc. discriminate Hc.
Qed.

Lemma hex_ascii h : all_hex h = true -> all_ascii h = true.
Proof.
  induction h as [|c h IH]; [done|]. cbn. intros [Hc Hh]%andb_prop.
  rewrite (IH Hh), andb_true_r. unfold is_hex in Hc.
  apply Nat.leb_le. apply orb_prop in Hc as [Hc|Hc]; apply andb_prop in Hc as [_ Hc];
    apply Nat.leb_le in Hc; lia.
Qed.

Lemma strip_marker h : all_hex h = true -> str_replace ("sha256=" +:+ h) "sha256=" "" = h.
Proof.
  intros Hh. unfold str_replace. rewrite !app_String, app_empty.
  cbn [replace_from Re.strip_prefix Ascii.eqb Bool.eqb String.length Nat.sub].
  rewrite app_empty. cbn [replace_from]. destruct h as [|c h]; [done|].
  apply (replace_absent "sha256=" ""). by apply hex_free_s.
Qed.

(** X25: with a secret, a signature header of the form
    [sha256=<hex>], or the bare [<hex>], is accepted exactly when [<hex>] is
    the HMAC digest of the payload; without a secret every signature is
    accepted.  The check does not raise on such headers. *)
Theorem verify_signature_well_formed payload secret h s :
  all_hex h = true ->
  let accepted :=
    if String.eqb secret "" then true
    else String.eqb (hmac_sha256_hexdigest secret payload) h in
  outcome (verify_signature hmac_sha256_hexdigest payload ("sha256=" +:+ h) secret s)
  = Ok accepted
  /\ outcome (verify_signature hmac_sha256_hexdigest payload h secret s) = Ok accepted.
Proof.
  intros Hh accepted. subst accepted. unfold verify_signature.
  destruct (String.eqb secret ""); [done|].
  rewrite (strip_marker h Hh). unfold str_replace.
  rewrite (replace_absent "sha256=" "" h) by (by apply hex_free_s).
  unfold lift, outcome, compare_digest. cbn [fst].
  by rewrite (hex_ascii _ (hexdigest_hex secret payload)), (hex_ascii _ Hh).
Qed.
End SignatureFacts.

Section WebhookFacts.
Context (W : World) {DT : DateTime}.

Lemma source_call_webhook p :
  PolicyUploadedPayload.file_url p <> "" ->
  source_call W (model_dump p)
  = Some (EvExtractUrl (PolicyUploadedPayload.file_url p),
          extract_from_url W (PolicyUploadedPayload.file_url p)).
Proof.
  intros Hne. unfold source_call, model_dump. cbn.
  destruct (String.eqb_spec (PolicyUploadedPayload.file_url p) ""); [done|done].
Qed.

(** X23: a webhook request queues one job, under the id the response
    announces, and that job downloads the file from the payload's URL: the
    first collaborator it invokes is the extractor, on that URL. *)
Theorem webhook_job_downloads_file uuid4_hex p signature s0 :
  PolicyUploadedPayload.file_url p <> "" ->
  exists response task logs,
    handle_policy_uploaded uuid4_hex p signature = (response, [task], logs)
    /\ task_analysis_id task = WebhookResponse.analysis_id response
    /\ head (omap sel_collab (events (run_task W task s0)))
       = Some (EvExtractUrl (PolicyUploadedPayload.file_url p)).
Proof.
  intros Hne. do 3 eexists. split; [reflexivity|]. split; [done|].
  unfold run_task. cbn [task_analysis_id task_payload].
  set (id := "analysis_" +:+ Re.take 12 uuid4_hex).
  pose proof (source_call_webhook p Hne) as Hsrc0.
  destruct (run_course W id (model_dump p) s0)
    as (s' & evs & st & efs & -> & Hst & Hefs & Htr).
  unfold events. cbn [snd]. rewrite (omap_effects sel_collab) by done. rewrite Hefs.
  destruct Htr as [Hsrc|call x e Hsrc Hx He|call x e Hsrc Hx Hfail
                  |call x ar es km sc rec result Hsrc Hx Hout Har Hes Hkm Hsc Hrec Hres];
    rewrite Hsrc0 in Hsrc; try done; by injection Hsrc as <- <-.
Qed.

End WebhookFacts.

(** ** More concrete runs *)


Lemma parse_fenced_document_witness :
  demo_loads a1_text = Some (PDict [("a", PInt 1)])
  /\ _parse_analysis_json demo_loads
       ("Here you are:" +:+ nl +:+ "```" +:+ "json" +:+ nl +:+ a1_text +:+ nl +:+ "```"
        +:+ " Regards")
     = Ok (PDict [("a", PInt 1)]).
Proof.
  split; [reflexivity|].
  exact (parse_fenced_document demo_loads ("Here you are:" +:+ nl) "json" nl a1_text nl
           " Regards" (PDict [("a", PInt 1)])
           eq_refl eq_refl (or_introl eq_refl) eq_refl eq_refl eq_refl eq_refl eq_refl eq_refl).
Defined.


Lemma analyze_policy_enriches_witness :
  summary_ok (PDict summary_items)
  /\ exists ar,
       outcome (analyze_policy structured_world "POLICY" (PStr "Acme Corp")
                  (PStr "Healthcare") (PStr "cyber") (PBool false) empty_state) = Ok ar
       /\ AnalysisResult.tokens_used ar = PInt 150.
Proof.
  assert (Hs : summary_ok (PDict summary_items)).
  { exists [("recommendation", PStr "BIND");
            ("key_metrics", PDict [("overall_maturity_score", PInt 7)])],
           [("overall_maturity_score", PInt 7)]. by split. }
  split; [exact Hs|].
  destruct (analyze_policy_enriches structured_world "POLICY" (PStr "Acme Corp")
              (PStr "Healthcare") (PStr "cyber") (PBool false) empty_state
              summary_text 120 30 summary_items)
    as (ar & data & Hout & _ & _ & Htok & _).
  - vm_compute. by left.
  - vm_compute. reflexivity.
  - discriminate.
  - exact Hs.
  - exists ar. by split.
Defined.

Lemma analyze_policy_api_error_witness :
  exists ar,
    outcome (analyze_policy overloaded_world "POLICY" (PStr "Acme Corp")
               (PStr "Healthcare") (PStr "cyber") (PBool false) empty_state) = Ok ar
    /\ AnalysisResult.error ar = PStr "API error: overloaded".
Proof.
  destruct (analyze_policy_api_error overloaded_world "POLICY" (PStr "Acme Corp")
              (PStr "Healthcare") (PStr "cyber") (PBool false) empty_state
              (APIError "overloaded"))
    as (ar & Hout & _ & _ & Herr & _).
  - vm_compute. by left.
  - exists ar. by split.
Defined.

Lemma extraction_failure_fails_job_witness :
  source_call unreadable_world upload_payload
  = Some (EvExtractFile (PStr "temp/policy.pdf"),
          extract_from_file unreadable_world (PStr "temp/policy.pdf"))
  /\ field (entry_of "job-1" (run_policy_analysis unreadable_world "job-1" upload_payload
                               empty_state)) "error"
     = PStr "PDF extraction failed: not a PDF".
Proof.
  split; [reflexivity|].
  exact (proj1 (proj2 (extraction_failure_fails_job unreadable_world "job-1" upload_payload
                         empty_state _ _ eq_refl eq_refl))).
Defined.

Lemma missing_key_fails_job_witness :
  ANTHROPIC_API_KEY (settings unconfigured_world) = ""
  /\ field (entry_of "job-1" (run_policy_analysis unconfigured_world "job-1" upload_payload
                               empty_state)) "status"
     = PStr "failed".
Proof.
  split; [reflexivity|].
  exact (proj1 (missing_key_fails_job unconfigured_world "job-1" upload_payload
                  empty_state (EvExtractFile (PStr "temp/policy.pdf"))
                  (extract_from_file unconfigured_world (PStr "temp/policy.pdf"))
                  eq_refl eq_refl eq_refl)).
Defined.

Lemma api_error_fails_job_witness :
  field (entry_of "job-1" (run_policy_analysis overloaded_world "job-1" upload_payload
                             empty_state)) "error"
  = PStr "Claude analysis failed: API error: overloaded".
Proof.
  apply (api_error_fails_job overloaded_world "job-1" upload_payload empty_state
           (APIError "overloaded")).
  vm_compute. by left.
Defined.

Lemma completed_job_result_witness :
  field (entry_of "job-1" (run_policy_analysis demo_world "job-1" upload_payload
                             empty_state)) "status" = PStr "completed"
  /\ exists data,
       omap sel_render (events (run_policy_analysis demo_world "job-1" upload_payload
                                  empty_state))
       = [(data, rendered demo_world data)].
Proof.
  assert (H : field (entry_of "job-1" (run_policy_analysis demo_world "job-1" upload_payload
                                         empty_state)) "status" = PStr "completed")
    by (vm_compute; reflexivity).
  split; [exact H|].
  destruct (completed_job_result demo_world "job-1" upload_payload empty_state H)
    as (data & es & km & sc & rec & tc & td & Hr & _).
  by exists data.
Defined.

Lemma job_leaves_other_entries_witness :
  "job-2" <> "job-1"
  /\ store (final (run_policy_analysis demo_world "job-2" upload_payload used_state))
       !! "job-1"
     = store used_state !! "job-1".
Proof.
  assert (H : "job-1" <> "job-2") by discriminate.
  split; [discriminate|].
  exact (proj2 (job_leaves_other_entries demo_world "job-2" upload_payload used_state
                  "job-1" H)).
Defined.




Lemma verify_signature_well_formed_witness :
  all_hex "00ffc0de" = true
  /\ outcome (verify_signature demo_hexdigest "body" "sha256=00ffc0de" "s3cret" empty_state)
     = Ok true.
Proof.
  split; [reflexivity|].
  exact (proj1 (verify_signature_well_formed demo_hexdigest (fun _ _ => eq_refl)
                  "body" "s3cret" "00ffc0de" empty_state eq_refl)).
Defined.

Lemma webhook_job_downloads_file_witness :
  PolicyUploadedPayload.file_url webhook_payload <> ""
  /\ exists response task logs,
       handle_policy_uploaded demo_uuid_hex webhook_payload None = (response, [task], logs)
       /\ task_analysis_id task = "analysis_0123456789ab".
Proof.
  assert (H : PolicyUploadedPayload.file_url webhook_payload <> "") by discriminate.
  split; [exact H|].
  destruct (webhook_job_downloads_file demo_world demo_uuid_hex webhook_payload None
              empty_state H) as (response & task & logs & Heq & Hid & _).
  exists response, task, logs. split; [exact Heq|].
  injection Heq as <- <- _. reflexivity.
Defined.

